(** * youtube-apis: the two RapidAPI clients, embedded and verified

    The repository holds two Go packages that are near copies of one pattern:
    [mediadownloader] (channel video listing) and [yttranscriptor] (video
    transcript).  Each is embedded below in a module of its own, function by
    function, over a small model of the Go values they use (strings, errors,
    [fmt] verbs, nilable pointers and slices) and of the three collaborators
    they call: net/http, go.uber.org/ratelimit and encoding/json.

    Limiter and option values are taken to be non-nil, and a call runs on a
    receiver that exists; a nil [rateLimit] or [httpClient] pointer inside
    the receiver makes the call panic, as it does in Go. *)

From Stdlib Require Import String Ascii List ZArith Bool Lia.
From Stdlib Require Import Sorting.Sorted.
From Stdlib Require Import Floats.PrimFloat.
Import ListNotations.
Local Open Scope string_scope.
Local Open Scope list_scope.

(** ** Go values *)

Module Go.

(** A Go [error]: a message, and for errors built by [fmt.Errorf] with the
    [%w] verb the error they wrap. *)
Inductive error : Type :=
| errorString (s : string)
| wrapError (msg : string) (err : error).

(** [err.Error()] *)
Definition Error (e : error) : string :=
  match e with
  | errorString s => s
  | wrapError msg _ => msg
  end.

(** [errors.Unwrap(err)] *)
Definition Unwrap (e : error) : option error :=
  match e with
  | errorString _ => None
  | wrapError _ err => Some err
  end.

(** A slice: [None] is the nil slice, [Some l] a non-nil slice holding [l]. *)
Definition slice (A : Type) : Type := option (list A).

(** The elements a [range] loop visits. *)
Definition elems {A : Type} (s : slice A) : list A :=
  match s with
  | None => []
  | Some l => l
  end.

(** Operands of the [fmt] functions. *)
Inductive arg : Type :=
| argString (s : string)
| argError (e : error).

Definition arg_text (a : arg) : string :=
  match a with
  | argString s => s
  | argError e => Error e
  end.

(** The verbs the two packages use: [%s], and [%w] which prints like [%s].
    Any other byte of the format is copied.  A verb with no operand left
    prints Go's [%!s(MISSING)]. *)
Fixpoint formatVerbs (format : string) (args : list arg) : string :=
  match format with
  | EmptyString => EmptyString
  | String c rest =>
      match c, rest with
      | "%"%char, String v rest' =>
          if (Ascii.eqb v "s" || Ascii.eqb v "w")%bool then
            match args with
            | a :: args' => arg_text a ++ formatVerbs rest' args'
            | [] => "%!" ++ String v "(MISSING)" ++ formatVerbs rest' []
            end
          else String c (String v (formatVerbs rest' args))
      | _, _ => String c (formatVerbs rest args)
      end
  end.

(** The operand of the first [%w] verb, when it is an error. *)
Fixpoint wrappedOperand (format : string) (args : list arg) : option error :=
  match format with
  | EmptyString => None
  | String c rest =>
      match c, rest with
      | "%"%char, String v rest' =>
          if Ascii.eqb v "w" then
            match args with
            | argError e :: _ => Some e
            | _ => None
            end
          else if Ascii.eqb v "s" then wrappedOperand rest' (tl args)
          else wrappedOperand rest' args
      | _, _ => wrappedOperand rest args
      end
  end.

(** [fmt.Sprintf] *)
Definition Sprintf (format : string) (args : list arg) : string :=
  formatVerbs format args.

(** [fmt.Errorf]: wraps the [%w] operand when there is one. *)
Definition Errorf (format : string) (args : list arg) : error :=
  match wrappedOperand format args with
  | Some e => wrapError (formatVerbs format args) e
  | None => errorString (formatVerbs format args)
  end.

(** [time.Duration], in nanoseconds. *)
Definition Duration : Type := Z.
Definition Second : Duration := 1000000000%Z.

End Go.

Import Go.

(** ** net/http *)

Module http.

(** [textproto]'s token bytes: letters, digits and the marks
    [!#$%&'*+-.^_`|~]. *)
Definition validHeaderFieldByte (c : ascii) : bool :=
  let n := nat_of_ascii c in
  ((Nat.leb 97 n && Nat.leb n 122)
   || (Nat.leb 65 n && Nat.leb n 90)
   || (Nat.leb 48 n && Nat.leb n 57)
   || existsb (Nat.eqb n)
        [33; 35; 36; 37; 38; 39; 42; 43; 45; 46; 94; 95; 96; 124; 126])%bool.

Fixpoint allValidHeaderFieldBytes (s : string) : bool :=
  match s with
  | EmptyString => true
  | String c s' => (validHeaderFieldByte c && allValidHeaderFieldBytes s')%bool
  end.

(** The second loop of [canonicalMIMEHeaderKey]: upper case for the first
    letter and for a letter after a dash, lower case for the others. *)
Fixpoint canonicalLetters (upper : bool) (s : string) : string :=
  match s with
  | EmptyString => EmptyString
  | String c s' =>
      let n := nat_of_ascii c in
      let c' :=
        if (upper && Nat.leb 97 n && Nat.leb n 122)%bool
        then ascii_of_nat (n - 32)
        else if (negb upper && Nat.leb 65 n && Nat.leb n 90)%bool
        then ascii_of_nat (n + 32)
        else c in
      String c' (canonicalLetters (Ascii.eqb c' "-") s')
  end.

(** [textproto.CanonicalMIMEHeaderKey]: a key that holds a byte that is no
    token byte is returned as it is. *)
Definition CanonicalMIMEHeaderKey (s : string) : string :=
  if allValidHeaderFieldBytes s then canonicalLetters true s else s.

(** [http.Header], a map from canonical keys to the values added under
    them: an association list with one entry for a key. *)
Definition Header_ : Type := list (string * list string).

(** [h[key]] *)
Fixpoint lookup (h : Header_) (key : string) : list string :=
  match h with
  | [] => []
  | (k, vs) :: h' => if String.eqb k key then vs else lookup h' key
  end.

(** [h[key] = append(h[key], value)] *)
Fixpoint appendAt (key value : string) (h : Header_) : Header_ :=
  match h with
  | [] => [(key, [value])]
  | (k, vs) :: h' =>
      if String.eqb k key then (k, vs ++ [value]) :: h'
      else (k, vs) :: appendAt key value h'
  end.

(** [http.Request]: method, raw URL and headers. *)
Record Request : Type := mkRequest {
  Method : string;
  URL : string;
  Header : Header_
}.

(** [http.Response].  [Body] is what [io.ReadAll(res.Body)] returns: the
    bytes read and the read error, if any. *)
Record Response : Type := mkResponse {
  StatusCode : Z;
  Body : string * option error
}.

Definition StatusOK : Z := 200%Z.

(** [req.Header.Add(key, value)] *)
Definition Header_Add (key value : string) (req : Request) : Request :=
  {| Method := Method req;
     URL := URL req;
     Header := appendAt (CanonicalMIMEHeaderKey key) value (Header req) |}.

(** [req.Header.Values(key)] *)
Definition Header_Values (req : Request) (key : string) : list string :=
  lookup (Header req) (CanonicalMIMEHeaderKey key).

(** [req.Header.Get(key)] *)
Definition Header_Get (req : Request) (key : string) : string :=
  match Header_Values req key with
  | [] => EmptyString
  | v :: _ => v
  end.

End http.

(** ** The collaborators

    Everything the packages import and do not define: the limiter and
    transport handles with their operations, URL parsing, and the outside
    world (clock and network) that [Take] and [Do] act on. *)

Record Env : Type := mkEnv {
  Limiter : Type;
  HttpClient : Type;
  World : Type;
  (** [ratelimit.New(rate, ratelimit.Per(per))] *)
  ratelimit_New : Z -> Duration -> Limiter;
  (** [http.DefaultClient] *)
  http_DefaultClient : HttpClient;
  (** [url.Parse] as [http.NewRequest] uses it: the parse error of a raw
      URL, [None] when it parses. *)
  url_Parse : string -> option error;
  (** [rl.Take()]: blocks until the limiter admits the caller. *)
  limiter_Take : Limiter -> World -> World;
  (** [hc.Do(req)] *)
  client_Do : HttpClient -> http.Request -> World ->
              (http.Response + error) * World
}.

(** [json.Unmarshal(data, &v)] into a value of type [T]: the value left in
    [v] and the decode error. *)
Class Unmarshaler (T : Type) : Type :=
  json_Unmarshal : string -> T -> T * option error.

(** [http.NewRequest(method, url, nil)] for a valid method such as GET. *)
Definition http_NewRequest (E : Env) (method url : string)
  : http.Request + error :=
  match url_Parse E url with
  | Some err => inr err
  | None => inl {| http.Method := method; http.URL := url; http.Header := [] |}
  end.

(** ** Calls as state transformers

    A method call runs on a state holding its receiver, the world and the
    trace of what happened so far.  Events mark the external calls and, for
    the two pure steps the specification orders ([EvApplyOption],
    [EvCheckStatus]), the program point. *)

Section Runtime.
Context {E : Env}.

Inductive event : Type :=
| EvApplyOption
| EvTake (rl : Limiter E)
| EvNewRequest (method url : string)
| EvDo (hc : HttpClient E) (req : http.Request)
| EvReadAll
| EvCheckStatus (code : Z)
| EvUnmarshal (data : string)
| EvClose.

Context {C : Type}.

Record State : Type := mkState {
  self : C;
  world : World E;
  trace : list event
}.

Inductive outcome (A : Type) : Type :=
| Return (a : A)
| Panic (msg : string).
Arguments Return {A} a.
Arguments Panic {A} msg.

Definition M (A : Type) : Type := State -> outcome A * State.

Definition ret {A : Type} (a : A) : M A := fun s => (Return a, s).

Definition bind {A B : Type} (m : M A) (f : A -> M B) : M B :=
  fun s =>
    match m s with
    | (Return a, s') => f a s'
    | (Panic msg, s') => (Panic msg, s')
    end.

Definition emit (e : event) : M unit :=
  fun s =>
    (Return tt,
     {| self := self s; world := world s; trace := trace s ++ [e] |}).

(** The receiver [c]. *)
Definition getSelf : M C := fun s => (Return (self s), s).

(** [*p] *)
Definition deref {A : Type} (p : option A) : M A :=
  match p with
  | Some a => ret a
  | None => fun s => (Panic "nil pointer dereference", s)
  end.

Definition Take (rl : Limiter E) : M unit :=
  fun s =>
    (Return tt,
     {| self := self s;
        world := limiter_Take E rl (world s);
        trace := trace s ++ [EvTake rl] |}).

Definition NewRequest (method url : string) : M (http.Request + error) :=
  bind (emit (EvNewRequest method url))
       (fun _ => ret (http_NewRequest E method url)).

Definition Do (hc : HttpClient E) (req : http.Request)
  : M (http.Response + error) :=
  fun s =>
    let '(r, w) := client_Do E hc req (world s) in
    (Return r,
     {| self := self s; world := w; trace := trace s ++ [EvDo hc req] |}).

(** [io.ReadAll(res.Body)] *)
Definition ReadAll (res : http.Response) : M (string * option error) :=
  bind (emit EvReadAll) (fun _ => ret (http.Body res)).

Definition Unmarshal {T : Type} `{Unmarshaler T} (data : string) (v : T)
  : M (T * option error) :=
  bind (emit (EvUnmarshal data)) (fun _ => ret (json_Unmarshal data v)).

(** [defer d] followed by [body]: [d] runs when [body] is over, however it
    ended. *)
Definition defer {A : Type} (d : M unit) (body : M A) : M A :=
  fun s =>
    let '(r, s1) := body s in
    match d s1 with
    | (Return _, s2) => (r, s2)
    | (Panic msg, s2) => (Panic msg, s2)
    end.

End Runtime.

Arguments State E C : clear implicits.
Arguments M E C A : clear implicits.
Arguments Return {A} a.
Arguments Panic {A} msg.

Declare Scope go_scope.
Delimit Scope go_scope with go.
Notation "x <- m ;; k" := (bind m (fun x => k))
  (at level 100, m at next level, right associativity) : go_scope.
Notation "' p <- m ;; k" := (bind m (fun p => k))
  (at level 100, p pattern, m at next level, right associativity) : go_scope.
Notation "m ;;; k" := (bind m (fun _ => k))
  (at level 100, right associativity) : go_scope.

Local Open Scope go_scope.

(** ** Package mediadownloader *)

Module mediadownloader.

Section Package.
Context {E : Env}.

Record options : Type := mkOptions {
  host : string;
  rateLimit : option (Limiter E);
  httpClient : option (HttpClient E)
}.

(** [type Option func(option *options) error]: the options object after the
    call, and the error returned. *)
Definition Option : Type := options -> options * option error.

Definition WithHost (host : string) : Option :=
  fun option =>
    (* Check if host is valid. *)
    match http_NewRequest E "GET" (Sprintf "https://%s" [argString host]) with
    | inr err => (option, Some (Errorf "invalid host: %w" [argError err]))
    | inl _ =>
        ({| host := host;
            rateLimit := rateLimit option;
            httpClient := httpClient option |}, None)
    end.

Definition WithRateLimit (rl : Limiter E) : Option :=
  fun option =>
    ({| host := host option;
        rateLimit := Some rl;
        httpClient := httpClient option |}, None).

Definition WithHttpClient (hc : HttpClient E) : Option :=
  fun option =>
    ({| host := host option;
        rateLimit := rateLimit option;
        httpClient := Some hc |}, None).

(** The [options] pointer of a [Client] is set once by [New] and never nil
    in a client obtained from it; it is kept as the object it points to. *)
Record Client : Type := mkClient {
  apiKey : string;
  options_ : options
}.

(** [o := &options{}] *)
Definition zeroOptions : options :=
  {| host := EmptyString; rateLimit := None; httpClient := None |}.

(** The loop of [New] over [opts], from the options object [o]: the object
    as the loop leaves it and the error of the option that stopped it. *)
Fixpoint applyOptions (opts : list Option) (o : options)
  : options * option error :=
  match opts with
  | [] => (o, None)
  | opt :: opts' =>
      let '(o', err) := opt o in
      match err with
      | Some e => (o', Some e)
      | None => applyOptions opts' o'
      end
  end.

Definition defaultHost : string := "youtube-media-downloader.p.rapidapi.com".

(** The three defaults [New] fills in after the loop. *)
Definition withDefaults (o : options) : options :=
  let o :=
    if String.eqb (host o) EmptyString
    then {| host := defaultHost;
            rateLimit := rateLimit o;
            httpClient := httpClient o |}
    else o in
  let o :=
    match rateLimit o with
    | None => {| host := host o;
                 rateLimit := Some (ratelimit_New E 3 Second);
                 httpClient := httpClient o |}
    | Some _ => o
    end in
  match httpClient o with
  | None => {| host := host o;
               rateLimit := rateLimit o;
               httpClient := Some (http_DefaultClient E) |}
  | Some _ => o
  end.

Definition New (apiKey : string) (opts : list Option)
  : option Client * option error :=
  let '(o, err) := applyOptions opts zeroOptions in
  match err with
  | Some e => (None, Some (Errorf "bad option: %w" [argError e]))
  | None => (Some {| apiKey := apiKey; options_ := withDefaults o |}, None)
  end.

Definition ContentType : Type := string.
Definition ContentTypeVideos : ContentType := "videos".
Definition ContentTypeShorts : ContentType := "shorts".
Definition ContentTypeLive : ContentType := "live".
Definition ContentTypeUndefined : ContentType := EmptyString.

Record getChannelVideosOptions : Type := mkGetChannelVideosOptions {
  lang : string;
  contentType : ContentType
}.

Definition getChannelVideosOption : Type :=
  getChannelVideosOptions -> getChannelVideosOptions * option error.

Definition WithLang (lang : string) : getChannelVideosOption :=
  fun option => ({| lang := lang; contentType := contentType option |}, None).

Definition WithContentType (contentType : ContentType)
  : getChannelVideosOption :=
  fun option => ({| lang := lang option; contentType := contentType |}, None).

Record Thumbnail : Type := mkThumbnail {
  Thumbnail_URL : string;
  Width : Z;
  Height : Z;
  Moving : bool
}.

Record Video : Type := mkVideo {
  Type_ : string;
  ID : string;
  Title : string;
  IsLiveNow : bool;
  LengthText : string;
  ViewCountText : string;
  PublishedTimeText : string;
  Thumbnails : slice Thumbnail
}.

Record getChannelVideosResponse : Type := mkGetChannelVideosResponse {
  Status : bool;
  NextToken : string;
  Items : slice Video
}.

(** [&getChannelVideosResponse{}] *)
Definition zeroResponse : getChannelVideosResponse :=
  {| Status := false; NextToken := EmptyString; Items := None |}.

Context {JSON : Unmarshaler getChannelVideosResponse}.

Definition zeroRequestOptions : getChannelVideosOptions :=
  {| lang := EmptyString; contentType := ContentTypeUndefined |}.

(** The loop of [GetChannelVideos] over [opts]. *)
Fixpoint applyRequestOptions (opts : list getChannelVideosOption)
  (o : getChannelVideosOptions)
  : M E Client (getChannelVideosOptions * option error) :=
  match opts with
  | [] => ret (o, None)
  | opt :: opts' =>
      emit EvApplyOption ;;;
      let '(o', err) := opt o in
      match err with
      | Some e => ret (o', Some e)
      | None => applyRequestOptions opts' o'
      end
  end.

(** The two defaults [GetChannelVideos] fills in after the loop. *)
Definition withRequestDefaults (o : getChannelVideosOptions)
  : getChannelVideosOptions :=
  let o :=
    if String.eqb (lang o) EmptyString
    then {| lang := "en"; contentType := contentType o |}
    else o in
  if String.eqb (contentType o) ContentTypeUndefined
  then {| lang := lang o; contentType := ContentTypeVideos |}
  else o.

Definition GetChannelVideos (channelID : string)
  (opts : list getChannelVideosOption)
  : M E Client (slice Video * option error) :=
  ' (o, err) <- applyRequestOptions opts zeroRequestOptions ;;
  match err with
  | Some e => ret (None, Some (Errorf "bad option: %w" [argError e]))
  | None =>
  let o := withRequestDefaults o in
  c <- getSelf ;;
  let url :=
    Sprintf "https://%s/v2/channel/videos?channelId=%s&lang=%s"
      [argString (host (options_ c)); argString channelID;
       argString (lang o)] in
  rl <- deref (rateLimit (options_ c)) ;;
  Take rl ;;;
  r <- NewRequest "GET" url ;;
  match r with
  | inr e => ret (None, Some (Errorf "failed to create request: %w" [argError e]))
  | inl req =>
  let req := http.Header_Add "X-RapidAPI-Key" (apiKey c) req in
  let req := http.Header_Add "X-RapidAPI-Host" (host (options_ c)) req in
  hc <- deref (httpClient (options_ c)) ;;
  r <- Do hc req ;;
  match r with
  | inr e => ret (None, Some (Errorf "failed to execute request: %w" [argError e]))
  | inl res =>
  defer (emit EvClose) (
  ' (body, err) <- ReadAll res ;;
  match err with
  | Some e =>
      ret (None, Some (Errorf "failed to read response body: %w" [argError e]))
  | None =>
  emit (EvCheckStatus (http.StatusCode res)) ;;;
  if negb (Z.eqb (http.StatusCode res) http.StatusOK)
  then ret (None, Some (Errorf "http status code is not ok: %s" [argString body]))
  else
  ' (response, err) <- Unmarshal body zeroResponse ;;
  match err with
  | Some e =>
      ret (None,
           Some (Errorf "failed to unmarshal response body: %w" [argError e]))
  | None => ret (Items response, None)
  end
  end)
  end
  end
  end.

End Package.

Arguments options E : clear implicits.
Arguments Option E : clear implicits.
Arguments Client E : clear implicits.

End mediadownloader.

(** ** Package yttranscriptor *)

Module yttranscriptor.

Section Package.
Context {E : Env}.

Record options : Type := mkOptions {
  host : string;
  rateLimit : option (Limiter E);
  httpClient : option (HttpClient E)
}.

Definition Option : Type := options -> options * option error.

Definition WithHost (host : string) : Option :=
  fun option =>
    (* Check if host is valid. *)
    match http_NewRequest E "GET" (Sprintf "https://%s" [argString host]) with
    | inr err => (option, Some (Errorf "invalid host: %w" [argError err]))
    | inl _ =>
        ({| host := host;
            rateLimit := rateLimit option;
            httpClient := httpClient option |}, None)
    end.

Definition WithRateLimit (rl : Limiter E) : Option :=
  fun option =>
    ({| host := host option;
        rateLimit := Some rl;
        httpClient := httpClient option |}, None).

Definition WithHttpClient (hc : HttpClient E) : Option :=
  fun option =>
    ({| host := host option;
        rateLimit := rateLimit option;
        httpClient := Some hc |}, None).

Record Client : Type := mkClient {
  apiKey : string;
  options_ : options
}.

Definition zeroOptions : options :=
  {| host := EmptyString; rateLimit := None; httpClient := None |}.

Fixpoint applyOptions (opts : list Option) (o : options)
  : options * option error :=
  match opts with
  | [] => (o, None)
  | opt :: opts' =>
      let '(o', err) := opt o in
      match err with
      | Some e => (o', Some e)
      | None => applyOptions opts' o'
      end
  end.

Definition defaultHost : string := "youtube-transcriptor.p.rapidapi.com".

Definition withDefaults (o : options) : options :=
  let o :=
    if String.eqb (host o) EmptyString
    then {| host := defaultHost;
            rateLimit := rateLimit o;
            httpClient := httpClient o |}
    else o in
  let o :=
    match rateLimit o with
    | None => {| host := host o;
                 rateLimit := Some (ratelimit_New E 10 Second);
                 httpClient := httpClient o |}
    | Some _ => o
    end in
  match httpClient o with
  | None => {| host := host o;
               rateLimit := rateLimit o;
               httpClient := Some (http_DefaultClient E) |}
  | Some _ => o
  end.

Definition New (apiKey : string) (opts : list Option)
  : option Client * option error :=
  let '(o, err) := applyOptions opts zeroOptions in
  match err with
  | Some e => (None, Some (Errorf "bad option: %w" [argError e]))
  | None => (Some {| apiKey := apiKey; options_ := withDefaults o |}, None)
  end.

Record getTranscriptOptions : Type := mkGetTranscriptOptions {
  lang : string
}.

Definition getTranscriptOption : Type :=
  getTranscriptOptions -> getTranscriptOptions * option error.

Definition WithLang (lang : string) : getTranscriptOption :=
  fun option => ({| lang := lang |}, None).

Record Thumbnail : Type := mkThumbnail {
  Thumbnail_URL : string;
  Width : Z;
  Height : Z
}.

Record Transcription : Type := mkTranscription {
  Subtitle : string;
  Start : float;
  Dur : float
}.

Record GetTranscriptResponse : Type := mkGetTranscriptResponse {
  Title : string;
  Description : string;
  AvailableLangs : slice string;
  LengthInSeconds : string;
  Thumbnails : slice Thumbnail;
  Transcription_ : slice Transcription
}.

(** [s[:n]] for [n <= len(s)]. *)
Definition slice_to (n : nat) (s : string) : string := substring 0 n s.

(** [GetTranscriptResponse.String()] *)
Definition String_ (g : GetTranscriptResponse) : string :=
  (* just concatenate all subtitles *)
  let subtitles :=
    fold_left (fun subtitles t => (subtitles ++ (Subtitle t ++ " "))%string)
              (elems (Transcription_ g)) EmptyString in
  if Nat.eqb (String.length subtitles) 0 then EmptyString
  else slice_to (String.length subtitles - 1) subtitles.

(** [var transcript GetTranscriptResponse] *)
Definition zeroResponse : GetTranscriptResponse :=
  {| Title := EmptyString;
     Description := EmptyString;
     AvailableLangs := None;
     LengthInSeconds := EmptyString;
     Thumbnails := None;
     Transcription_ := None |}.

Context {JSON : Unmarshaler GetTranscriptResponse}.

Definition zeroRequestOptions : getTranscriptOptions :=
  {| lang := EmptyString |}.

(** The loop of [GetTranscript] over [opts]. *)
Fixpoint applyRequestOptions (opts : list getTranscriptOption)
  (o : getTranscriptOptions)
  : M E Client (getTranscriptOptions * option error) :=
  match opts with
  | [] => ret (o, None)
  | opt :: opts' =>
      emit EvApplyOption ;;;
      let '(o', err) := opt o in
      match err with
      | Some e => ret (o', Some e)
      | None => applyRequestOptions opts' o'
      end
  end.

Definition withRequestDefaults (o : getTranscriptOptions)
  : getTranscriptOptions :=
  if String.eqb (lang o) EmptyString then {| lang := "en" |} else o.

(** The result pointer is [None] for nil. *)
Definition GetTranscript (videoID : string)
  (opts : list getTranscriptOption)
  : M E Client (option GetTranscriptResponse * option error) :=
  ' (o, err) <- applyRequestOptions opts zeroRequestOptions ;;
  match err with
  | Some e => ret (None, Some (Errorf "bad option: %w" [argError e]))
  | None =>
  let o := withRequestDefaults o in
  c <- getSelf ;;
  let url :=
    Sprintf "https://%s/transcript?video_id=%s&lang=%s"
      [argString (host (options_ c)); argString videoID;
       argString (lang o)] in
  rl <- deref (rateLimit (options_ c)) ;;
  Take rl ;;;
  r <- NewRequest "GET" url ;;
  match r with
  | inr e => ret (None, Some (Errorf "failed to create request: %w" [argError e]))
  | inl req =>
  let req := http.Header_Add "X-RapidAPI-Key" (apiKey c) req in
  let req := http.Header_Add "X-RapidAPI-Host" (host (options_ c)) req in
  hc <- deref (httpClient (options_ c)) ;;
  r <- Do hc req ;;
  match r with
  | inr e => ret (None, Some (Errorf "failed to execute request: %w" [argError e]))
  | inl res =>
  defer (emit EvClose) (
  ' (body, err) <- ReadAll res ;;
  match err with
  | Some e =>
      ret (None, Some (Errorf "failed to read response body: %w" [argError e]))
  | None =>
  emit (EvCheckStatus (http.StatusCode res)) ;;;
  if negb (Z.eqb (http.StatusCode res) http.StatusOK)
  then ret (None, Some (Errorf "http status code is not ok: %s" [argString body]))
  else
  ' (transcript, err) <- Unmarshal body zeroResponse ;;
  match err with
  | Some e =>
      ret (None, Some (Errorf "failed to unmarshal response: %w" [argError e]))
  | None => ret (Some transcript, None)
  end
  end)
  end
  end
  end.

End Package.

Arguments options E : clear implicits.
Arguments Option E : clear implicits.
Arguments Client E : clear implicits.

End yttranscriptor.

(** ** Reading the loops and the traces *)

(** Left-to-right application with early exit, the way the four option
    loops run: the object reached and the error that stopped the loop. *)
Fixpoint foldOptions {O : Type} (opts : list (O -> O * option error)) (o : O)
  : O * option error :=
  match opts with
  | [] => (o, None)
  | opt :: opts' =>
      match opt o with
      | (o', Some e) => (o', Some e)
      | (o', None) => foldOptions opts' o'
      end
  end.

(** How many options of [opts] the loop calls. *)
Fixpoint appliedCount {O : Type} (opts : list (O -> O * option error)) (o : O)
  : nat :=
  match opts with
  | [] => 0
  | opt :: opts' =>
      match opt o with
      | (_, Some _) => 1
      | (o', None) => S (appliedCount opts' o')
      end
  end.

(** Every option of [opts] returns a nil error when called in its turn. *)
Fixpoint allValidate {O : Type} (opts : list (O -> O * option error)) (o : O)
  : Prop :=
  match opts with
  | [] => True
  | opt :: opts' => snd (opt o) = None /\ allValidate opts' (fst (opt o))
  end.

(** An option whose verdict does not depend on the object it is applied
    to, as is the case of every option the packages export. *)
Definition validates {O : Type} (opt : O -> O * option error) : Prop :=
  forall o, snd (opt o) = None.

Definition rejects {O : Type} (opt : O -> O * option error) : Prop :=
  forall o, snd (opt o) <> None.

(** A constructor [New] that runs its options in the order given from the
    object [zero] and stops at the first that does not validate, [build]
    making the client from the key and the object the loop leaves: it
    succeeds exactly when every option validates in its turn; the client
    then holds the options applied from left to right; the first invalid
    option ends the construction, whatever follows it, with no client and
    its error wrapped in a [bad option: ] error; and no construction
    fails otherwise. *)
Record constructsInOrder {O C : Type}
  (New : string -> list (O -> O * option error) -> option C * option error)
  (zero : O) (build : string -> O -> C) : Prop := {
  succeeds_iff : forall apiKey opts,
    (exists c, New apiKey opts = (Some c, None)) <-> allValidate opts zero;
  in_order : forall apiKey opts,
    allValidate opts zero ->
    New apiKey opts
    = (Some (build apiKey (fold_left (fun o opt => fst (opt o)) opts zero)),
       None);
  first_invalid : forall apiKey pre bad post e,
    allValidate pre zero ->
    snd (bad (fold_left (fun o opt => fst (opt o)) pre zero)) = Some e ->
    New apiKey (pre ++ bad :: post)
    = (None, Some (wrapError ("bad option: " ++ Error e) e));
  failure_is_first_invalid : forall apiKey opts e',
    snd (New apiKey opts) = Some e' ->
    fst (New apiKey opts) = None
    /\ exists pre bad post e,
         opts = pre ++ bad :: post
         /\ allValidate pre zero
         /\ snd (bad (fold_left (fun o opt => fst (opt o)) pre zero)) = Some e
         /\ e' = wrapError ("bad option: " ++ Error e) e
}.

(** The error of the first invalid option comes out of [New] as it is. *)
Definition surfacesUnchanged {O C : Type}
  (New : string -> list (O -> O * option error) -> option C * option error)
  (zero : O) : Prop :=
  forall apiKey pre bad post e,
    allValidate pre zero ->
    snd (bad (fold_left (fun o opt => fst (opt o)) pre zero)) = Some e ->
    snd (New apiKey (pre ++ bad :: post)) = Some e.


(** The step of a call an event belongs to. *)
Definition phase {E : Env} (e : @event E) : nat :=
  match e with
  | EvApplyOption => 0
  | EvTake _ => 1
  | EvNewRequest _ _ => 2
  | EvDo _ _ => 3
  | EvReadAll => 4
  | EvCheckStatus _ => 5
  | EvUnmarshal _ => 6
  | EvClose => 7
  end.

(** No [EvDo] of [evs] comes before an [EvTake]; [taken] tells whether a
    token was acquired before [evs]. *)
Fixpoint takeBeforeDo {E : Env} (taken : bool) (evs : list (@event E)) : bool :=
  match evs with
  | [] => true
  | EvTake _ :: evs' => takeBeforeDo true evs'
  | EvDo _ _ :: evs' => taken && takeBeforeDo taken evs'
  | _ :: evs' => takeBeforeDo taken evs'
  end.

(** The order of the steps of a call: the request options are applied
    first, and what follows goes strictly up the phases, so that no step
    happens twice or before an earlier one. *)
Definition inCallOrder {E : Env} (evs : list (@event E)) : Prop :=
  exists n tail,
    evs = repeat EvApplyOption n ++ tail
    /\ Forall (fun e => 1 <= phase e) tail
    /\ StronglySorted lt (map phase tail).

(** The phases of a call that goes all the way: token, request, transport,
    body, status, decoding, release. *)
Definition fullCall {E : Env} (evs : list (@event E)) : Prop :=
  exists n tail,
    evs = repeat EvApplyOption n ++ tail
    /\ map phase tail = [1; 2; 3; 4; 5; 6; 7].

(** The raw URLs handed to [http.NewRequest]. *)
Fixpoint builtURLs {E : Env} (evs : list (@event E)) : list string :=
  match evs with
  | [] => []
  | EvNewRequest _ url :: evs' => url :: builtURLs evs'
  | _ :: evs' => builtURLs evs'
  end.

(** [sub] occurs in [s]. *)
Definition contains (s sub : string) : Prop :=
  exists pre post, s = (pre ++ sub ++ post)%string.

Section Reading.
Context {E : Env}.

(** The state a call leaves when it only added [evs] to the trace. *)
Definition logged {C : Type} (st : State E C) (evs : list event) : State E C :=
  {| self := self st; world := world st; trace := trace st ++ evs |}.

(** The events a call adds to the trace of the state it runs on. *)
Definition eventsOf {C A : Type} (m : M E C A) (st : State E C) : list event :=
  skipn (length (trace st)) (trace (snd (m st))).

(** The construction options a caller outside the packages can build. *)
Definition md_exported (opt : mediadownloader.Option E) : Prop :=
  (exists h, opt = mediadownloader.WithHost h)
  \/ (exists rl, opt = mediadownloader.WithRateLimit rl)
  \/ (exists hc, opt = mediadownloader.WithHttpClient hc).

Definition yt_exported (opt : yttranscriptor.Option E) : Prop :=
  (exists h, opt = yttranscriptor.WithHost h)
  \/ (exists rl, opt = yttranscriptor.WithRateLimit rl)
  \/ (exists hc, opt = yttranscriptor.WithHttpClient hc).

(** The URL and the request [GetChannelVideos] composes for a language. *)
Definition md_url (c : mediadownloader.Client E) (channelID lang : string)
  : string :=
  Sprintf "https://%s/v2/channel/videos?channelId=%s&lang=%s"
    [argString (mediadownloader.host (mediadownloader.options_ c));
     argString channelID; argString lang].

Definition md_request (c : mediadownloader.Client E) (channelID lang : string)
  : http.Request :=
  http.Header_Add "X-RapidAPI-Host"
    (mediadownloader.host (mediadownloader.options_ c))
    (http.Header_Add "X-RapidAPI-Key" (mediadownloader.apiKey c)
       {| http.Method := "GET";
          http.URL := md_url c channelID lang;
          http.Header := [] |}).

(** The language a channel call ends up with. *)
Definition md_lang (opts : list mediadownloader.getChannelVideosOption)
  : string :=
  mediadownloader.lang
    (mediadownloader.withRequestDefaults
       (fst (foldOptions opts mediadownloader.zeroRequestOptions))).

(** A channel call on [st] gets as far as the network, which answers
    [res]: the request options validate, the client holds a limiter and a
    transport, the URL parses and the transport returns [res]. *)
Definition md_answered (st : State E (mediadownloader.Client E))
  (channelID : string) (opts : list mediadownloader.getChannelVideosOption)
  (res : http.Response) : Prop :=
  exists rl hc w,
    snd (foldOptions opts mediadownloader.zeroRequestOptions) = None
    /\ mediadownloader.rateLimit (mediadownloader.options_ (self st)) = Some rl
    /\ mediadownloader.httpClient (mediadownloader.options_ (self st)) = Some hc
    /\ url_Parse E (md_url (self st) channelID (md_lang opts)) = None
    /\ client_Do E hc (md_request (self st) channelID (md_lang opts))
         (limiter_Take E rl (world st)) = (inl res, w).


(** The same for [GetTranscript]. *)
Definition yt_url (c : yttranscriptor.Client E) (videoID lang : string)
  : string :=
  Sprintf "https://%s/transcript?video_id=%s&lang=%s"
    [argString (yttranscriptor.host (yttranscriptor.options_ c));
     argString videoID; argString lang].

Definition yt_request (c : yttranscriptor.Client E) (videoID lang : string)
  : http.Request :=
  http.Header_Add "X-RapidAPI-Host"
    (yttranscriptor.host (yttranscriptor.options_ c))
    (http.Header_Add "X-RapidAPI-Key" (yttranscriptor.apiKey c)
       {| http.Method := "GET";
          http.URL := yt_url c videoID lang;
          http.Header := [] |}).

Definition yt_lang (opts : list yttranscriptor.getTranscriptOption) : string :=
  yttranscriptor.lang
    (yttranscriptor.withRequestDefaults
       (fst (foldOptions opts yttranscriptor.zeroRequestOptions))).

Definition yt_answered (st : State E (yttranscriptor.Client E))
  (videoID : string) (opts : list yttranscriptor.getTranscriptOption)
  (res : http.Response) : Prop :=
  exists rl hc w,
    snd (foldOptions opts yttranscriptor.zeroRequestOptions) = None
    /\ yttranscriptor.rateLimit (yttranscriptor.options_ (self st)) = Some rl
    /\ yttranscriptor.httpClient (yttranscriptor.options_ (self st)) = Some hc
    /\ url_Parse E (yt_url (self st) videoID (yt_lang opts)) = None
    /\ client_Do E hc (yt_request (self st) videoID (yt_lang opts))
         (limiter_Take E rl (world st)) = (inl res, w).

End Reading.

(** The full-text view in the words of the specification: the subtitles
    joined by single spaces. *)
Definition joinedSubtitles (ts : list yttranscriptor.Transcription) : string :=
  String.concat " " (map yttranscriptor.Subtitle ts).

(** ** A sample world

    One concrete choice of collaborators, used to run the two packages on
    concrete inputs: limiters are their rate and interval, transports are
    numbered, the world counts the tokens handed out, URLs holding an ASCII
    control character do not parse (the first check of net/url), and the
    network answers three URLs with canned pages and everything else with
    a 404. *)

Module Sample.

Definition isCTL (c : ascii) : bool :=
  (Nat.ltb (nat_of_ascii c) 32 || Nat.eqb (nat_of_ascii c) 127)%bool.

Fixpoint stringContainsCTLByte (s : string) : bool :=
  match s with
  | EmptyString => false
  | String c s' => (isCTL c || stringContainsCTLByte s')%bool
  end.

Definition parseURL (rawURL : string) : option error :=
  if stringContainsCTLByte rawURL
  then Some (wrapError
               ("parse " ++ rawURL
                ++ ": net/url: invalid control character in URL")
               (errorString "net/url: invalid control character in URL"))
  else None.

Definition dq : string := String (ascii_of_nat 34) EmptyString.

(** A host with a tab in it. *)
Definition badHost : string := "bad" ++ String (ascii_of_nat 9) "host".

(** What the sample [url.Parse] says of the URL of [badHost], and what
    [WithHost badHost] makes of it. *)
Definition badURLError : error :=
  wrapError
    ("parse https://" ++ badHost
     ++ ": net/url: invalid control character in URL")
    (errorString "net/url: invalid control character in URL").

Definition badHostError : error :=
  wrapError ("invalid host: " ++ Error badURLError) badURLError.

Definition channelURL : string :=
  "https://youtube-media-downloader.p.rapidapi.com/v2/channel/videos?channelId=UC123&lang=en".

(** A channel the sample network answers with the empty object. *)
Definition emptyChannelURL : string :=
  "https://youtube-media-downloader.p.rapidapi.com/v2/channel/videos?channelId=UCnone&lang=en".

Definition transcriptURL : string :=
  "https://youtube-transcriptor.p.rapidapi.com/transcript?video_id=vid1&lang=en".

(** The JSON text [{"nextToken":"tok","items":[{"id":"v1"},{"id":"v2"}]}]. *)
Definition channelBody : string :=
  "{" ++ dq ++ "nextToken" ++ dq ++ ":" ++ dq ++ "tok" ++ dq ++ ","
  ++ dq ++ "items" ++ dq ++ ":[{" ++ dq ++ "id" ++ dq ++ ":" ++ dq ++ "v1"
  ++ dq ++ "},{" ++ dq ++ "id" ++ dq ++ ":" ++ dq ++ "v2" ++ dq ++ "}]}".

(** The JSON text [{"transcription":[{"subtitle":"Hello"},{"subtitle":"world"}]}]. *)
Definition transcriptBody : string :=
  "{" ++ dq ++ "transcription" ++ dq ++ ":[{" ++ dq ++ "subtitle" ++ dq ++ ":"
  ++ dq ++ "Hello" ++ dq ++ "},{" ++ dq ++ "subtitle" ++ dq ++ ":" ++ dq
  ++ "world" ++ dq ++ "}]}".

Definition transport (hc : nat) (req : http.Request) (w : nat)
  : (http.Response + error) * nat :=
  if String.eqb (http.URL req) channelURL
  then (inl {| http.StatusCode := 200; http.Body := (channelBody, None) |}, w)
  else if String.eqb (http.URL req) emptyChannelURL
  then (inl {| http.StatusCode := 200; http.Body := ("{}", None) |}, w)
  else if String.eqb (http.URL req) transcriptURL
  then (inl {| http.StatusCode := 200; http.Body := (transcriptBody, None) |}, w)
  else (inl {| http.StatusCode := 404; http.Body := ("not found", None) |}, w).

Definition env : Env :=
  {| Limiter := Z * Duration;
     HttpClient := nat;
     World := nat;
     ratelimit_New := fun rate per => (rate, per);
     http_DefaultClient := 0;
     url_Parse := parseURL;
     limiter_Take := fun _ w => S w;
     client_Do := transport |}.

Definition video (id : string) : mediadownloader.Video :=
  {| mediadownloader.Type_ := EmptyString;
     mediadownloader.ID := id;
     mediadownloader.Title := EmptyString;
     mediadownloader.IsLiveNow := false;
     mediadownloader.LengthText := EmptyString;
     mediadownloader.ViewCountText := EmptyString;
     mediadownloader.PublishedTimeText := EmptyString;
     mediadownloader.Thumbnails := None |}.

(** What encoding/json does on the three texts the sample network can
    send to the channel client: the canned page, the empty object (every
    field keeps its zero value) and a text that is not JSON. *)
#[export] Instance channelJSON
  : Unmarshaler mediadownloader.getChannelVideosResponse :=
  fun data v =>
    if String.eqb data channelBody
    then ({| mediadownloader.Status := mediadownloader.Status v;
             mediadownloader.NextToken := "tok";
             mediadownloader.Items := Some [video "v1"; video "v2"] |}, None)
    else if String.eqb data "{}" then (v, None)
    else (v, Some (errorString
                     "invalid character 'n' looking for beginning of value")).

Definition segment (subtitle : string) : yttranscriptor.Transcription :=
  {| yttranscriptor.Subtitle := subtitle;
     yttranscriptor.Start := PrimFloat.zero;
     yttranscriptor.Dur := PrimFloat.zero |}.

#[export] Instance transcriptJSON
  : Unmarshaler yttranscriptor.GetTranscriptResponse :=
  fun data v =>
    if String.eqb data transcriptBody
    then ({| yttranscriptor.Title := yttranscriptor.Title v;
             yttranscriptor.Description := yttranscriptor.Description v;
             yttranscriptor.AvailableLangs := yttranscriptor.AvailableLangs v;
             yttranscriptor.LengthInSeconds := yttranscriptor.LengthInSeconds v;
             yttranscriptor.Thumbnails := yttranscriptor.Thumbnails v;
             yttranscriptor.Transcription_ :=
               Some [segment "Hello"; segment "world"] |}, None)
    else if String.eqb data "{}" then (v, None)
    else (v, Some (errorString
                     "invalid character 'n' looking for beginning of value")).

(** A state whose receiver is [c], before any token was handed out. *)
Definition start {C : Type} (c : C) : State env C :=
  @mkState env C c 0 [].

(** The clients [New] builds from no option. *)
Definition channelClient : mediadownloader.Client env :=
  {| mediadownloader.apiKey := "key";
     mediadownloader.options_ :=
       mediadownloader.withDefaults mediadownloader.zeroOptions |}.

Definition transcriptClient : yttranscriptor.Client env :=
  {| yttranscriptor.apiKey := "key";
     yttranscriptor.options_ :=
       yttranscriptor.withDefaults yttranscriptor.zeroOptions |}.

End Sample.

(** ** What a call did, read off its events *)

(** The limiters a token was taken from, in order. *)
Fixpoint takenFrom {E : Env} (evs : list (@event E)) : list (Limiter E) :=
  match evs with
  | [] => []
  | EvTake rl :: evs' => rl :: takenFrom evs'
  | _ :: evs' => takenFrom evs'
  end.

(** The requests sent, each with the transport it was sent on. *)
Fixpoint sentRequests {E : Env} (evs : list (@event E))
  : list (HttpClient E * http.Request) :=
  match evs with
  | [] => []
  | EvDo hc req :: evs' => (hc, req) :: sentRequests evs'
  | _ :: evs' => sentRequests evs'
  end.

(** The texts handed to [json.Unmarshal]. *)
Fixpoint decodedBodies {E : Env} (evs : list (@event E)) : list string :=
  match evs with
  | [] => []
  | EvUnmarshal data :: evs' => data :: decodedBodies evs'
  | _ :: evs' => decodedBodies evs'
  end.

(** How many times a response body was closed. *)
Fixpoint closes {E : Env} (evs : list (@event E)) : nat :=
  match evs with
  | [] => 0
  | EvClose :: evs' => S (closes evs')
  | _ :: evs' => closes evs'
  end.

Section ReadingCalls.
Context {E : Env}.

(** The request options a caller outside the packages can build. *)
Definition md_exportedRequest (opt : mediadownloader.getChannelVideosOption)
  : Prop :=
  (exists l, opt = mediadownloader.WithLang l)
  \/ (exists ct, opt = mediadownloader.WithContentType ct).

Definition yt_exportedRequest (opt : yttranscriptor.getTranscriptOption)
  : Prop :=
  exists l, opt = yttranscriptor.WithLang l.

(** A channel call on [st] gets as far as the transport [hc], with a token
    of [rl]: the request options validate, the client holds [rl] and [hc],
    and the URL parses. *)
Definition md_sendable (st : State E (mediadownloader.Client E))
  (channelID : string) (opts : list mediadownloader.getChannelVideosOption)
  (rl : Limiter E) (hc : HttpClient E) : Prop :=
  snd (foldOptions opts mediadownloader.zeroRequestOptions) = None
  /\ mediadownloader.rateLimit (mediadownloader.options_ (self st)) = Some rl
  /\ mediadownloader.httpClient (mediadownloader.options_ (self st)) = Some hc
  /\ url_Parse E (md_url (self st) channelID (md_lang opts)) = None.

Definition yt_sendable (st : State E (yttranscriptor.Client E))
  (videoID : string) (opts : list yttranscriptor.getTranscriptOption)
  (rl : Limiter E) (hc : HttpClient E) : Prop :=
  snd (foldOptions opts yttranscriptor.zeroRequestOptions) = None
  /\ yttranscriptor.rateLimit (yttranscriptor.options_ (self st)) = Some rl
  /\ yttranscriptor.httpClient (yttranscriptor.options_ (self st)) = Some hc
  /\ url_Parse E (yt_url (self st) videoID (yt_lang opts)) = None.

(** The events of a channel call up to the request it builds, and up to
    the request it sends. *)
Definition md_upToRequest (c : mediadownloader.Client E) (channelID : string)
  (opts : list mediadownloader.getChannelVideosOption) (rl : Limiter E)
  : list event :=
  repeat EvApplyOption (length opts)
  ++ [EvTake rl; EvNewRequest "GET" (md_url c channelID (md_lang opts))].

Definition md_upToSend (c : mediadownloader.Client E) (channelID : string)
  (opts : list mediadownloader.getChannelVideosOption) (rl : Limiter E)
  (hc : HttpClient E) : list event :=
  md_upToRequest c channelID opts rl
  ++ [EvDo hc (md_request c channelID (md_lang opts))].

Definition yt_upToRequest (c : yttranscriptor.Client E) (videoID : string)
  (opts : list yttranscriptor.getTranscriptOption) (rl : Limiter E)
  : list event :=
  repeat EvApplyOption (length opts)
  ++ [EvTake rl; EvNewRequest "GET" (yt_url c videoID (yt_lang opts))].

Definition yt_upToSend (c : yttranscriptor.Client E) (videoID : string)
  (opts : list yttranscriptor.getTranscriptOption) (rl : Limiter E)
  (hc : HttpClient E) : list event :=
  yt_upToRequest c videoID opts rl
  ++ [EvDo hc (yt_request c videoID (yt_lang opts))].

(** The request of a call as it goes on the wire: GET, the URL, and under
    the two RapidAPI header names, read as net/http reads names, the key
    and the host; no other header. *)
Definition onTheWire (req : http.Request) (url apiKey host : string) : Prop :=
  http.Method req = "GET"
  /\ http.URL req = url
  /\ forall name,
       http.Header_Values req name
       = if String.eqb "X-Rapidapi-Key" (http.CanonicalMIMEHeaderKey name)
         then [apiKey]
         else if String.eqb "X-Rapidapi-Host"
                   (http.CanonicalMIMEHeaderKey name)
         then [host]
         else [].

End ReadingCalls.

(** ** A sample world that fails

    The sample world again, with a network that refuses the connection
    for the identifier [down], breaks off the body for [cut], answers
    [garbled] with a page that is not JSON, and everything else with a
    404. *)

Module Faulty.

Definition refused : error :=
  errorString "dial tcp: connect: connection refused".

Definition brokenOff : error := errorString "unexpected EOF".

Fixpoint endsWith (suffix s : string) : bool :=
  (String.eqb s suffix
   || match s with
      | EmptyString => false
      | String _ s' => endsWith suffix s'
      end)%bool.

Definition transport (hc : nat) (req : http.Request) (w : nat)
  : (http.Response + error) * nat :=
  if endsWith "=down&lang=en" (http.URL req) then (inr refused, w)
  else if endsWith "=cut&lang=en" (http.URL req)
  then (inl {| http.StatusCode := 200; http.Body := ("{", Some brokenOff) |}, w)
  else if endsWith "=garbled&lang=en" (http.URL req)
  then (inl {| http.StatusCode := 200; http.Body := ("<html>", None) |}, w)
  else (inl {| http.StatusCode := 404; http.Body := ("not found", None) |}, w).

Definition env : Env :=
  {| Limiter := Z * Duration;
     HttpClient := nat;
     World := nat;
     ratelimit_New := fun rate per => (rate, per);
     http_DefaultClient := 0;
     url_Parse := Sample.parseURL;
     limiter_Take := fun _ w => S w;
     client_Do := transport |}.

Definition start {C : Type} (c : C) : State env C :=
  @mkState env C c 0 [].

Definition channelClient : mediadownloader.Client env :=
  {| mediadownloader.apiKey := "key";
     mediadownloader.options_ :=
       mediadownloader.withDefaults mediadownloader.zeroOptions |}.

Definition transcriptClient : yttranscriptor.Client env :=
  {| yttranscriptor.apiKey := "key";
     yttranscriptor.options_ :=
       yttranscriptor.withDefaults yttranscriptor.zeroOptions |}.

(** A channel identifier with a tab in it. *)
Definition badID : string := "a" ++ String (ascii_of_nat 9) "b".

End Faulty.

(** * Properties *)

(** ** The Go values *)

Example Sprintf_three_verbs :
  Sprintf "https://%s/t?video_id=%s&lang=%s"
          [argString "h"; argString "v"; argString "en"]
  = "https://h/t?video_id=v&lang=en".
Proof. reflexivity. Qed.

Example canonical_header_names :
  http.CanonicalMIMEHeaderKey "X-RapidAPI-Key" = "X-Rapidapi-Key"
  /\ http.CanonicalMIMEHeaderKey "x-rapidapi-host" = "X-Rapidapi-Host"
  /\ http.CanonicalMIMEHeaderKey "bad key" = "bad key".
Proof. repeat split. Qed.

Example Errorf_wraps :
  Errorf "bad option: %w" [argError (errorString "boom")]
  = wrapError "bad option: boom" (errorString "boom").
Proof. reflexivity. Qed.

Example sample_channel_call :
  fst (mediadownloader.GetChannelVideos (JSON := Sample.channelJSON)
         "UC123" [] (Sample.start Sample.channelClient))
  = Return (Some [Sample.video "v1"; Sample.video "v2"], None).
Proof. vm_compute. reflexivity. Qed.

(** A page without items decodes to the nil slice, which comes back with
    no error. *)
Example sample_channel_without_items :
  fst (mediadownloader.GetChannelVideos (JSON := Sample.channelJSON)
         "UCnone" [] (Sample.start Sample.channelClient))
  = Return (None, None).
Proof. vm_compute. reflexivity. Qed.

Example sample_transcript_text :
  yttranscriptor.String_
    (fst (Sample.transcriptJSON Sample.transcriptBody
            yttranscriptor.zeroResponse))
  = "Hello world".
Proof. vm_compute. reflexivity. Qed.

(** ** Strings *)

Lemma substring_prefix (s t : string) :
  substring 0 (String.length s) (s ++ t) = s.
Proof.
  induction s as [|c s IH]; simpl.
  - destruct t; reflexivity.
  - now rewrite IH.
Qed.

Lemma length_append (s t : string) :
  String.length (s ++ t) = String.length s + String.length t.
Proof. induction s as [|c s IH]; simpl; [reflexivity | now rewrite IH]. Qed.

Lemma append_assoc (s t u : string) : ((s ++ t) ++ u = s ++ (t ++ u))%string.
Proof. induction s as [|c s IH]; simpl; [reflexivity | now rewrite IH]. Qed.

Lemma append_empty_r (s : string) : (s ++ EmptyString)%string = s.
Proof. induction s as [|c s IH]; simpl; [reflexivity | now rewrite IH]. Qed.

Lemma contains_suffix (pre s : string) : contains (pre ++ s) s.
Proof. exists pre, EmptyString. now rewrite append_empty_r. Qed.

(** ** The full-text view of a transcript *)

Section FullText.
Import yttranscriptor.

(** The loop of [String], started from any accumulator: every subtitle is
    appended with one space after it. *)
Lemma subtitles_loop (ts : list Transcription) (acc : string) :
  fold_left (fun subtitles t => (subtitles ++ (Subtitle t ++ " "))%string)
            ts acc
  = (acc ++ String.concat EmptyString
              (map (fun t => (Subtitle t ++ " ")%string) ts))%string.
Proof.
  revert acc. induction ts as [|t ts IH]; intros acc; simpl.
  - now rewrite append_empty_r.
  - rewrite IH. destruct ts as [|t' ts]; simpl.
    + now rewrite !append_empty_r.
    + now rewrite append_assoc.
Qed.

(** With a space after each subtitle, the text is the joined text and one
    more space. *)
Lemma spaced_is_joined (t : Transcription) (ts : list Transcription) :
  String.concat EmptyString
    (map (fun t => (Subtitle t ++ " ")%string) (t :: ts))
  = (joinedSubtitles (t :: ts) ++ " ")%string.
Proof.
  unfold joinedSubtitles. revert t.
  induction ts as [|t' ts IH]; intros t.
  - reflexivity.
  - change (String.concat EmptyString
              (map (fun t => (Subtitle t ++ " ")%string) (t :: t' :: ts)))
      with ((Subtitle t ++ " ") ++ String.concat EmptyString
              (map (fun t => (Subtitle t ++ " ")%string) (t' :: ts)))%string.
    rewrite IH.
    change (String.concat " " (map Subtitle (t :: t' :: ts)))
      with (Subtitle t ++ " " ++ String.concat " " (map Subtitle (t' :: ts)))%string.
    now rewrite !append_assoc.
Qed.

Lemma String_is_joined (g : GetTranscriptResponse) :
  String_ g = joinedSubtitles (elems (Transcription_ g)).
Proof.
  unfold String_. rewrite subtitles_loop. simpl.
  destruct (elems (Transcription_ g)) as [|t ts].
  - reflexivity.
  - rewrite spaced_is_joined.
    rewrite length_append. simpl String.length.
    replace (String.length (joinedSubtitles (t :: ts)) + 1)
      with (S (String.length (joinedSubtitles (t :: ts)))) by lia.
    simpl Nat.eqb. cbv iota.
    unfold slice_to.
    replace (S (String.length (joinedSubtitles (t :: ts))) - 1)
      with (String.length (joinedSubtitles (t :: ts))) by lia.
    apply substring_prefix.
Qed.

End FullText.

(** ** The option loops *)

Lemma foldOptions_app {O : Type} (pre post : list (O -> O * option error))
  (o : O) :
  foldOptions (pre ++ post) o
  = match foldOptions pre o with
    | (o', Some e) => (o', Some e)
    | (o', None) => foldOptions post o'
    end.
Proof.
  revert o. induction pre as [|opt pre IH]; intros o; simpl.
  - reflexivity.
  - destruct (opt o) as [o' [e|]]; [reflexivity | apply IH].
Qed.

Lemma foldOptions_ok_iff {O : Type} (opts : list (O -> O * option error))
  (o : O) :
  snd (foldOptions opts o) = None <-> allValidate opts o.
Proof.
  revert o. induction opts as [|opt opts IH]; intros o; simpl.
  - tauto.
  - destruct (opt o) as [o' [e|]] eqn:Hopt; simpl.
    + split; [discriminate | intros [H _]; discriminate].
    + rewrite IH. tauto.
Qed.

(** For options whose verdict does not depend on the object, validating in
    turn is validating one by one. *)
Lemma allValidate_Forall {O : Type} (opts : list (O -> O * option error))
  (o : O) :
  Forall (fun opt => validates opt \/ rejects opt) opts ->
  (allValidate opts o <-> Forall validates opts).
Proof.
  intros Hdec. revert o.
  induction Hdec as [|opt opts [Hv|Hr] _ IH]; intros o; simpl.
  - split; constructor.
  - rewrite IH. split.
    + intros [_ H]. now constructor.
    + intros H. inversion H; subst. split; [apply Hv | assumption].
  - split.
    + intros [H _]. now apply Hr in H.
    + intros H. inversion H as [|? ? Hv' _]; subst.
      exfalso. apply (Hr o). apply Hv'.
Qed.

Lemma appliedCount_le {O : Type} (opts : list (O -> O * option error)) (o : O) :
  appliedCount opts o <= length opts.
Proof.
  revert o. induction opts as [|opt opts IH]; intros o; simpl.
  - lia.
  - destruct (opt o) as [o' [e|]]; [lia | specialize (IH o'); lia].
Qed.

Lemma appliedCount_ok {O : Type} (opts : list (O -> O * option error)) (o : O) :
  snd (foldOptions opts o) = None -> appliedCount opts o = length opts.
Proof.
  revert o. induction opts as [|opt opts IH]; intros o; simpl.
  - reflexivity.
  - destruct (opt o) as [o' [e|]]; simpl; [discriminate | auto].
Qed.

Lemma foldOptions_fold_left {O : Type} (opts : list (O -> O * option error))
  (o : O) :
  allValidate opts o ->
  fst (foldOptions opts o) = fold_left (fun o opt => fst (opt o)) opts o.
Proof.
  revert o. induction opts as [|opt opts IH]; intros o; simpl.
  - reflexivity.
  - intros [Hv Hrest]. destruct (opt o) as [o' [e|]]; simpl in *.
    + discriminate.
    + now apply IH.
Qed.

(** A loop that stops on an error stopped on the first option that does
    not validate. *)
Lemma foldOptions_first_invalid {O : Type}
  (opts : list (O -> O * option error)) (o : O) (e : error) :
  snd (foldOptions opts o) = Some e ->
  exists pre bad post,
    opts = pre ++ bad :: post
    /\ allValidate pre o
    /\ snd (bad (fst (foldOptions pre o))) = Some e.
Proof.
  revert o. induction opts as [|opt opts IH]; intros o; simpl.
  - discriminate.
  - destruct (opt o) as [o' [e'|]] eqn:Hopt; simpl.
    + intros [= ->]. exists [], opt, opts. simpl. rewrite Hopt. auto.
    + intros H. destruct (IH _ H) as (pre & bad & post & -> & Hpre & Hbad).
      exists (opt :: pre), bad, post. simpl. rewrite Hopt. simpl. auto.
Qed.

Lemma foldOptions_stops {O : Type} (pre post : list (O -> O * option error))
  (bad : O -> O * option error) (o : O) (e : error) :
  allValidate pre o ->
  snd (bad (fst (foldOptions pre o))) = Some e ->
  snd (foldOptions (pre ++ bad :: post) o) = Some e.
Proof.
  intros Hpre Hbad. rewrite foldOptions_app.
  apply foldOptions_ok_iff in Hpre.
  destruct (foldOptions pre o) as [o' [e'|]]; simpl in *; [discriminate|].
  destruct (bad o') as [o'' [e''|]]; simpl in *; congruence.
Qed.

Lemma Errorf_bad_option (e : error) :
  Errorf "bad option: %w" [argError e]
  = wrapError ("bad option: " ++ Error e) e.
Proof.
  change (Errorf "bad option: %w" [argError e])
    with (wrapError ("bad option: " ++ (Error e ++ EmptyString)) e).
  now rewrite append_empty_r.
Qed.

Lemma md_applyOptions_fold {E : Env} (opts : list (mediadownloader.Option E)) o :
  mediadownloader.applyOptions opts o = foldOptions opts o.
Proof.
  revert o. induction opts as [|opt opts IH]; intros o; simpl.
  - reflexivity.
  - destruct (opt o) as [o' [e|]]; [reflexivity | apply IH].
Qed.

Lemma yt_applyOptions_fold {E : Env} (opts : list (yttranscriptor.Option E)) o :
  yttranscriptor.applyOptions opts o = foldOptions opts o.
Proof.
  revert o. induction opts as [|opt opts IH]; intros o; simpl.
  - reflexivity.
  - destruct (opt o) as [o' [e|]]; [reflexivity | apply IH].
Qed.

(** ** Construction *)

Section Construction.
Context {E : Env}.

Section ChannelClient.
Import mediadownloader.

Lemma md_New_fold apiKey (opts : list (Option E)) :
  New apiKey opts
  = match foldOptions opts zeroOptions with
    | (_, Some e) => (None, Some (wrapError ("bad option: " ++ Error e) e))
    | (o, None) => (Some {| apiKey := apiKey; options_ := withDefaults o |}, None)
    end.
Proof.
  unfold New. rewrite md_applyOptions_fold.
  destruct (foldOptions opts zeroOptions) as [o [e|]];
    [now rewrite Errorf_bad_option | reflexivity].
Qed.

Lemma md_exported_decided (opt : Option E) :
  md_exported opt -> validates opt \/ rejects opt.
Proof.
  intros [[h ->]|[[rl ->]|[hc ->]]].
  - destruct (url_Parse E (Sprintf "https://%s" [argString h])) as [e|] eqn:Hp.
    + right. intros o. unfold WithHost, http_NewRequest. rewrite Hp.
      discriminate.
    + left. intros o. unfold WithHost, http_NewRequest. now rewrite Hp.
  - left. intros o. reflexivity.
  - left. intros o. reflexivity.
Qed.

Lemma md_withDefaults_ready (o : options E) :
  exists rl hc,
    rateLimit (withDefaults o) = Some rl
    /\ httpClient (withDefaults o) = Some hc.
Proof.
  destruct o as [h [rl|] [hc|]]; unfold withDefaults; cbn;
    destruct (String.eqb h EmptyString); cbn; eauto.
Qed.

Lemma md_New_ready apiKey (opts : list (Option E)) c :
  New apiKey opts = (Some c, None) ->
  exists rl hc,
    rateLimit (options_ c) = Some rl /\ httpClient (options_ c) = Some hc.
Proof.
  rewrite md_New_fold.
  destruct (foldOptions opts zeroOptions) as [o [e|]]; intros [= <-].
  apply md_withDefaults_ready.
Qed.

End ChannelClient.

Section TranscriptClient.
Import yttranscriptor.

Lemma yt_New_fold apiKey (opts : list (Option E)) :
  New apiKey opts
  = match foldOptions opts zeroOptions with
    | (_, Some e) => (None, Some (wrapError ("bad option: " ++ Error e) e))
    | (o, None) => (Some {| apiKey := apiKey; options_ := withDefaults o |}, None)
    end.
Proof.
  unfold New. rewrite yt_applyOptions_fold.
  destruct (foldOptions opts zeroOptions) as [o [e|]];
    [now rewrite Errorf_bad_option | reflexivity].
Qed.

Lemma yt_exported_decided (opt : Option E) :
  yt_exported opt -> validates opt \/ rejects opt.
Proof.
  intros [[h ->]|[[rl ->]|[hc ->]]].
  - destruct (url_Parse E (Sprintf "https://%s" [argString h])) as [e|] eqn:Hp.
    + right. intros o. unfold WithHost, http_NewRequest. rewrite Hp.
      discriminate.
    + left. intros o. unfold WithHost, http_NewRequest. now rewrite Hp.
  - left. intros o. reflexivity.
  - left. intros o. reflexivity.
Qed.

Lemma yt_withDefaults_ready (o : options E) :
  exists rl hc,
    rateLimit (withDefaults o) = Some rl
    /\ httpClient (withDefaults o) = Some hc.
Proof.
  destruct o as [h [rl|] [hc|]]; unfold withDefaults; cbn;
    destruct (String.eqb h EmptyString); cbn; eauto.
Qed.

Lemma yt_New_ready apiKey (opts : list (Option E)) c :
  New apiKey opts = (Some c, None) ->
  exists rl hc,
    rateLimit (options_ c) = Some rl /\ httpClient (options_ c) = Some hc.
Proof.
  rewrite yt_New_fold.
  destruct (foldOptions opts zeroOptions) as [o [e|]]; intros [= <-].
  apply yt_withDefaults_ready.
Qed.

End TranscriptClient.

End Construction.

(** ** Calls *)

Section Loops.
Context {E : Env}.

Lemma logged_nil {C : Type} (st : State E C) : logged st [] = st.
Proof. destruct st; unfold logged; simpl. now rewrite app_nil_r. Qed.

Lemma md_applyRequestOptions_run opts o (st : State E (mediadownloader.Client E)) :
  mediadownloader.applyRequestOptions opts o st
  = (Return (foldOptions opts o),
     logged st (repeat EvApplyOption (appliedCount opts o))).
Proof.
  revert o st. induction opts as [|opt opts IH]; intros o st; simpl.
  - unfold ret. now rewrite logged_nil.
  - unfold bind, emit. destruct (opt o) as [o' [e|]].
    + reflexivity.
    + rewrite IH. unfold logged; simpl. now rewrite <- app_assoc.
Qed.

Lemma yt_applyRequestOptions_run opts o (st : State E (yttranscriptor.Client E)) :
  yttranscriptor.applyRequestOptions opts o st
  = (Return (foldOptions opts o),
     logged st (repeat EvApplyOption (appliedCount opts o))).
Proof.
  revert o st. induction opts as [|opt opts IH]; intros o st; simpl.
  - unfold ret. now rewrite logged_nil.
  - unfold bind, emit. destruct (opt o) as [o' [e|]].
    + reflexivity.
    + rewrite IH. unfold logged; simpl. now rewrite <- app_assoc.
Qed.

Lemma skipn_app_exact {A : Type} (l r : list A) : skipn (length l) (l ++ r) = r.
Proof. induction l as [|a l IH]; simpl; [reflexivity | exact IH]. Qed.

Lemma takeBeforeDo_options (taken : bool) (n : nat) (evs : list (@event E)) :
  takeBeforeDo taken (repeat EvApplyOption n ++ evs) = takeBeforeDo taken evs.
Proof. induction n as [|n IH]; simpl; [reflexivity | exact IH]. Qed.

Lemma builtURLs_options (n : nat) (evs : list (@event E)) :
  builtURLs (repeat EvApplyOption n ++ evs) = builtURLs evs.
Proof. induction n as [|n IH]; simpl; [reflexivity | exact IH]. Qed.

Lemma takeBeforeDo_only_options (taken : bool) (n : nat) :
  takeBeforeDo (E := E) taken (repeat EvApplyOption n) = true.
Proof. induction n as [|n IH]; simpl; [reflexivity | exact IH]. Qed.

Lemma inCallOrder_only_options (n : nat) :
  inCallOrder (E := E) (repeat EvApplyOption n).
Proof.
  exists n, []. rewrite app_nil_r. repeat split; constructor.
Qed.

End Loops.

(** Symbolic execution of a call: the option loop is replaced by its
    fold, then the call is split along the values its collaborators
    return, in program order. *)
Ltac norm_call :=
  cbv beta iota zeta delta
    [bind ret emit getSelf deref Take NewRequest Do defer ReadAll Unmarshal
     logged http_NewRequest];
  cbn [self world trace fst snd].

Ltac enter_call :=
  unfold mediadownloader.GetChannelVideos, yttranscriptor.GetTranscript;
  unfold bind at 1;
  rewrite ?md_applyRequestOptions_run, ?yt_applyRequestOptions_run;
  cbv beta iota.

Ltac split_call :=
  norm_call;
  repeat (first
    [ match goal with
      | |- context [match mediadownloader.rateLimit ?o with _ => _ end] =>
          destruct (mediadownloader.rateLimit o) eqn:?
      | |- context [match yttranscriptor.rateLimit ?o with _ => _ end] =>
          destruct (yttranscriptor.rateLimit o) eqn:?
      end
    | match goal with
      | |- context [match url_Parse ?E' ?u with _ => _ end] =>
          destruct (url_Parse E' u) eqn:?
      end
    | match goal with
      | |- context [match mediadownloader.httpClient ?o with _ => _ end] =>
          destruct (mediadownloader.httpClient o) eqn:?
      | |- context [match yttranscriptor.httpClient ?o with _ => _ end] =>
          destruct (yttranscriptor.httpClient o) eqn:?
      end
    | match goal with
      | |- context [client_Do ?E' ?hc ?req ?w0] =>
          destruct (client_Do E' hc req w0) as [[?res|?e] ?w] eqn:?
      end
    | match goal with
      | |- context [http.Body ?r0] =>
          destruct (http.Body r0) as [?body [?e|]] eqn:?
      end
    | match goal with
      | |- context [Z.eqb (http.StatusCode ?r0) http.StatusOK] =>
          destruct (Z.eqb (http.StatusCode r0) http.StatusOK) eqn:?
      end
    | match goal with
      | |- context [@json_Unmarshal ?T ?J ?b ?v0] =>
          destruct (@json_Unmarshal T J b v0) as [?v [?e|]] eqn:?
      end ];
    norm_call; cbn [negb]).

(** Brings the trace of a final state to the form
    [tr ++ repeat EvApplyOption n ++ tail]. *)
Ltac flatten_trace :=
  cbn [self world trace fst snd];
  repeat rewrite <- app_assoc;
  cbn [app].

Ltac sorted_phases :=
  cbn [map phase];
  repeat (constructor; try lia).

Section Calls.
Context {E : Env}.
Context {channelJSON : Unmarshaler mediadownloader.getChannelVideosResponse}.
Context {transcriptJSON : Unmarshaler yttranscriptor.GetTranscriptResponse}.

(** *** GetChannelVideos *)

Section ChannelVideos.
Import mediadownloader.

Variable channelID : string.
Variable opts : list getChannelVideosOption.
Variable st : State E (Client E).

(** What a call adds to the trace, and the receiver it leaves. *)
Lemma md_call_shape r st' :
  GetChannelVideos channelID opts st = (r, st') ->
  exists evs,
    st' = {| self := self st; world := world st'; trace := trace st ++ evs |}
    /\ inCallOrder evs
    /\ takeBeforeDo false evs = true
    /\ match r with
       | Return (_, None) => fullCall evs
       | _ => True
       end.
Proof.
  destruct st as [c w tr].
  enter_call.
  pose proof (appliedCount_le opts zeroRequestOptions) as Hn.
  destruct (foldOptions opts zeroRequestOptions) as [o [e|]].
  - norm_call. intros H; inversion H; subst; clear H. flatten_trace.
    eexists. split; [reflexivity|]. split; [|split; [|exact I]].
    + apply inCallOrder_only_options.
    + apply takeBeforeDo_only_options.
  - split_call; intros H; inversion H; subst; clear H; flatten_trace.
    all: eexists; (split; [reflexivity|]).
    all: repeat apply conj.
    all: try exact I.
    all: try apply inCallOrder_only_options.
    all: try apply takeBeforeDo_only_options.
    all: try (now rewrite takeBeforeDo_options).
    all: eexists _, _; split; [reflexivity|]; try reflexivity.
    all: split; sorted_phases.
Qed.

Lemma md_call_events :
  trace (snd (GetChannelVideos channelID opts st))
  = trace st ++ eventsOf (GetChannelVideos channelID opts) st
  /\ inCallOrder (eventsOf (GetChannelVideos channelID opts) st)
  /\ takeBeforeDo false (eventsOf (GetChannelVideos channelID opts) st) = true
  /\ match fst (GetChannelVideos channelID opts st) with
     | Return (_, None) => fullCall (eventsOf (GetChannelVideos channelID opts) st)
     | _ => True
     end.
Proof.
  unfold eventsOf.
  destruct (GetChannelVideos channelID opts st) as [r st'] eqn:Hcall.
  destruct (md_call_shape _ _ Hcall) as (evs & Hst' & Hord & Htake & Hfull).
  cbn [fst snd]. rewrite Hst'. cbn [trace].
  rewrite skipn_app_exact. auto.
Qed.

Lemma md_call_frame :
  self (snd (GetChannelVideos channelID opts st)) = self st.
Proof.
  destruct (GetChannelVideos channelID opts st) as [r st'] eqn:Hcall.
  destruct (md_call_shape _ _ Hcall) as (evs & Hst' & _).
  cbn [snd]. now rewrite Hst'.
Qed.

(** A client that holds a limiter and a transport never panics, and what
    it returns with an error is the nil slice. *)
Lemma md_call_total rl hc :
  rateLimit (options_ (self st)) = Some rl ->
  httpClient (options_ (self st)) = Some hc ->
  exists items err,
    fst (GetChannelVideos channelID opts st) = Return (items, err)
    /\ (err <> None -> items = None).
Proof.
  intros Hrl Hhc.
  destruct (GetChannelVideos channelID opts st) as [r st'] eqn:Hcall.
  revert Hcall. destruct st as [c w tr]. cbn [self] in Hrl, Hhc.
  enter_call.
  destruct (foldOptions opts zeroRequestOptions) as [o [e|]].
  - norm_call. intros H; inversion H; subst; clear H. cbn [fst]. eauto.
  - split_call; intros H; inversion H; subst; clear H; cbn [fst].
    all: try congruence.
    all: eexists _, _; split; [reflexivity|]; congruence.
Qed.

(** The URL handed to [http.NewRequest]. *)
Lemma md_call_urls rl :
  snd (foldOptions opts zeroRequestOptions) = None ->
  rateLimit (options_ (self st)) = Some rl ->
  builtURLs (eventsOf (GetChannelVideos channelID opts) st)
  = [md_url (self st) channelID (md_lang opts)].
Proof.
  intros Hopts Hrl. unfold eventsOf, md_lang, md_url.
  destruct (GetChannelVideos channelID opts st) as [r st'] eqn:Hcall.
  revert Hcall. destruct st as [c w tr]. cbn [self] in Hrl.
  enter_call.
  destruct (foldOptions opts zeroRequestOptions) as [o [e|]];
    [discriminate Hopts|].
  split_call; intros H; inversion H; subst; clear H; flatten_trace.
  all: try congruence.
  all: now rewrite skipn_app_exact, builtURLs_options.
Qed.

(** The two outcomes once the network has answered. *)
Lemma md_call_ok res body response :
  md_answered st channelID opts res ->
  http.StatusCode res = http.StatusOK ->
  http.Body res = (body, None) ->
  json_Unmarshal body zeroResponse = (response, None) ->
  fst (GetChannelVideos channelID opts st) = Return (Items response, None).
Proof.
  intros (rl & hc & w' & Hopts & Hrl & Hhc & Hurl & Hdo) Hcode Hbody Hjson.
  unfold md_lang, md_request, md_url in *.
  destruct (GetChannelVideos channelID opts st) as [r st'] eqn:Hcall.
  revert Hcall. destruct st as [c w tr]. cbn [self world] in *.
  enter_call.
  destruct (foldOptions opts zeroRequestOptions) as [o [e|]];
    [discriminate Hopts|].
  cbn [fst] in *.
  split_call; intros H; inversion H; subst; clear H; cbn [fst].
  all: try congruence.
  all: try (apply Z.eqb_neq in Heqb; congruence).
Qed.

Lemma md_call_status res body :
  md_answered st channelID opts res ->
  http.StatusCode res <> http.StatusOK ->
  http.Body res = (body, None) ->
  fst (GetChannelVideos channelID opts st)
  = Return (None,
            Some (errorString ("http status code is not ok: " ++ body))).
Proof.
  intros (rl & hc & w' & Hopts & Hrl & Hhc & Hurl & Hdo) Hcode Hbody.
  unfold md_lang, md_request, md_url in *.
  destruct (GetChannelVideos channelID opts st) as [r st'] eqn:Hcall.
  revert Hcall. destruct st as [c w tr]. cbn [self world] in *.
  enter_call.
  destruct (foldOptions opts zeroRequestOptions) as [o [e|]];
    [discriminate Hopts|].
  cbn [fst] in *.
  split_call; intros H; inversion H; subst; clear H; cbn [fst].
  all: try congruence.
  all: try (apply Z.eqb_eq in Heqb; congruence).
  change (Errorf "http status code is not ok: %s" [argString body0])
    with (errorString ("http status code is not ok: " ++ (body0 ++ EmptyString))).
  rewrite append_empty_r. congruence.
Qed.

End ChannelVideos.

(** *** GetTranscript *)

Section Transcript.
Import yttranscriptor.

Variable videoID : string.
Variable opts : list getTranscriptOption.
Variable st : State E (Client E).

(** What a call adds to the trace, and the receiver it leaves. *)
Lemma yt_call_shape r st' :
  GetTranscript videoID opts st = (r, st') ->
  exists evs,
    st' = {| self := self st; world := world st'; trace := trace st ++ evs |}
    /\ inCallOrder evs
    /\ takeBeforeDo false evs = true
    /\ match r with
       | Return (_, None) => fullCall evs
       | _ => True
       end.
Proof.
  destruct st as [c w tr].
  enter_call.
  pose proof (appliedCount_le opts zeroRequestOptions) as Hn.
  destruct (foldOptions opts zeroRequestOptions) as [o [e|]].
  - norm_call. intros H; inversion H; subst; clear H. flatten_trace.
    eexists. split; [reflexivity|]. split; [|split; [|exact I]].
    + apply inCallOrder_only_options.
    + apply takeBeforeDo_only_options.
  - split_call; intros H; inversion H; subst; clear H; flatten_trace.
    all: eexists; (split; [reflexivity|]).
    all: repeat apply conj.
    all: try exact I.
    all: try apply inCallOrder_only_options.
    all: try apply takeBeforeDo_only_options.
    all: try (now rewrite takeBeforeDo_options).
    all: eexists _, _; split; [reflexivity|]; try reflexivity.
    all: split; sorted_phases.
Qed.

Lemma yt_call_events :
  trace (snd (GetTranscript videoID opts st))
  = trace st ++ eventsOf (GetTranscript videoID opts) st
  /\ inCallOrder (eventsOf (GetTranscript videoID opts) st)
  /\ takeBeforeDo false (eventsOf (GetTranscript videoID opts) st) = true
  /\ match fst (GetTranscript videoID opts st) with
     | Return (_, None) => fullCall (eventsOf (GetTranscript videoID opts) st)
     | _ => True
     end.
Proof.
  unfold eventsOf.
  destruct (GetTranscript videoID opts st) as [r st'] eqn:Hcall.
  destruct (yt_call_shape _ _ Hcall) as (evs & Hst' & Hord & Htake & Hfull).
  cbn [fst snd]. rewrite Hst'. cbn [trace].
  rewrite skipn_app_exact. auto.
Qed.

Lemma yt_call_frame :
  self (snd (GetTranscript videoID opts st)) = self st.
Proof.
  destruct (GetTranscript videoID opts st) as [r st'] eqn:Hcall.
  destruct (yt_call_shape _ _ Hcall) as (evs & Hst' & _).
  cbn [snd]. now rewrite Hst'.
Qed.

(** A client that holds a limiter and a transport never panics, and the
    pointer it returns is nil exactly when the error is not. *)
Lemma yt_call_total rl hc :
  rateLimit (options_ (self st)) = Some rl ->
  httpClient (options_ (self st)) = Some hc ->
  exists transcript err,
    fst (GetTranscript videoID opts st) = Return (transcript, err)
    /\ (transcript = None <-> err <> None).
Proof.
  intros Hrl Hhc.
  destruct (GetTranscript videoID opts st) as [r st'] eqn:Hcall.
  revert Hcall. destruct st as [c w tr]. cbn [self] in Hrl, Hhc.
  enter_call.
  destruct (foldOptions opts zeroRequestOptions) as [o [e|]].
  - norm_call. intros H; inversion H; subst; clear H. cbn [fst].
    eexists _, _; split; [reflexivity|]; split; congruence.
  - split_call; intros H; inversion H; subst; clear H; cbn [fst].
    all: try congruence.
    all: eexists _, _; split; [reflexivity|]; split; congruence.
Qed.

(** The URL handed to [http.NewRequest]. *)
Lemma yt_call_urls rl :
  snd (foldOptions opts zeroRequestOptions) = None ->
  rateLimit (options_ (self st)) = Some rl ->
  builtURLs (eventsOf (GetTranscript videoID opts) st)
  = [yt_url (self st) videoID (yt_lang opts)].
Proof.
  intros Hopts Hrl. unfold eventsOf, yt_lang, yt_url.
  destruct (GetTranscript videoID opts st) as [r st'] eqn:Hcall.
  revert Hcall. destruct st as [c w tr]. cbn [self] in Hrl.
  enter_call.
  destruct (foldOptions opts zeroRequestOptions) as [o [e|]];
    [discriminate Hopts|].
  split_call; intros H; inversion H; subst; clear H; flatten_trace.
  all: try congruence.
  all: now rewrite skipn_app_exact, builtURLs_options.
Qed.

(** The two outcomes once the network has answered. *)
Lemma yt_call_ok res body response :
  yt_answered st videoID opts res ->
  http.StatusCode res = http.StatusOK ->
  http.Body res = (body, None) ->
  json_Unmarshal body zeroResponse = (response, None) ->
  fst (GetTranscript videoID opts st) = Return (Some response, None).
Proof.
  intros (rl & hc & w' & Hopts & Hrl & Hhc & Hurl & Hdo) Hcode Hbody Hjson.
  unfold yt_lang, yt_request, yt_url in *.
  destruct (GetTranscript videoID opts st) as [r st'] eqn:Hcall.
  revert Hcall. destruct st as [c w tr]. cbn [self world] in *.
  enter_call.
  destruct (foldOptions opts zeroRequestOptions) as [o [e|]];
    [discriminate Hopts|].
  cbn [fst] in *.
  split_call; intros H; inversion H; subst; clear H; cbn [fst].
  all: try congruence.
  all: try (apply Z.eqb_neq in Heqb; congruence).
Qed.

Lemma yt_call_status res body :
  yt_answered st videoID opts res ->
  http.StatusCode res <> http.StatusOK ->
  http.Body res = (body, None) ->
  fst (GetTranscript videoID opts st)
  = Return (None,
            Some (errorString ("http status code is not ok: " ++ body))).
Proof.
  intros (rl & hc & w' & Hopts & Hrl & Hhc & Hurl & Hdo) Hcode Hbody.
  unfold yt_lang, yt_request, yt_url in *.
  destruct (GetTranscript videoID opts st) as [r st'] eqn:Hcall.
  revert Hcall. destruct st as [c w tr]. cbn [self world] in *.
  enter_call.
  destruct (foldOptions opts zeroRequestOptions) as [o [e|]];
    [discriminate Hopts|].
  cbn [fst] in *.
  split_call; intros H; inversion H; subst; clear H; cbn [fst].
  all: try congruence.
  all: try (apply Z.eqb_eq in Heqb; congruence).
  change (Errorf "http status code is not ok: %s" [argString body0])
    with (errorString ("http status code is not ok: " ++ (body0 ++ EmptyString))).
  rewrite append_empty_r. congruence.
Qed.

End Transcript.

End Calls.

(** *** Two calls side by side *)

Ltac enter_calls :=
  unfold mediadownloader.GetChannelVideos, yttranscriptor.GetTranscript;
  cbv beta delta [bind];
  rewrite ?md_applyRequestOptions_run, ?yt_applyRequestOptions_run;
  cbv beta iota.

Section SideBySide.
Context {E : Env}.

(** Only the items and the error of the decoder reach the caller: two
    decoders that agree on them, whatever they make of [status] and
    [nextToken], give the same call. *)
Lemma md_call_items_only
  (J1 J2 : Unmarshaler mediadownloader.getChannelVideosResponse)
  channelID opts (st : State E (mediadownloader.Client E)) :
  (forall data v,
     mediadownloader.Items (fst (J1 data v))
     = mediadownloader.Items (fst (J2 data v))
     /\ snd (J1 data v) = snd (J2 data v)) ->
  mediadownloader.GetChannelVideos (JSON := J1) channelID opts st
  = mediadownloader.GetChannelVideos (JSON := J2) channelID opts st.
Proof.
  intros Hagree. destruct st as [c w tr].
  enter_calls.
  destruct (foldOptions opts mediadownloader.zeroRequestOptions) as [o [e|]].
  - reflexivity.
  - split_call; try reflexivity.
    all: match goal with
         | Ha : @json_Unmarshal _ ?Ja ?b ?v = _,
           Hb : @json_Unmarshal _ ?Jb ?b ?v = _ |- _ =>
             tryif constr_eq Ja Jb then fail else
               (destruct (Hagree b v) as [Hi He];
                unfold json_Unmarshal in Ha, Hb;
                rewrite ?Ha, ?Hb in Hi, He; cbn [fst snd] in Hi, He)
         end.
    all: congruence.
Qed.



End SideBySide.

(** * The claims *)

(** C1: for every transcript, the full-text view
    [GetTranscriptResponse.String] is the subtitles of its segments joined
    by single spaces, with no separator after the last one; it is the
    empty string when there is no segment (nil or empty list), and
    [Hello world] for the two segments [Hello] and [world]. *)
Theorem C1_full_text_view :
  (forall g,
     yttranscriptor.String_ g
     = String.concat " "
         (map yttranscriptor.Subtitle (elems (yttranscriptor.Transcription_ g))))
  /\ (forall title description langs len thumbnails,
        yttranscriptor.String_
          (yttranscriptor.mkGetTranscriptResponse
             title description langs len thumbnails None) = EmptyString
        /\ yttranscriptor.String_
             (yttranscriptor.mkGetTranscriptResponse
                title description langs len thumbnails (Some []))
           = EmptyString)
  /\ (forall title description langs len thumbnails s1 d1 s2 d2,
        yttranscriptor.String_
          (yttranscriptor.mkGetTranscriptResponse
             title description langs len thumbnails
             (Some [yttranscriptor.mkTranscription "Hello" s1 d1;
                    yttranscriptor.mkTranscription "world" s2 d2]))
        = "Hello world").
Proof.
  split; [|split].
  - intros g. apply String_is_joined.
  - intros. split; reflexivity.
  - intros. reflexivity.
Qed.

(** ** Construction in order *)

Lemma constructs_from_fold {O C : Type}
  (New : string -> list (O -> O * option error) -> option C * option error)
  (zero : O) (build : string -> O -> C) :
  (forall apiKey opts,
     New apiKey opts
     = match foldOptions opts zero with
       | (_, Some e) => (None, Some (wrapError ("bad option: " ++ Error e) e))
       | (o, None) => (Some (build apiKey o), None)
       end) ->
  constructsInOrder New zero build.
Proof.
  intros Hnew. split.
  - intros apiKey opts. rewrite <- foldOptions_ok_iff, Hnew.
    destruct (foldOptions opts zero) as [o [e|]]; cbn [snd]; split.
    + intros [c [=]].
    + discriminate.
    + reflexivity.
    + eauto.
  - intros apiKey opts Hv. rewrite Hnew.
    rewrite <- (foldOptions_fold_left _ _ Hv).
    apply foldOptions_ok_iff in Hv.
    destruct (foldOptions opts zero) as [o [e|]]; cbn [fst snd] in *;
      [discriminate | reflexivity].
  - intros apiKey pre bad post e Hpre Hbad.
    rewrite <- (foldOptions_fold_left _ _ Hpre) in Hbad.
    pose proof (foldOptions_stops pre post bad zero e Hpre Hbad) as Hstop.
    rewrite Hnew.
    destruct (foldOptions (pre ++ bad :: post) zero) as [o [e0|]];
      cbn [snd] in Hstop; congruence.
  - intros apiKey opts e'. rewrite Hnew.
    destruct (foldOptions opts zero) as [o [e|]] eqn:Hfold; cbn [fst snd];
      [|discriminate].
    intros [= <-]. split; [reflexivity|].
    destruct (foldOptions_first_invalid opts zero e) as
      (pre & bad & post & -> & Hpre & Hbad); [now rewrite Hfold|].
    exists pre, bad, post, e.
    rewrite <- (foldOptions_fold_left _ _ Hpre). auto.
Qed.

(** C2, amended: for both clients and every sequence of construction
    options, [New] succeeds iff every option validates (for the options the
    packages export: iff each one validates on its own); the options are
    applied strictly in the order given; the first invalid option aborts
    the construction at once, whatever follows it, no client is returned,
    and its error is surfaced wrapped, not unchanged: the error of [New]
    has the message [bad option: ] followed by the option's message,
    and unwraps to the option's error. *)
Theorem C2_construction_in_order (E : Env) :
  constructsInOrder (@mediadownloader.New E) mediadownloader.zeroOptions
    (fun apiKey o =>
       mediadownloader.mkClient apiKey (mediadownloader.withDefaults o))
  /\ constructsInOrder (@yttranscriptor.New E) yttranscriptor.zeroOptions
       (fun apiKey o =>
          yttranscriptor.mkClient apiKey (yttranscriptor.withDefaults o))
  /\ (forall apiKey (opts : list (mediadownloader.Option E)),
        Forall md_exported opts ->
        ((exists c, mediadownloader.New apiKey opts = (Some c, None))
         <-> Forall validates opts))
  /\ (forall apiKey (opts : list (yttranscriptor.Option E)),
        Forall yt_exported opts ->
        ((exists c, yttranscriptor.New apiKey opts = (Some c, None))
         <-> Forall validates opts))
  /\ (forall msg e, Unwrap (wrapError msg e) = Some e).
Proof.
  assert (Hmd := constructs_from_fold (@mediadownloader.New E)
                   mediadownloader.zeroOptions _ md_New_fold).
  assert (Hyt := constructs_from_fold (@yttranscriptor.New E)
                   yttranscriptor.zeroOptions _ yt_New_fold).
  split; [exact Hmd|]. split; [exact Hyt|]. split; [|split].
  - intros apiKey opts Hexp. rewrite (succeeds_iff _ _ _ Hmd).
    apply allValidate_Forall.
    eapply Forall_impl; [|exact Hexp]. apply md_exported_decided.
  - intros apiKey opts Hexp. rewrite (succeeds_iff _ _ _ Hyt).
    apply allValidate_Forall.
    eapply Forall_impl; [|exact Hexp]. apply yt_exported_decided.
  - reflexivity.
Qed.

(** C2, as stated, fails on the sample world: the option [WithHost] of a
    host with a tab in it returns the error [invalid host: ...], and [New]
    returns another error, [bad option: invalid host: ...], that wraps
    it. *)
Lemma C2_error_not_surfaced_unchanged :
  snd (mediadownloader.WithHost (E := Sample.env) Sample.badHost
         mediadownloader.zeroOptions)
  = Some Sample.badHostError
  /\ snd (mediadownloader.New (E := Sample.env) "key"
            [mediadownloader.WithHost Sample.badHost])
     = Some (wrapError ("bad option: " ++ Error Sample.badHostError)
                       Sample.badHostError)
  /\ ~ surfacesUnchanged (@mediadownloader.New Sample.env)
         mediadownloader.zeroOptions.
Proof.
  split; [reflexivity | split; [reflexivity|]].
  intros H.
  specialize (H "key" [] (mediadownloader.WithHost Sample.badHost) []
                Sample.badHostError I eq_refl).
  vm_compute in H. discriminate H.
Qed.

Lemma C2_construction_in_order_witness :
  mediadownloader.New (E := Sample.env) "key"
    ([mediadownloader.WithRateLimit (E := Sample.env) (5%Z, Second)]
     ++ mediadownloader.WithHost Sample.badHost
     :: [mediadownloader.WithHttpClient (E := Sample.env) 7])
  = (None,
     Some (wrapError ("bad option: " ++ Error Sample.badHostError)
                     Sample.badHostError)).
Proof.
  apply (first_invalid _ _ _ (proj1 (C2_construction_in_order Sample.env))).
  - simpl. auto.
  - reflexivity.
Defined.

(** C3: when the network answers a channel call with status 200 and a
    body that encoding/json decodes without error, [GetChannelVideos]
    returns the decoded items, the same list in the same order, and no
    error; the result holds nothing else of the decoded object: a decoder
    that differs only in what it makes of [status] and [nextToken] gives
    the same call. *)
Theorem C3_decoded_items_returned (E : Env)
  (J : Unmarshaler mediadownloader.getChannelVideosResponse)
  (st : State E (mediadownloader.Client E)) (channelID : string)
  (opts : list mediadownloader.getChannelVideosOption)
  (res : http.Response) (body : string)
  (response : mediadownloader.getChannelVideosResponse) :
  md_answered st channelID opts res ->
  http.StatusCode res = http.StatusOK ->
  http.Body res = (body, None) ->
  json_Unmarshal body mediadownloader.zeroResponse = (response, None) ->
  fst (mediadownloader.GetChannelVideos channelID opts st)
  = Return (mediadownloader.Items response, None)
  /\ forall J' : Unmarshaler mediadownloader.getChannelVideosResponse,
       (forall data v,
          mediadownloader.Items (fst (J data v))
          = mediadownloader.Items (fst (J' data v))
          /\ snd (J data v) = snd (J' data v)) ->
       mediadownloader.GetChannelVideos (JSON := J) channelID opts st
       = mediadownloader.GetChannelVideos (JSON := J') channelID opts st.
Proof.
  intros Hans Hcode Hbody Hjson. split.
  - eapply md_call_ok; eassumption.
  - intros J' Hagree. now apply md_call_items_only.
Qed.

Lemma C3_decoded_items_returned_witness :
  fst (mediadownloader.GetChannelVideos (JSON := Sample.channelJSON)
         "UC123" [] (Sample.start Sample.channelClient))
  = Return (Some [Sample.video "v1"; Sample.video "v2"], None).
Proof.
  refine (proj1 (C3_decoded_items_returned Sample.env Sample.channelJSON
            (Sample.start Sample.channelClient) "UC123" []
            {| http.StatusCode := 200;
               http.Body := (Sample.channelBody, None) |}
            Sample.channelBody
            {| mediadownloader.Status := false;
               mediadownloader.NextToken := "tok";
               mediadownloader.Items :=
                 Some [Sample.video "v1"; Sample.video "v2"] |}
            _ _ _ _)).
  - exists (3%Z, Second), 0, 1. repeat split; reflexivity.
  - reflexivity.
  - reflexivity.
  - reflexivity.
Defined.

(** C4: when the network answers with a status other than 200,
    [GetChannelVideos] and [GetTranscript] return no result (the nil slice,
    the nil pointer) and an error whose message is
    [http status code is not ok: ] followed by the body as it was read, so
    that it contains the exact body text. *)
Theorem C4_status_error (E : Env)
  (J1 : Unmarshaler mediadownloader.getChannelVideosResponse)
  (J2 : Unmarshaler yttranscriptor.GetTranscriptResponse) :
  (forall (st : State E (mediadownloader.Client E)) channelID opts res body,
     md_answered st channelID opts res ->
     http.StatusCode res <> http.StatusOK ->
     http.Body res = (body, None) ->
     exists err,
       fst (mediadownloader.GetChannelVideos channelID opts st)
       = Return (None, Some err)
       /\ Error err = ("http status code is not ok: " ++ body)%string
       /\ contains (Error err) body)
  /\ (forall (st : State E (yttranscriptor.Client E)) videoID opts res body,
        yt_answered st videoID opts res ->
        http.StatusCode res <> http.StatusOK ->
        http.Body res = (body, None) ->
        exists err,
          fst (yttranscriptor.GetTranscript videoID opts st)
          = Return (None, Some err)
          /\ Error err = ("http status code is not ok: " ++ body)%string
          /\ contains (Error err) body).
Proof.
  split; intros st id opts res body Hans Hcode Hbody;
    exists (errorString ("http status code is not ok: " ++ body)).
  - split; [eapply md_call_status; eassumption|].
    split; [reflexivity | apply contains_suffix].
  - split; [eapply yt_call_status; eassumption|].
    split; [reflexivity | apply contains_suffix].
Qed.

Lemma C4_status_error_witness :
  (exists err,
     fst (mediadownloader.GetChannelVideos (JSON := Sample.channelJSON)
            "nobody" [] (Sample.start Sample.channelClient))
     = Return (None, Some err)
     /\ Error err = "http status code is not ok: not found"
     /\ contains (Error err) "not found")
  /\ (exists err,
        fst (yttranscriptor.GetTranscript (JSON := Sample.transcriptJSON)
               "nothing" [] (Sample.start Sample.transcriptClient))
        = Return (None, Some err)
        /\ Error err = "http status code is not ok: not found"
        /\ contains (Error err) "not found").
Proof.
  split.
  - refine (proj1 (C4_status_error Sample.env Sample.channelJSON
              Sample.transcriptJSON)
              (Sample.start Sample.channelClient) "nobody" []
              {| http.StatusCode := 404; http.Body := ("not found", None) |}
              "not found" _ _ _).
    + exists (3%Z, Second), 0, 1. repeat split; reflexivity.
    + discriminate.
    + reflexivity.
  - refine (proj2 (C4_status_error Sample.env Sample.channelJSON
              Sample.transcriptJSON)
              (Sample.start Sample.transcriptClient) "nothing" []
              {| http.StatusCode := 404; http.Body := ("not found", None) |}
              "not found" _ _ _).
    + exists (10%Z, Second), 0, 1. repeat split; reflexivity.
    + discriminate.
    + reflexivity.
Defined.

(** ** Defaults and URLs *)

Lemma md_url_template {E : Env} (c : mediadownloader.Client E)
  (channelID lang : string) :
  md_url c channelID lang
  = ("https://" ++ mediadownloader.host (mediadownloader.options_ c)
     ++ "/v2/channel/videos?channelId=" ++ channelID ++ "&lang=" ++ lang)%string.
Proof.
  unfold md_url, Sprintf. cbn. now rewrite append_empty_r.
Qed.

Lemma yt_url_template {E : Env} (c : yttranscriptor.Client E)
  (videoID lang : string) :
  yt_url c videoID lang
  = ("https://" ++ yttranscriptor.host (yttranscriptor.options_ c)
     ++ "/transcript?video_id=" ++ videoID ++ "&lang=" ++ lang)%string.
Proof.
  unfold yt_url, Sprintf. cbn. now rewrite append_empty_r.
Qed.

(** C5: with no option, [New] gives the channel client the host
    [youtube-media-downloader.p.rapidapi.com], a limiter of 3 per second
    and [http.DefaultClient], and the transcript client the host
    [youtube-transcriptor.p.rapidapi.com], a limiter of 10 per second and
    [http.DefaultClient]; more generally each of the three fields an
    option list leaves unset gets its default and a field that is set is
    kept; with no request option the language is [en] for both clients
    and the content type of the channel client is [videos]. *)
Theorem C5_defaults (E : Env) :
  (forall apiKey,
     mediadownloader.New (E := E) apiKey []
     = (Some (mediadownloader.mkClient apiKey
                (mediadownloader.mkOptions
                   "youtube-media-downloader.p.rapidapi.com"
                   (Some (ratelimit_New E 3 Second))
                   (Some (http_DefaultClient E)))),
        None))
  /\ (forall apiKey,
        yttranscriptor.New (E := E) apiKey []
        = (Some (yttranscriptor.mkClient apiKey
                   (yttranscriptor.mkOptions
                      "youtube-transcriptor.p.rapidapi.com"
                      (Some (ratelimit_New E 10 Second))
                      (Some (http_DefaultClient E)))),
           None))
  /\ (forall o : mediadownloader.options E,
        mediadownloader.host (mediadownloader.withDefaults o)
        = (if String.eqb (mediadownloader.host o) EmptyString
           then "youtube-media-downloader.p.rapidapi.com"
           else mediadownloader.host o)
        /\ mediadownloader.rateLimit (mediadownloader.withDefaults o)
           = match mediadownloader.rateLimit o with
             | Some rl => Some rl
             | None => Some (ratelimit_New E 3 Second)
             end
        /\ mediadownloader.httpClient (mediadownloader.withDefaults o)
           = match mediadownloader.httpClient o with
             | Some hc => Some hc
             | None => Some (http_DefaultClient E)
             end)
  /\ (forall o : yttranscriptor.options E,
        yttranscriptor.host (yttranscriptor.withDefaults o)
        = (if String.eqb (yttranscriptor.host o) EmptyString
           then "youtube-transcriptor.p.rapidapi.com"
           else yttranscriptor.host o)
        /\ yttranscriptor.rateLimit (yttranscriptor.withDefaults o)
           = match yttranscriptor.rateLimit o with
             | Some rl => Some rl
             | None => Some (ratelimit_New E 10 Second)
             end
        /\ yttranscriptor.httpClient (yttranscriptor.withDefaults o)
           = match yttranscriptor.httpClient o with
             | Some hc => Some hc
             | None => Some (http_DefaultClient E)
             end)
  /\ mediadownloader.withRequestDefaults mediadownloader.zeroRequestOptions
     = mediadownloader.mkGetChannelVideosOptions "en" "videos"
  /\ yttranscriptor.withRequestDefaults yttranscriptor.zeroRequestOptions
     = yttranscriptor.mkGetTranscriptOptions "en"
  /\ (forall o,
        mediadownloader.lang (mediadownloader.withRequestDefaults o)
        = (if String.eqb (mediadownloader.lang o) EmptyString
           then "en" else mediadownloader.lang o)
        /\ mediadownloader.contentType (mediadownloader.withRequestDefaults o)
           = (if String.eqb (mediadownloader.contentType o) EmptyString
              then "videos" else mediadownloader.contentType o))
  /\ (forall o,
        yttranscriptor.lang (yttranscriptor.withRequestDefaults o)
        = (if String.eqb (yttranscriptor.lang o) EmptyString
           then "en" else yttranscriptor.lang o))
  /\ md_lang [] = "en"
  /\ yt_lang [] = "en".
Proof.
  repeat apply conj; try reflexivity.
  - intros [h [rl|] [hc|]]; unfold mediadownloader.withDefaults; cbn;
      destruct (String.eqb h EmptyString); cbn; auto.
  - intros [h [rl|] [hc|]]; unfold yttranscriptor.withDefaults; cbn;
      destruct (String.eqb h EmptyString); cbn; auto.
  - intros [l ct]; unfold mediadownloader.withRequestDefaults,
      mediadownloader.ContentTypeUndefined, mediadownloader.ContentTypeVideos;
      cbn.
    destruct (String.eqb l EmptyString); cbn;
      destruct (String.eqb ct EmptyString); cbn; auto.
  - intros [l]; unfold yttranscriptor.withRequestDefaults; cbn.
    destruct (String.eqb l EmptyString); reflexivity.
Qed.

(** C6: a channel call whose request options validate, on a client that
    holds a limiter, builds exactly one URL,
    [https://{host}/v2/channel/videos?channelId={channelID}&lang={lang}],
    where the language is the one the options leave, [en] standing for
    the empty one; the content type is in none of its parts: with
    [WithLang lang], before or after any [WithContentType], the language
    of the URL is [lang] (or [en] when [lang] is empty).  A transcript
    call builds exactly
    [https://{host}/transcript?video_id={videoID}&lang={lang}]. *)
Theorem C6_urls (E : Env)
  (J1 : Unmarshaler mediadownloader.getChannelVideosResponse)
  (J2 : Unmarshaler yttranscriptor.GetTranscriptResponse) :
  (forall (st : State E (mediadownloader.Client E)) channelID opts rl,
     snd (foldOptions opts mediadownloader.zeroRequestOptions) = None ->
     mediadownloader.rateLimit (mediadownloader.options_ (self st)) = Some rl ->
     builtURLs (eventsOf (mediadownloader.GetChannelVideos channelID opts) st)
     = [("https://" ++ mediadownloader.host (mediadownloader.options_ (self st))
         ++ "/v2/channel/videos?channelId=" ++ channelID
         ++ "&lang=" ++ md_lang opts)%string])
  /\ (forall lang ct,
        let effective := if String.eqb lang EmptyString then "en" else lang in
        md_lang [mediadownloader.WithLang lang] = effective
        /\ md_lang [mediadownloader.WithLang lang;
                    mediadownloader.WithContentType ct] = effective
        /\ md_lang [mediadownloader.WithContentType ct;
                    mediadownloader.WithLang lang] = effective
        /\ md_lang [mediadownloader.WithContentType ct] = "en")
  /\ (forall (st : State E (yttranscriptor.Client E)) videoID opts rl,
        snd (foldOptions opts yttranscriptor.zeroRequestOptions) = None ->
        yttranscriptor.rateLimit (yttranscriptor.options_ (self st)) = Some rl ->
        builtURLs (eventsOf (yttranscriptor.GetTranscript videoID opts) st)
        = [("https://" ++ yttranscriptor.host (yttranscriptor.options_ (self st))
            ++ "/transcript?video_id=" ++ videoID
            ++ "&lang=" ++ yt_lang opts)%string])
  /\ (forall lang,
        yt_lang [yttranscriptor.WithLang lang]
        = if String.eqb lang EmptyString then "en" else lang).
Proof.
  repeat apply conj.
  - intros st channelID opts rl Hopts Hrl.
    rewrite <- md_url_template. eapply md_call_urls; eassumption.
  - intros lang ct effective. subst effective.
    unfold md_lang, mediadownloader.withRequestDefaults. cbn.
    destruct (String.eqb lang EmptyString); cbn;
      destruct (String.eqb ct mediadownloader.ContentTypeUndefined); cbn;
      auto.
  - intros st videoID opts rl Hopts Hrl.
    rewrite <- yt_url_template. eapply yt_call_urls; eassumption.
  - intros lang. unfold yt_lang, yttranscriptor.withRequestDefaults. cbn.
    destruct (String.eqb lang EmptyString); reflexivity.
Qed.

Lemma C6_urls_witness :
  builtURLs (eventsOf (mediadownloader.GetChannelVideos
                         (JSON := Sample.channelJSON) "UC123"
                         [mediadownloader.WithLang "fr";
                          mediadownloader.WithContentType
                            mediadownloader.ContentTypeShorts])
               (Sample.start Sample.channelClient))
  = ["https://youtube-media-downloader.p.rapidapi.com/v2/channel/videos?channelId=UC123&lang=fr"]
  /\ builtURLs (eventsOf (yttranscriptor.GetTranscript
                            (JSON := Sample.transcriptJSON) "vid1" [])
                  (Sample.start Sample.transcriptClient))
     = ["https://youtube-transcriptor.p.rapidapi.com/transcript?video_id=vid1&lang=en"].
Proof.
  split.
  - apply (proj1 (C6_urls Sample.env Sample.channelJSON Sample.transcriptJSON)
             (Sample.start Sample.channelClient) "UC123"
             [mediadownloader.WithLang "fr";
              mediadownloader.WithContentType
                mediadownloader.ContentTypeShorts]
             (3%Z, Second));
      reflexivity.
  - apply (proj1 (proj2 (proj2 (C6_urls Sample.env Sample.channelJSON
                                  Sample.transcriptJSON)))
             (Sample.start Sample.transcriptClient) "vid1" []
             (10%Z, Second));
      reflexivity.
Defined.

(** C7: in every call of [GetChannelVideos] and of [GetTranscript] the
    events come in the order of the steps: the request options are
    applied, then the token is taken, then the request is built and
    sent, then the body is read, the status checked and the body
    decoded, then the body is released; no step happens twice and none
    before an earlier one.  In particular no request is sent before a
    token was taken, and a call that returns without error went through
    every one of the steps. *)
Theorem C7_step_order (E : Env)
  (J1 : Unmarshaler mediadownloader.getChannelVideosResponse)
  (J2 : Unmarshaler yttranscriptor.GetTranscriptResponse) :
  (forall (st : State E (mediadownloader.Client E)) channelID opts,
     let call := mediadownloader.GetChannelVideos channelID opts in
     trace (snd (call st)) = trace st ++ eventsOf call st
     /\ inCallOrder (eventsOf call st)
     /\ takeBeforeDo false (eventsOf call st) = true
     /\ match fst (call st) with
        | Return (_, None) => fullCall (eventsOf call st)
        | _ => True
        end)
  /\ (forall (st : State E (yttranscriptor.Client E)) videoID opts,
        let call := yttranscriptor.GetTranscript videoID opts in
        trace (snd (call st)) = trace st ++ eventsOf call st
        /\ inCallOrder (eventsOf call st)
        /\ takeBeforeDo false (eventsOf call st) = true
        /\ match fst (call st) with
           | Return (_, None) => fullCall (eventsOf call st)
           | _ => True
           end).
Proof.
  split; intros st id opts call; subst call.
  - apply md_call_events.
  - apply yt_call_events.
Qed.

(** C8: every call of [GetChannelVideos] and of [GetTranscript], however
    it ends, leaves the client as it found it: the API key, the host, the
    limiter and the transport it holds are the ones it held before. *)
Theorem C8_client_unchanged (E : Env)
  (J1 : Unmarshaler mediadownloader.getChannelVideosResponse)
  (J2 : Unmarshaler yttranscriptor.GetTranscriptResponse) :
  (forall (st : State E (mediadownloader.Client E)) channelID opts,
     self (snd (mediadownloader.GetChannelVideos channelID opts st)) = self st)
  /\ (forall (st : State E (yttranscriptor.Client E)) videoID opts,
        self (snd (yttranscriptor.GetTranscript videoID opts st)) = self st).
Proof.
  split; intros st id opts.
  - apply md_call_frame.
  - apply yt_call_frame.
Qed.

(** ** The empty string as an option value *)

Section EmptyHost.
Context {E : Env}.
Hypothesis parse_bare_scheme : url_Parse E "https://" = None.

Lemma md_WithHost_empty (o : mediadownloader.options E) :
  mediadownloader.WithHost EmptyString o
  = (mediadownloader.mkOptions EmptyString
       (mediadownloader.rateLimit o) (mediadownloader.httpClient o), None).
Proof.
  unfold mediadownloader.WithHost, http_NewRequest.
  change (Sprintf "https://%s" [argString EmptyString]) with "https://".
  now rewrite parse_bare_scheme.
Qed.

Lemma yt_WithHost_empty (o : yttranscriptor.options E) :
  yttranscriptor.WithHost EmptyString o
  = (yttranscriptor.mkOptions EmptyString
       (yttranscriptor.rateLimit o) (yttranscriptor.httpClient o), None).
Proof.
  unfold yttranscriptor.WithHost, http_NewRequest.
  change (Sprintf "https://%s" [argString EmptyString]) with "https://".
  now rewrite parse_bare_scheme.
Qed.

Lemma md_New_host_empty_last apiKey opts (c : mediadownloader.Client E) :
  mediadownloader.New apiKey (opts ++ [mediadownloader.WithHost EmptyString])
  = (Some c, None) ->
  mediadownloader.host (mediadownloader.options_ c)
  = mediadownloader.defaultHost.
Proof.
  rewrite md_New_fold. unfold mediadownloader.Option in opts.
  rewrite (foldOptions_app opts [mediadownloader.WithHost EmptyString]).
  destruct (foldOptions opts mediadownloader.zeroOptions) as [o [e|]].
  - discriminate.
  - cbn [foldOptions]. rewrite md_WithHost_empty. intros [= <-].
    unfold mediadownloader.withDefaults. cbn.
    destruct (mediadownloader.rateLimit o), (mediadownloader.httpClient o);
      reflexivity.
Qed.

Lemma yt_New_host_empty_last apiKey opts (c : yttranscriptor.Client E) :
  yttranscriptor.New apiKey (opts ++ [yttranscriptor.WithHost EmptyString])
  = (Some c, None) ->
  yttranscriptor.host (yttranscriptor.options_ c)
  = yttranscriptor.defaultHost.
Proof.
  rewrite yt_New_fold. unfold yttranscriptor.Option in opts.
  rewrite (foldOptions_app opts [yttranscriptor.WithHost EmptyString]).
  destruct (foldOptions opts yttranscriptor.zeroOptions) as [o [e|]].
  - discriminate.
  - cbn [foldOptions]. rewrite yt_WithHost_empty. intros [= <-].
    unfold yttranscriptor.withDefaults. cbn.
    destruct (yttranscriptor.rateLimit o), (yttranscriptor.httpClient o);
      reflexivity.
Qed.

End EmptyHost.

Lemma eventsOf_trace {E : Env} {C A : Type} (m : M E C A) (st : State E C)
  (evs : list event) :
  trace (snd (m st)) = trace st ++ evs -> eventsOf m st = evs.
Proof. unfold eventsOf. intros ->. apply skipn_app_exact. Qed.

(** * Further properties *)

(** ** The events read off a trace *)

Section EventReaders.
Context {E : Env}.

Lemma takenFrom_app (l r : list (@event E)) :
  takenFrom (l ++ r) = takenFrom l ++ takenFrom r.
Proof.
  induction l as [|e l IH]; [reflexivity|].
  destruct e; cbn; now rewrite IH.
Qed.

Lemma sentRequests_app (l r : list (@event E)) :
  sentRequests (l ++ r) = sentRequests l ++ sentRequests r.
Proof.
  induction l as [|e l IH]; [reflexivity|].
  destruct e; cbn; now rewrite IH.
Qed.

Lemma decodedBodies_app (l r : list (@event E)) :
  decodedBodies (l ++ r) = decodedBodies l ++ decodedBodies r.
Proof.
  induction l as [|e l IH]; [reflexivity|].
  destruct e; cbn; now rewrite IH.
Qed.

Lemma closes_app (l r : list (@event E)) :
  closes (l ++ r) = closes l + closes r.
Proof.
  induction l as [|e l IH]; [reflexivity|].
  destruct e; cbn; now rewrite IH.
Qed.

Lemma takenFrom_options (n : nat) :
  takenFrom (E := E) (repeat EvApplyOption n) = [].
Proof. induction n as [|n IH]; [reflexivity | exact IH]. Qed.

Lemma sentRequests_options (n : nat) :
  sentRequests (E := E) (repeat EvApplyOption n) = [].
Proof. induction n as [|n IH]; [reflexivity | exact IH]. Qed.

Lemma decodedBodies_options (n : nat) :
  decodedBodies (E := E) (repeat EvApplyOption n) = [].
Proof. induction n as [|n IH]; [reflexivity | exact IH]. Qed.

Lemma closes_options (n : nat) :
  closes (E := E) (repeat EvApplyOption n) = 0.
Proof. induction n as [|n IH]; [reflexivity | exact IH]. Qed.

(** The events of a call whose whole run is known. *)
Lemma eventsOf_run {C A : Type} (m : M E C A) (st : State E C)
  (r : outcome A) (c : C) (w : World E) (evs : list event) :
  m st = (r, {| self := c; world := w; trace := trace st ++ evs |}) ->
  eventsOf m st = evs.
Proof. intros H. apply eventsOf_trace. now rewrite H. Qed.

End EventReaders.

Lemma last_app_cons {A : Type} (l r : list A) (x d : A) :
  last (l ++ x :: r) d = last (x :: r) d.
Proof.
  induction l as [|a l IH]; [reflexivity|].
  cbn [app]. rewrite <- IH. destruct (l ++ x :: r) eqn:Hl; [|reflexivity].
  now destruct l.
Qed.

(** Identifies what two equations say of one term. *)
Ltac unify_hyps :=
  repeat first
    [ match goal with H : ?x = ?x |- _ => clear H end
    | match goal with H : Some _ = Some _ |- _ => injection H as H end
    | match goal with H : inl _ = inl _ |- _ => injection H as H end
    | match goal with H : inr _ = inr _ |- _ => injection H as H end
    | match goal with
      | H : (_, _) = (_, _) |- _ => injection H; clear H; intros
      end
    | match goal with H : ?a = ?b |- _ => is_var a; subst a end
    | match goal with H : ?a = ?b |- _ => is_var b; subst b end
    | match goal with
      | H1 : ?a = ?b, H2 : ?a = ?c |- _ =>
          first [constr_eq b c; clear H2 | rewrite H1 in H2]
      end ].

(** Reads [takenFrom], [sentRequests], [decodedBodies] and [closes] off an
    explicit list of events. *)
Ltac read_events :=
  unfold md_upToSend, md_upToRequest, yt_upToSend, yt_upToRequest;
  repeat rewrite ?takenFrom_app, ?sentRequests_app, ?decodedBodies_app,
    ?closes_app, ?builtURLs_options, ?takenFrom_options,
    ?sentRequests_options, ?decodedBodies_options, ?closes_options;
  cbn [takenFrom sentRequests decodedBodies closes app Nat.add].

(** *** The paths of GetChannelVideos *)

Section ChannelPaths.
Context {E : Env}.
Context {JSON : Unmarshaler mediadownloader.getChannelVideosResponse}.
Import mediadownloader.

Variable channelID : string.
Variable opts : list getChannelVideosOption.
Variable st : State E (Client E).

Ltac start_path :=
  unfold md_upToSend, md_upToRequest, md_lang, md_request, md_url in *;
  destruct st as [c w tr]; cbn [self world trace] in *;
  enter_call;
  try match goal with
      | H : snd (foldOptions opts zeroRequestOptions) = None |- _ =>
          rewrite (appliedCount_ok _ _ H)
      end;
  destruct (foldOptions opts zeroRequestOptions) as [o [e0|]];
  cbn [fst snd] in *; try discriminate.

Ltac end_path :=
  split_call; flatten_trace; try reflexivity; try congruence;
  try match goal with
      | H : Z.eqb _ _ = true |- _ => apply Z.eqb_eq in H
      | H : Z.eqb _ _ = false |- _ => apply Z.eqb_neq in H
      end;
  try congruence;
  unify_hyps; try reflexivity; try congruence.

Lemma md_run_bad_option o e :
  foldOptions opts zeroRequestOptions = (o, Some e) ->
  GetChannelVideos channelID opts st
  = (Return (None, Some (Errorf "bad option: %w" [argError e])),
     logged st (repeat EvApplyOption (appliedCount opts zeroRequestOptions))).
Proof.
  intros Hfold. destruct st as [c w tr]. enter_call. rewrite Hfold.
  reflexivity.
Qed.

Lemma md_run_nil_limiter :
  snd (foldOptions opts zeroRequestOptions) = None ->
  rateLimit (options_ (self st)) = None ->
  GetChannelVideos channelID opts st
  = (Panic "nil pointer dereference",
     logged st (repeat EvApplyOption (length opts))).
Proof.
  intros Hopts Hrl. start_path. end_path.
Qed.

Lemma md_run_bad_url rl e :
  snd (foldOptions opts zeroRequestOptions) = None ->
  rateLimit (options_ (self st)) = Some rl ->
  url_Parse E (md_url (self st) channelID (md_lang opts)) = Some e ->
  GetChannelVideos channelID opts st
  = (Return (None, Some (Errorf "failed to create request: %w" [argError e])),
     {| self := self st;
        world := limiter_Take E rl (world st);
        trace := trace st ++ md_upToRequest (self st) channelID opts rl |}).
Proof.
  intros Hopts Hrl Hurl. start_path. end_path.
Qed.

Lemma md_run_nil_transport rl :
  snd (foldOptions opts zeroRequestOptions) = None ->
  rateLimit (options_ (self st)) = Some rl ->
  url_Parse E (md_url (self st) channelID (md_lang opts)) = None ->
  httpClient (options_ (self st)) = None ->
  GetChannelVideos channelID opts st
  = (Panic "nil pointer dereference",
     {| self := self st;
        world := limiter_Take E rl (world st);
        trace := trace st ++ md_upToRequest (self st) channelID opts rl |}).
Proof.
  intros Hopts Hrl Hurl Hhc. start_path. end_path.
Qed.

Lemma md_run_transport_error rl hc e w' :
  md_sendable st channelID opts rl hc ->
  client_Do E hc (md_request (self st) channelID (md_lang opts))
    (limiter_Take E rl (world st)) = (inr e, w') ->
  GetChannelVideos channelID opts st
  = (Return (None, Some (Errorf "failed to execute request: %w" [argError e])),
     {| self := self st;
        world := w';
        trace := trace st ++ md_upToSend (self st) channelID opts rl hc |}).
Proof.
  intros (Hopts & Hrl & Hhc & Hurl) Hdo. start_path. end_path.
Qed.

Lemma md_run_read_error rl hc res w' read e :
  md_sendable st channelID opts rl hc ->
  client_Do E hc (md_request (self st) channelID (md_lang opts))
    (limiter_Take E rl (world st)) = (inl res, w') ->
  http.Body res = (read, Some e) ->
  GetChannelVideos channelID opts st
  = (Return (None,
             Some (Errorf "failed to read response body: %w" [argError e])),
     {| self := self st;
        world := w';
        trace := trace st ++ md_upToSend (self st) channelID opts rl hc
                 ++ [EvReadAll; EvClose] |}).
Proof.
  intros (Hopts & Hrl & Hhc & Hurl) Hdo Hbody. start_path. end_path.
Qed.

Lemma md_run_status rl hc res w' body :
  md_sendable st channelID opts rl hc ->
  client_Do E hc (md_request (self st) channelID (md_lang opts))
    (limiter_Take E rl (world st)) = (inl res, w') ->
  http.Body res = (body, None) ->
  http.StatusCode res <> http.StatusOK ->
  GetChannelVideos channelID opts st
  = (Return (None,
             Some (Errorf "http status code is not ok: %s" [argString body])),
     {| self := self st;
        world := w';
        trace := trace st ++ md_upToSend (self st) channelID opts rl hc
                 ++ [EvReadAll; EvCheckStatus (http.StatusCode res);
                     EvClose] |}).
Proof.
  intros (Hopts & Hrl & Hhc & Hurl) Hdo Hbody Hcode. start_path. end_path.
Qed.

Lemma md_run_decode_error rl hc res w' body v e :
  md_sendable st channelID opts rl hc ->
  client_Do E hc (md_request (self st) channelID (md_lang opts))
    (limiter_Take E rl (world st)) = (inl res, w') ->
  http.Body res = (body, None) ->
  http.StatusCode res = http.StatusOK ->
  json_Unmarshal body zeroResponse = (v, Some e) ->
  GetChannelVideos channelID opts st
  = (Return (None, Some (Errorf "failed to unmarshal response body: %w" [argError e])),
     {| self := self st;
        world := w';
        trace := trace st ++ md_upToSend (self st) channelID opts rl hc
                 ++ [EvReadAll; EvCheckStatus (http.StatusCode res);
                     EvUnmarshal body; EvClose] |}).
Proof.
  intros (Hopts & Hrl & Hhc & Hurl) Hdo Hbody Hcode Hjson.
  start_path. end_path.
Qed.

Lemma md_run_ok rl hc res w' body v :
  md_sendable st channelID opts rl hc ->
  client_Do E hc (md_request (self st) channelID (md_lang opts))
    (limiter_Take E rl (world st)) = (inl res, w') ->
  http.Body res = (body, None) ->
  http.StatusCode res = http.StatusOK ->
  json_Unmarshal body zeroResponse = (v, None) ->
  GetChannelVideos channelID opts st
  = (Return (Items v, None),
     {| self := self st;
        world := w';
        trace := trace st ++ md_upToSend (self st) channelID opts rl hc
                 ++ [EvReadAll; EvCheckStatus (http.StatusCode res);
                     EvUnmarshal body; EvClose] |}).
Proof.
  intros (Hopts & Hrl & Hhc & Hurl) Hdo Hbody Hcode Hjson.
  start_path. end_path.
Qed.

End ChannelPaths.

(** *** The paths of GetTranscript *)

Section TranscriptPaths.
Context {E : Env}.
Context {JSON : Unmarshaler yttranscriptor.GetTranscriptResponse}.
Import yttranscriptor.

Variable videoID : string.
Variable opts : list getTranscriptOption.
Variable st : State E (Client E).

Ltac start_path :=
  unfold yt_upToSend, yt_upToRequest, yt_lang, yt_request, yt_url in *;
  destruct st as [c w tr]; cbn [self world trace] in *;
  enter_call;
  try match goal with
      | H : snd (foldOptions opts zeroRequestOptions) = None |- _ =>
          rewrite (appliedCount_ok _ _ H)
      end;
  destruct (foldOptions opts zeroRequestOptions) as [o [e0|]];
  cbn [fst snd] in *; try discriminate.

Ltac end_path :=
  split_call; flatten_trace; try reflexivity; try congruence;
  try match goal with
      | H : Z.eqb _ _ = true |- _ => apply Z.eqb_eq in H
      | H : Z.eqb _ _ = false |- _ => apply Z.eqb_neq in H
      end;
  try congruence;
  unify_hyps; try reflexivity; try congruence.

Lemma yt_run_bad_option o e :
  foldOptions opts zeroRequestOptions = (o, Some e) ->
  GetTranscript videoID opts st
  = (Return (None, Some (Errorf "bad option: %w" [argError e])),
     logged st (repeat EvApplyOption (appliedCount opts zeroRequestOptions))).
Proof.
  intros Hfold. destruct st as [c w tr]. enter_call. rewrite Hfold.
  reflexivity.
Qed.

Lemma yt_run_nil_limiter :
  snd (foldOptions opts zeroRequestOptions) = None ->
  rateLimit (options_ (self st)) = None ->
  GetTranscript videoID opts st
  = (Panic "nil pointer dereference",
     logged st (repeat EvApplyOption (length opts))).
Proof.
  intros Hopts Hrl. start_path. end_path.
Qed.

Lemma yt_run_bad_url rl e :
  snd (foldOptions opts zeroRequestOptions) = None ->
  rateLimit (options_ (self st)) = Some rl ->
  url_Parse E (yt_url (self st) videoID (yt_lang opts)) = Some e ->
  GetTranscript videoID opts st
  = (Return (None, Some (Errorf "failed to create request: %w" [argError e])),
     {| self := self st;
        world := limiter_Take E rl (world st);
        trace := trace st ++ yt_upToRequest (self st) videoID opts rl |}).
Proof.
  intros Hopts Hrl Hurl. start_path. end_path.
Qed.

Lemma yt_run_nil_transport rl :
  snd (foldOptions opts zeroRequestOptions) = None ->
  rateLimit (options_ (self st)) = Some rl ->
  url_Parse E (yt_url (self st) videoID (yt_lang opts)) = None ->
  httpClient (options_ (self st)) = None ->
  GetTranscript videoID opts st
  = (Panic "nil pointer dereference",
     {| self := self st;
        world := limiter_Take E rl (world st);
        trace := trace st ++ yt_upToRequest (self st) videoID opts rl |}).
Proof.
  intros Hopts Hrl Hurl Hhc. start_path. end_path.
Qed.

Lemma yt_run_transport_error rl hc e w' :
  yt_sendable st videoID opts rl hc ->
  client_Do E hc (yt_request (self st) videoID (yt_lang opts))
    (limiter_Take E rl (world st)) = (inr e, w') ->
  GetTranscript videoID opts st
  = (Return (None, Some (Errorf "failed to execute request: %w" [argError e])),
     {| self := self st;
        world := w';
        trace := trace st ++ yt_upToSend (self st) videoID opts rl hc |}).
Proof.
  intros (Hopts & Hrl & Hhc & Hurl) Hdo. start_path. end_path.
Qed.

Lemma yt_run_read_error rl hc res w' read e :
  yt_sendable st videoID opts rl hc ->
  client_Do E hc (yt_request (self st) videoID (yt_lang opts))
    (limiter_Take E rl (world st)) = (inl res, w') ->
  http.Body res = (read, Some e) ->
  GetTranscript videoID opts st
  = (Return (None,
             Some (Errorf "failed to read response body: %w" [argError e])),
     {| self := self st;
        world := w';
        trace := trace st ++ yt_upToSend (self st) videoID opts rl hc
                 ++ [EvReadAll; EvClose] |}).
Proof.
  intros (Hopts & Hrl & Hhc & Hurl) Hdo Hbody. start_path. end_path.
Qed.

Lemma yt_run_status rl hc res w' body :
  yt_sendable st videoID opts rl hc ->
  client_Do E hc (yt_request (self st) videoID (yt_lang opts))
    (limiter_Take E rl (world st)) = (inl res, w') ->
  http.Body res = (body, None) ->
  http.StatusCode res <> http.StatusOK ->
  GetTranscript videoID opts st
  = (Return (None,
             Some (Errorf "http status code is not ok: %s" [argString body])),
     {| self := self st;
        world := w';
        trace := trace st ++ yt_upToSend (self st) videoID opts rl hc
                 ++ [EvReadAll; EvCheckStatus (http.StatusCode res);
                     EvClose] |}).
Proof.
  intros (Hopts & Hrl & Hhc & Hurl) Hdo Hbody Hcode. start_path. end_path.
Qed.

Lemma yt_run_decode_error rl hc res w' body v e :
  yt_sendable st videoID opts rl hc ->
  client_Do E hc (yt_request (self st) videoID (yt_lang opts))
    (limiter_Take E rl (world st)) = (inl res, w') ->
  http.Body res = (body, None) ->
  http.StatusCode res = http.StatusOK ->
  json_Unmarshal body zeroResponse = (v, Some e) ->
  GetTranscript videoID opts st
  = (Return (None, Some (Errorf "failed to unmarshal response: %w" [argError e])),
     {| self := self st;
        world := w';
        trace := trace st ++ yt_upToSend (self st) videoID opts rl hc
                 ++ [EvReadAll; EvCheckStatus (http.StatusCode res);
                     EvUnmarshal body; EvClose] |}).
Proof.
  intros (Hopts & Hrl & Hhc & Hurl) Hdo Hbody Hcode Hjson.
  start_path. end_path.
Qed.

Lemma yt_run_ok rl hc res w' body v :
  yt_sendable st videoID opts rl hc ->
  client_Do E hc (yt_request (self st) videoID (yt_lang opts))
    (limiter_Take E rl (world st)) = (inl res, w') ->
  http.Body res = (body, None) ->
  http.StatusCode res = http.StatusOK ->
  json_Unmarshal body zeroResponse = (v, None) ->
  GetTranscript videoID opts st
  = (Return (Some v, None),
     {| self := self st;
        world := w';
        trace := trace st ++ yt_upToSend (self st) videoID opts rl hc
                 ++ [EvReadAll; EvCheckStatus (http.StatusCode res);
                     EvUnmarshal body; EvClose] |}).
Proof.
  intros (Hopts & Hrl & Hhc & Hurl) Hdo Hbody Hcode Hjson.
  start_path. end_path.
Qed.

End TranscriptPaths.

(** *** What every GetChannelVideos call does *)

Section ChannelCounts.
Context {E : Env}.
Context {JSON : Unmarshaler mediadownloader.getChannelVideosResponse}.
Import mediadownloader.

Variable channelID : string.
Variable opts : list getChannelVideosOption.
Variable st : State E (Client E).

Ltac every_path :=
  unfold eventsOf;
  destruct (GetChannelVideos channelID opts st) as [r0 st'] eqn:Hcall;
  revert Hcall; destruct st as [c w tr]; cbn [self world trace fst snd] in *;
  enter_call;
  destruct (foldOptions opts zeroRequestOptions) as [o [e0|]];
  cbn [fst snd] in *;
  [ try discriminate; norm_call | split_call ];
  intros Hrun; injection Hrun as <- <-; flatten_trace;
  rewrite ?skipn_app_exact.

Lemma md_call_tokens rl :
  snd (foldOptions opts zeroRequestOptions) = None ->
  rateLimit (options_ (self st)) = Some rl ->
  takenFrom (eventsOf (GetChannelVideos channelID opts) st) = [rl].
Proof.
  intros Hopts Hrl. every_path.
  all: try congruence.
  all: read_events; congruence.
Qed.

(** A body is closed only after a request was sent, a request is sent
    only after a token was taken, at most one token is taken, and a body
    is decoded only if it is closed in the end. *)
Lemma md_call_counts :
  let evs := eventsOf (GetChannelVideos channelID opts) st in
  length (decodedBodies evs) <= closes evs
  /\ closes evs <= length (sentRequests evs)
  /\ length (sentRequests evs) <= length (takenFrom evs)
  /\ length (takenFrom evs) <= 1.
Proof.
  cbv zeta. every_path.
  all: read_events; cbn [length]; lia.
Qed.

Lemma md_call_error_kinds r err :
  fst (GetChannelVideos channelID opts st) = Return (r, Some err) ->
  exists kind rest,
    In kind ["bad option: "; "failed to create request: ";
             "failed to execute request: ";
             "failed to read response body: ";
             "http status code is not ok: "; "failed to unmarshal response body: "]
    /\ Error err = (kind ++ rest)%string.
Proof.
  destruct (GetChannelVideos channelID opts st) as [r0 st'] eqn:Hcall.
  revert Hcall. destruct st as [c w tr].
  enter_call.
  destruct (foldOptions opts zeroRequestOptions) as [o [e0|]];
    [ norm_call | split_call ];
    intros Hrun; injection Hrun as <- _; cbn [fst]; intros [= <- <-].
  all: first
    [ exists "bad option: "; eexists; split; [cbn; tauto | reflexivity]
    | exists "failed to create request: "; eexists;
      split; [cbn; tauto | reflexivity]
    | exists "failed to execute request: "; eexists;
      split; [cbn; tauto | reflexivity]
    | exists "failed to read response body: "; eexists;
      split; [cbn; tauto | reflexivity]
    | exists "http status code is not ok: "; eexists;
      split; [cbn; tauto | reflexivity]
    | exists "failed to unmarshal response body: "; eexists;
      split; [cbn; tauto | reflexivity] ].
Qed.

Lemma md_call_sent rl hc :
  md_sendable st channelID opts rl hc ->
  sentRequests (eventsOf (GetChannelVideos channelID opts) st)
  = [(hc, md_request (self st) channelID (md_lang opts))].
Proof.
  intros (Hopts & Hrl & Hhc & Hurl).
  unfold md_lang, md_request, md_url in *. every_path.
  all: try congruence.
  all: read_events; unify_hyps; reflexivity.
Qed.

(** Once the transport has returned a response, its body is closed,
    exactly once and last of all, however the call ends. *)
Lemma md_call_released res :
  md_answered st channelID opts res ->
  closes (eventsOf (GetChannelVideos channelID opts) st) = 1
  /\ last (eventsOf (GetChannelVideos channelID opts) st) EvApplyOption = EvClose.
Proof.
  intros (rl & hc & w' & Hopts & Hrl & Hhc & Hurl & Hdo).
  unfold md_lang, md_request, md_url in *. every_path.
  all: try congruence.
  all: split; [read_events; reflexivity | now rewrite last_app_cons].
Qed.

End ChannelCounts.

(** *** What every GetTranscript call does *)

Section TranscriptCounts.
Context {E : Env}.
Context {JSON : Unmarshaler yttranscriptor.GetTranscriptResponse}.
Import yttranscriptor.

Variable videoID : string.
Variable opts : list getTranscriptOption.
Variable st : State E (Client E).

Ltac every_path :=
  unfold eventsOf;
  destruct (GetTranscript videoID opts st) as [r0 st'] eqn:Hcall;
  revert Hcall; destruct st as [c w tr]; cbn [self world trace fst snd] in *;
  enter_call;
  destruct (foldOptions opts zeroRequestOptions) as [o [e0|]];
  cbn [fst snd] in *;
  [ try discriminate; norm_call | split_call ];
  intros Hrun; injection Hrun as <- <-; flatten_trace;
  rewrite ?skipn_app_exact.

Lemma yt_call_tokens rl :
  snd (foldOptions opts zeroRequestOptions) = None ->
  rateLimit (options_ (self st)) = Some rl ->
  takenFrom (eventsOf (GetTranscript videoID opts) st) = [rl].
Proof.
  intros Hopts Hrl. every_path.
  all: try congruence.
  all: read_events; congruence.
Qed.

(** A body is closed only after a request was sent, a request is sent
    only after a token was taken, at most one token is taken, and a body
    is decoded only if it is closed in the end. *)
Lemma yt_call_counts :
  let evs := eventsOf (GetTranscript videoID opts) st in
  length (decodedBodies evs) <= closes evs
  /\ closes evs <= length (sentRequests evs)
  /\ length (sentRequests evs) <= length (takenFrom evs)
  /\ length (takenFrom evs) <= 1.
Proof.
  cbv zeta. every_path.
  all: read_events; cbn [length]; lia.
Qed.

Lemma yt_call_error_kinds r err :
  fst (GetTranscript videoID opts st) = Return (r, Some err) ->
  exists kind rest,
    In kind ["bad option: "; "failed to create request: ";
             "failed to execute request: ";
             "failed to read response body: ";
             "http status code is not ok: "; "failed to unmarshal response: "]
    /\ Error err = (kind ++ rest)%string.
Proof.
  destruct (GetTranscript videoID opts st) as [r0 st'] eqn:Hcall.
  revert Hcall. destruct st as [c w tr].
  enter_call.
  destruct (foldOptions opts zeroRequestOptions) as [o [e0|]];
    [ norm_call | split_call ];
    intros Hrun; injection Hrun as <- _; cbn [fst]; intros [= <- <-].
  all: first
    [ exists "bad option: "; eexists; split; [cbn; tauto | reflexivity]
    | exists "failed to create request: "; eexists;
      split; [cbn; tauto | reflexivity]
    | exists "failed to execute request: "; eexists;
      split; [cbn; tauto | reflexivity]
    | exists "failed to read response body: "; eexists;
      split; [cbn; tauto | reflexivity]
    | exists "http status code is not ok: "; eexists;
      split; [cbn; tauto | reflexivity]
    | exists "failed to unmarshal response: "; eexists;
      split; [cbn; tauto | reflexivity] ].
Qed.

Lemma yt_call_sent rl hc :
  yt_sendable st videoID opts rl hc ->
  sentRequests (eventsOf (GetTranscript videoID opts) st)
  = [(hc, yt_request (self st) videoID (yt_lang opts))].
Proof.
  intros (Hopts & Hrl & Hhc & Hurl).
  unfold yt_lang, yt_request, yt_url in *. every_path.
  all: try congruence.
  all: read_events; unify_hyps; reflexivity.
Qed.

(** Once the transport has returned a response, its body is closed,
    exactly once and last of all, however the call ends. *)
Lemma yt_call_released res :
  yt_answered st videoID opts res ->
  closes (eventsOf (GetTranscript videoID opts) st) = 1
  /\ last (eventsOf (GetTranscript videoID opts) st) EvApplyOption = EvClose.
Proof.
  intros (rl & hc & w' & Hopts & Hrl & Hhc & Hurl & Hdo).
  unfold yt_lang, yt_request, yt_url in *. every_path.
  all: try congruence.
  all: split; [read_events; reflexivity | now rewrite last_app_cons].
Qed.

End TranscriptCounts.

(** ** Construction options, one by one *)

Section ChannelOptions.
Context {E : Env}.
Import mediadownloader.



Lemma md_New_last apiKey (opts : list (options E -> options E * option error))
  (opt : options E -> options E * option error) :
  New apiKey (opts ++ [opt])
  = match foldOptions opts zeroOptions with
    | (_, Some e) => (None, Some (wrapError ("bad option: " ++ Error e) e))
    | (o, None) =>
        match opt o with
        | (_, Some e) => (None, Some (wrapError ("bad option: " ++ Error e) e))
        | (o', None) => (Some (mkClient apiKey (withDefaults o')), None)
        end
    end.
Proof.
  rewrite md_New_fold, foldOptions_app.
  destruct (foldOptions opts zeroOptions) as [o [e|]]; [reflexivity|].
  cbn [foldOptions]. destruct (opt o) as [o' [e|]]; reflexivity.
Qed.


Lemma md_New_last_rateLimit apiKey opts rl (c : Client E) :
  New apiKey (opts ++ [WithRateLimit rl]) = (Some c, None) ->
  rateLimit (options_ c) = Some rl.
Proof.
  rewrite md_New_last.
  destruct (foldOptions opts zeroOptions) as [o [e|]]; [discriminate|].
  cbn. intros [= <-]. unfold withDefaults. cbn.
  destruct (String.eqb (host o) EmptyString), (httpClient o); reflexivity.
Qed.

Lemma md_New_last_httpClient apiKey opts hc (c : Client E) :
  New apiKey (opts ++ [WithHttpClient hc]) = (Some c, None) ->
  httpClient (options_ c) = Some hc.
Proof.
  rewrite md_New_last.
  destruct (foldOptions opts zeroOptions) as [o [e|]]; [discriminate|].
  cbn. intros [= <-]. unfold withDefaults. cbn.
  destruct (String.eqb (host o) EmptyString), (rateLimit o); reflexivity.
Qed.

Lemma md_New_apiKey apiKey opts (c : Client E) :
  New apiKey opts = (Some c, None) -> mediadownloader.apiKey c = apiKey.
Proof.
  rewrite md_New_fold.
  destruct (foldOptions opts zeroOptions) as [o [e|]]; [discriminate|].
  now intros [= <-].
Qed.


Lemma md_request_on_wire (c : Client E) (id lang : string) :
  onTheWire (md_request c id lang) (md_url c id lang) (apiKey c)
    (host (options_ c)).
Proof.
  split; [reflexivity|]. split; [reflexivity|]. intros name. reflexivity.
Qed.

End ChannelOptions.

(** ** Construction options, one by one *)

Section TranscriptOptions.
Context {E : Env}.
Import yttranscriptor.



Lemma yt_New_last apiKey (opts : list (options E -> options E * option error))
  (opt : options E -> options E * option error) :
  New apiKey (opts ++ [opt])
  = match foldOptions opts zeroOptions with
    | (_, Some e) => (None, Some (wrapError ("bad option: " ++ Error e) e))
    | (o, None) =>
        match opt o with
        | (_, Some e) => (None, Some (wrapError ("bad option: " ++ Error e) e))
        | (o', None) => (Some (mkClient apiKey (withDefaults o')), None)
        end
    end.
Proof.
  rewrite yt_New_fold, foldOptions_app.
  destruct (foldOptions opts zeroOptions) as [o [e|]]; [reflexivity|].
  cbn [foldOptions]. destruct (opt o) as [o' [e|]]; reflexivity.
Qed.


Lemma yt_New_last_rateLimit apiKey opts rl (c : Client E) :
  New apiKey (opts ++ [WithRateLimit rl]) = (Some c, None) ->
  rateLimit (options_ c) = Some rl.
Proof.
  rewrite yt_New_last.
  destruct (foldOptions opts zeroOptions) as [o [e|]]; [discriminate|].
  cbn. intros [= <-]. unfold withDefaults. cbn.
  destruct (String.eqb (host o) EmptyString), (httpClient o); reflexivity.
Qed.

Lemma yt_New_last_httpClient apiKey opts hc (c : Client E) :
  New apiKey (opts ++ [WithHttpClient hc]) = (Some c, None) ->
  httpClient (options_ c) = Some hc.
Proof.
  rewrite yt_New_last.
  destruct (foldOptions opts zeroOptions) as [o [e|]]; [discriminate|].
  cbn. intros [= <-]. unfold withDefaults. cbn.
  destruct (String.eqb (host o) EmptyString), (rateLimit o); reflexivity.
Qed.

Lemma yt_New_apiKey apiKey opts (c : Client E) :
  New apiKey opts = (Some c, None) -> yttranscriptor.apiKey c = apiKey.
Proof.
  rewrite yt_New_fold.
  destruct (foldOptions opts zeroOptions) as [o [e|]]; [discriminate|].
  now intros [= <-].
Qed.


Lemma yt_request_on_wire (c : Client E) (id lang : string) :
  onTheWire (yt_request c id lang) (yt_url c id lang) (apiKey c)
    (host (options_ c)).
Proof.
  split; [reflexivity|]. split; [reflexivity|]. intros name. reflexivity.
Qed.

End TranscriptOptions.

(** ** The errors of a call *)

Lemma Errorf_create_request (e : error) :
  Errorf "failed to create request: %w" [argError e]
  = wrapError ("failed to create request: " ++ Error e) e.
Proof. cbn. now rewrite append_empty_r. Qed.

Lemma Errorf_execute_request (e : error) :
  Errorf "failed to execute request: %w" [argError e]
  = wrapError ("failed to execute request: " ++ Error e) e.
Proof. cbn. now rewrite append_empty_r. Qed.

Lemma Errorf_read_body (e : error) :
  Errorf "failed to read response body: %w" [argError e]
  = wrapError ("failed to read response body: " ++ Error e) e.
Proof. cbn. now rewrite append_empty_r. Qed.

Lemma Errorf_unmarshal_body (e : error) :
  Errorf "failed to unmarshal response body: %w" [argError e]
  = wrapError ("failed to unmarshal response body: " ++ Error e) e.
Proof. cbn. now rewrite append_empty_r. Qed.

Lemma Errorf_unmarshal (e : error) :
  Errorf "failed to unmarshal response: %w" [argError e]
  = wrapError ("failed to unmarshal response: " ++ Error e) e.
Proof. cbn. now rewrite append_empty_r. Qed.

Lemma Errorf_status (body : string) :
  Errorf "http status code is not ok: %s" [argString body]
  = errorString ("http status code is not ok: " ++ body).
Proof. cbn. now rewrite append_empty_r. Qed.

(** * Further properties of the two packages *)



(** X2: the limiter and the transport given to [New] are the ones a call
    uses.  On a client built with [WithRateLimit rl] as its last option,
    a call whose request options validate takes its one token from [rl];
    on a client built with [WithHttpClient hc] as its last option, a call
    whose URL parses sends its one request on [hc]. *)
Theorem X2_supplied_collaborators (E : Env)
  (J1 : Unmarshaler mediadownloader.getChannelVideosResponse)
  (J2 : Unmarshaler yttranscriptor.GetTranscriptResponse) :
  (forall apiKey copts rl c (st : State E (mediadownloader.Client E))
          channelID opts,
     mediadownloader.New apiKey (copts ++ [mediadownloader.WithRateLimit rl])
     = (Some c, None) ->
     self st = c ->
     snd (foldOptions opts mediadownloader.zeroRequestOptions) = None ->
     takenFrom (eventsOf (mediadownloader.GetChannelVideos channelID opts) st)
     = [rl])
  /\ (forall apiKey copts hc c (st : State E (mediadownloader.Client E))
             channelID opts,
        mediadownloader.New apiKey
          (copts ++ [mediadownloader.WithHttpClient hc]) = (Some c, None) ->
        self st = c ->
        snd (foldOptions opts mediadownloader.zeroRequestOptions) = None ->
        url_Parse E (md_url c channelID (md_lang opts)) = None ->
        map fst
          (sentRequests
             (eventsOf (mediadownloader.GetChannelVideos channelID opts) st))
        = [hc])
  /\ (forall apiKey copts rl c (st : State E (yttranscriptor.Client E))
             videoID opts,
        yttranscriptor.New apiKey (copts ++ [yttranscriptor.WithRateLimit rl])
        = (Some c, None) ->
        self st = c ->
        snd (foldOptions opts yttranscriptor.zeroRequestOptions) = None ->
        takenFrom (eventsOf (yttranscriptor.GetTranscript videoID opts) st)
        = [rl])
  /\ (forall apiKey copts hc c (st : State E (yttranscriptor.Client E))
             videoID opts,
        yttranscriptor.New apiKey
          (copts ++ [yttranscriptor.WithHttpClient hc]) = (Some c, None) ->
        self st = c ->
        snd (foldOptions opts yttranscriptor.zeroRequestOptions) = None ->
        url_Parse E (yt_url c videoID (yt_lang opts)) = None ->
        map fst
          (sentRequests
             (eventsOf (yttranscriptor.GetTranscript videoID opts) st))
        = [hc]).
Proof.
  repeat apply conj.
  - intros apiKey copts rl c st channelID opts Hnew <- Hopts.
    apply md_call_tokens; [assumption|].
    eapply md_New_last_rateLimit; eassumption.
  - intros apiKey copts hc c st channelID opts Hnew <- Hopts Hurl.
    destruct (md_New_ready _ _ _ Hnew) as (rl & hc' & Hrl & Hhc).
    rewrite (md_call_sent channelID opts st rl hc').
    + cbn. f_equal.
      rewrite (md_New_last_httpClient _ _ _ _ Hnew) in Hhc. congruence.
    + repeat split; assumption.
  - intros apiKey copts rl c st videoID opts Hnew <- Hopts.
    apply yt_call_tokens; [assumption|].
    eapply yt_New_last_rateLimit; eassumption.
  - intros apiKey copts hc c st videoID opts Hnew <- Hopts Hurl.
    destruct (yt_New_ready _ _ _ Hnew) as (rl & hc' & Hrl & Hhc).
    rewrite (yt_call_sent videoID opts st rl hc').
    + cbn. f_equal.
      rewrite (yt_New_last_httpClient _ _ _ _ Hnew) in Hhc. congruence.
    + repeat split; assumption.
Qed.

Lemma X2_supplied_collaborators_witness :
  takenFrom
    (eventsOf (mediadownloader.GetChannelVideos (JSON := Sample.channelJSON)
                 "UC123" [mediadownloader.WithLang "de"])
       (Sample.start
          (mediadownloader.mkClient (E := Sample.env) "key"
             (mediadownloader.mkOptions (E := Sample.env)
                "youtube-media-downloader.p.rapidapi.com"
                (Some (5%Z, Second)) (Some 0)))))
  = [(5%Z, Second)]
  /\ map fst
       (sentRequests
          (eventsOf (yttranscriptor.GetTranscript
                       (JSON := Sample.transcriptJSON) "vid1" [])
             (Sample.start
                (yttranscriptor.mkClient (E := Sample.env) "key"
                   (yttranscriptor.mkOptions (E := Sample.env)
                      "youtube-transcriptor.p.rapidapi.com"
                      (Some (10%Z, Second)) (Some 7))))))
     = [7].
Proof.
  pose proof (X2_supplied_collaborators Sample.env Sample.channelJSON
                Sample.transcriptJSON) as (Hrl & _ & _ & Hhc).
  split.
  - eapply (Hrl "key" [] (5%Z, Second)); reflexivity.
  - eapply (Hhc "key" [] 7); reflexivity.
Defined.

(** X3: what goes on the wire.  On a client obtained from [New] with the
    key [apiKey], a call whose request options validate and whose URL
    parses takes one token from the client's limiter and sends one
    request on the client's transport: a GET of the URL whose headers, read
    as net/http reads them (names in canonical form, whatever their case),
    hold [apiKey] under [X-RapidAPI-Key], the client's host under
    [X-RapidAPI-Host], and nothing else. *)
Theorem X3_request_on_the_wire (E : Env)
  (J1 : Unmarshaler mediadownloader.getChannelVideosResponse)
  (J2 : Unmarshaler yttranscriptor.GetTranscriptResponse) :
  (forall apiKey copts c (st : State E (mediadownloader.Client E))
          channelID opts,
     let url :=
       ("https://" ++ mediadownloader.host (mediadownloader.options_ c)
        ++ "/v2/channel/videos?channelId=" ++ channelID
        ++ "&lang=" ++ md_lang opts)%string in
     mediadownloader.New apiKey copts = (Some c, None) ->
     self st = c ->
     snd (foldOptions opts mediadownloader.zeroRequestOptions) = None ->
     url_Parse E url = None ->
     exists rl hc req,
       mediadownloader.rateLimit (mediadownloader.options_ c) = Some rl
       /\ mediadownloader.httpClient (mediadownloader.options_ c) = Some hc
       /\ takenFrom
            (eventsOf (mediadownloader.GetChannelVideos channelID opts) st)
          = [rl]
       /\ sentRequests
            (eventsOf (mediadownloader.GetChannelVideos channelID opts) st)
          = [(hc, req)]
       /\ onTheWire req url apiKey
            (mediadownloader.host (mediadownloader.options_ c))
       /\ http.Header_Get req "X-RapidAPI-Key" = apiKey
       /\ http.Header_Get req "x-rapidapi-host"
          = mediadownloader.host (mediadownloader.options_ c))
  /\ (forall apiKey copts c (st : State E (yttranscriptor.Client E))
             videoID opts,
        let url :=
          ("https://" ++ yttranscriptor.host (yttranscriptor.options_ c)
           ++ "/transcript?video_id=" ++ videoID
           ++ "&lang=" ++ yt_lang opts)%string in
        yttranscriptor.New apiKey copts = (Some c, None) ->
        self st = c ->
        snd (foldOptions opts yttranscriptor.zeroRequestOptions) = None ->
        url_Parse E url = None ->
        exists rl hc req,
          yttranscriptor.rateLimit (yttranscriptor.options_ c) = Some rl
          /\ yttranscriptor.httpClient (yttranscriptor.options_ c) = Some hc
          /\ takenFrom
               (eventsOf (yttranscriptor.GetTranscript videoID opts) st)
             = [rl]
          /\ sentRequests
               (eventsOf (yttranscriptor.GetTranscript videoID opts) st)
             = [(hc, req)]
          /\ onTheWire req url apiKey
               (yttranscriptor.host (yttranscriptor.options_ c))
          /\ http.Header_Get req "X-RapidAPI-Key" = apiKey
          /\ http.Header_Get req "x-rapidapi-host"
             = yttranscriptor.host (yttranscriptor.options_ c)).
Proof.
  split.
  - intros apiKey copts c st channelID opts url Hnew <- Hopts Hurl.
    subst url. rewrite <- md_url_template in *.
    destruct (md_New_ready _ _ _ Hnew) as (rl & hc & Hrl & Hhc).
    exists rl, hc, (md_request (self st) channelID (md_lang opts)).
    rewrite <- (md_New_apiKey _ _ _ Hnew).
    repeat apply conj; try assumption; try reflexivity.
    + now apply md_call_tokens.
    + apply (md_call_sent channelID opts st rl hc). repeat split; assumption.
  - intros apiKey copts c st videoID opts url Hnew <- Hopts Hurl.
    subst url. rewrite <- yt_url_template in *.
    destruct (yt_New_ready _ _ _ Hnew) as (rl & hc & Hrl & Hhc).
    exists rl, hc, (yt_request (self st) videoID (yt_lang opts)).
    rewrite <- (yt_New_apiKey _ _ _ Hnew).
    repeat apply conj; try assumption; try reflexivity.
    + now apply yt_call_tokens.
    + apply (yt_call_sent videoID opts st rl hc). repeat split; assumption.
Qed.

Lemma X3_request_on_the_wire_witness :
  exists rl hc req,
    mediadownloader.rateLimit (mediadownloader.options_ Sample.channelClient)
    = Some rl
    /\ mediadownloader.httpClient
         (mediadownloader.options_ Sample.channelClient) = Some hc
    /\ takenFrom
         (eventsOf (mediadownloader.GetChannelVideos
                      (JSON := Sample.channelJSON) "UC123" [])
            (Sample.start Sample.channelClient))
       = [rl]
    /\ sentRequests
         (eventsOf (mediadownloader.GetChannelVideos
                      (JSON := Sample.channelJSON) "UC123" [])
            (Sample.start Sample.channelClient))
       = [(hc, req)]
    /\ onTheWire req
         "https://youtube-media-downloader.p.rapidapi.com/v2/channel/videos?channelId=UC123&lang=en"
         "key" "youtube-media-downloader.p.rapidapi.com"
    /\ http.Header_Get req "X-RapidAPI-Key" = "key"
    /\ http.Header_Get req "x-rapidapi-host"
       = "youtube-media-downloader.p.rapidapi.com".
Proof.
  apply (proj1 (X3_request_on_the_wire Sample.env Sample.channelJSON
                  Sample.transcriptJSON)
           "key" [] Sample.channelClient
           (Sample.start Sample.channelClient) "UC123" []);
    reflexivity.
Defined.

(** ** Request options the packages export *)

Lemma md_exported_validate (opts : list mediadownloader.getChannelVideosOption) :
  Forall md_exportedRequest opts ->
  forall o, snd (foldOptions opts o) = None.
Proof.
  induction 1 as [|opt opts [[l ->]|[ct ->]] _ IH]; intros o; cbn;
    [reflexivity | apply IH | apply IH].
Qed.

Lemma yt_exported_validate (opts : list yttranscriptor.getTranscriptOption) :
  Forall yt_exportedRequest opts ->
  forall o, snd (foldOptions opts o) = None.
Proof.
  induction 1 as [|opt opts [l ->] _ IH]; intros o; cbn;
    [reflexivity | apply IH].
Qed.

Lemma builtURLs_only_options {E : Env} (n : nat) :
  builtURLs (E := E) (repeat EvApplyOption n) = [].
Proof. induction n as [|n IH]; [reflexivity | exact IH]. Qed.

(** ** The ways a call ends *)

(** X4: when the transport fails, the call returns no result and the error
    [failed to execute request: ] followed by the message of the
    transport's error, which it wraps; the world is the one the transport
    left; nothing is read, decoded or closed. *)
Theorem X4_transport_failure (E : Env)
  (J1 : Unmarshaler mediadownloader.getChannelVideosResponse)
  (J2 : Unmarshaler yttranscriptor.GetTranscriptResponse) :
  (forall (st : State E (mediadownloader.Client E)) channelID opts rl hc e w',
     md_sendable st channelID opts rl hc ->
     client_Do E hc (md_request (self st) channelID (md_lang opts))
       (limiter_Take E rl (world st)) = (inr e, w') ->
     fst (mediadownloader.GetChannelVideos channelID opts st)
     = Return (None,
               Some (wrapError ("failed to execute request: " ++ Error e) e))
     /\ world (snd (mediadownloader.GetChannelVideos channelID opts st)) = w'
     /\ closes (eventsOf (mediadownloader.GetChannelVideos channelID opts) st) = 0
     /\ decodedBodies (eventsOf (mediadownloader.GetChannelVideos channelID opts) st) = [])
  /\ (forall (st : State E (yttranscriptor.Client E)) videoID opts rl hc e w',
     yt_sendable st videoID opts rl hc ->
     client_Do E hc (yt_request (self st) videoID (yt_lang opts))
       (limiter_Take E rl (world st)) = (inr e, w') ->
     fst (yttranscriptor.GetTranscript videoID opts st)
     = Return (None,
               Some (wrapError ("failed to execute request: " ++ Error e) e))
     /\ world (snd (yttranscriptor.GetTranscript videoID opts st)) = w'
     /\ closes (eventsOf (yttranscriptor.GetTranscript videoID opts) st) = 0
     /\ decodedBodies (eventsOf (yttranscriptor.GetTranscript videoID opts) st) = []).
Proof.
  split.
  - intros st channelID opts rl hc e w' Hs Hdo.
    pose proof (md_run_transport_error channelID opts st rl hc e w' Hs Hdo) as Hrun.
    rewrite (eventsOf_run _ _ _ _ _ _ Hrun), Hrun. cbn [fst snd world].
    rewrite Errorf_execute_request. repeat split; read_events; reflexivity.
  - intros st videoID opts rl hc e w' Hs Hdo.
    pose proof (yt_run_transport_error videoID opts st rl hc e w' Hs Hdo) as Hrun.
    rewrite (eventsOf_run _ _ _ _ _ _ Hrun), Hrun. cbn [fst snd world].
    rewrite Errorf_execute_request. repeat split; read_events; reflexivity.
Qed.

(** X5: when the body of the response cannot be read to its end, the call
    returns no result and the error [failed to read response body: ]
    followed by the message of the read error, which it wraps, whatever
    the status code and the bytes read so far; nothing is decoded, and the
    body is closed. *)
Theorem X5_read_failure (E : Env)
  (J1 : Unmarshaler mediadownloader.getChannelVideosResponse)
  (J2 : Unmarshaler yttranscriptor.GetTranscriptResponse) :
  (forall (st : State E (mediadownloader.Client E)) channelID opts rl hc res w' read e,
     md_sendable st channelID opts rl hc ->
     client_Do E hc (md_request (self st) channelID (md_lang opts))
       (limiter_Take E rl (world st)) = (inl res, w') ->
     http.Body res = (read, Some e) ->
     fst (mediadownloader.GetChannelVideos channelID opts st)
     = Return (None,
               Some (wrapError ("failed to read response body: " ++ Error e) e))
     /\ decodedBodies (eventsOf (mediadownloader.GetChannelVideos channelID opts) st) = []
     /\ closes (eventsOf (mediadownloader.GetChannelVideos channelID opts) st) = 1)
  /\ (forall (st : State E (yttranscriptor.Client E)) videoID opts rl hc res w' read e,
     yt_sendable st videoID opts rl hc ->
     client_Do E hc (yt_request (self st) videoID (yt_lang opts))
       (limiter_Take E rl (world st)) = (inl res, w') ->
     http.Body res = (read, Some e) ->
     fst (yttranscriptor.GetTranscript videoID opts st)
     = Return (None,
               Some (wrapError ("failed to read response body: " ++ Error e) e))
     /\ decodedBodies (eventsOf (yttranscriptor.GetTranscript videoID opts) st) = []
     /\ closes (eventsOf (yttranscriptor.GetTranscript videoID opts) st) = 1).
Proof.
  split.
  - intros st channelID opts rl hc res w' read e Hs Hdo Hbody.
    pose proof (md_run_read_error channelID opts st rl hc res w' read e Hs Hdo Hbody)
      as Hrun.
    rewrite (eventsOf_run _ _ _ _ _ _ Hrun), Hrun. cbn [fst snd world].
    rewrite Errorf_read_body. repeat split; read_events; reflexivity.
  - intros st videoID opts rl hc res w' read e Hs Hdo Hbody.
    pose proof (yt_run_read_error videoID opts st rl hc res w' read e Hs Hdo Hbody)
      as Hrun.
    rewrite (eventsOf_run _ _ _ _ _ _ Hrun), Hrun. cbn [fst snd world].
    rewrite Errorf_read_body. repeat split; read_events; reflexivity.
Qed.

(** X6: when a 200 response has a body that encoding/json rejects, the
    call returns no result, whatever the decoder left in its target, and
    the error [failed to unmarshal response body: ] (channel client) or
    [failed to unmarshal response: ] (transcript client) followed by the
    message of the decode error, which it wraps; the body read is the
    text that was decoded, and it is closed. *)
Theorem X6_decode_failure (E : Env)
  (J1 : Unmarshaler mediadownloader.getChannelVideosResponse)
  (J2 : Unmarshaler yttranscriptor.GetTranscriptResponse) :
  (forall (st : State E (mediadownloader.Client E)) channelID opts rl hc res w' body v e,
     md_sendable st channelID opts rl hc ->
     client_Do E hc (md_request (self st) channelID (md_lang opts))
       (limiter_Take E rl (world st)) = (inl res, w') ->
     http.Body res = (body, None) ->
     http.StatusCode res = http.StatusOK ->
     json_Unmarshal body mediadownloader.zeroResponse = (v, Some e) ->
     fst (mediadownloader.GetChannelVideos channelID opts st)
     = Return (None,
               Some (wrapError ("failed to unmarshal response body: " ++ Error e) e))
     /\ decodedBodies (eventsOf (mediadownloader.GetChannelVideos channelID opts) st) = [body]
     /\ closes (eventsOf (mediadownloader.GetChannelVideos channelID opts) st) = 1)
  /\ (forall (st : State E (yttranscriptor.Client E)) videoID opts rl hc res w' body v e,
     yt_sendable st videoID opts rl hc ->
     client_Do E hc (yt_request (self st) videoID (yt_lang opts))
       (limiter_Take E rl (world st)) = (inl res, w') ->
     http.Body res = (body, None) ->
     http.StatusCode res = http.StatusOK ->
     json_Unmarshal body yttranscriptor.zeroResponse = (v, Some e) ->
     fst (yttranscriptor.GetTranscript videoID opts st)
     = Return (None,
               Some (wrapError ("failed to unmarshal response: " ++ Error e) e))
     /\ decodedBodies (eventsOf (yttranscriptor.GetTranscript videoID opts) st) = [body]
     /\ closes (eventsOf (yttranscriptor.GetTranscript videoID opts) st) = 1).
Proof.
  split.
  - intros st channelID opts rl hc res w' body v e Hs Hdo Hbody Hcode Hjson.
    pose proof (md_run_decode_error channelID opts st rl hc res w' body v e
                  Hs Hdo Hbody Hcode Hjson) as Hrun.
    rewrite (eventsOf_run _ _ _ _ _ _ Hrun), Hrun. cbn [fst snd world].
    rewrite Errorf_unmarshal_body. repeat split; read_events; reflexivity.
  - intros st videoID opts rl hc res w' body v e Hs Hdo Hbody Hcode Hjson.
    pose proof (yt_run_decode_error videoID opts st rl hc res w' body v e
                  Hs Hdo Hbody Hcode Hjson) as Hrun.
    rewrite (eventsOf_run _ _ _ _ _ _ Hrun), Hrun. cbn [fst snd world].
    rewrite Errorf_unmarshal. repeat split; read_events; reflexivity.
Qed.

(** X7: the token is taken before the request is built.  When the URL of
    a call does not parse, the call returns no result and the error
    [failed to create request: ] followed by the message of the parse
    error, which it wraps; by then one token of the client's limiter is
    spent, and nothing is sent. *)
Theorem X7_request_creation_failure (E : Env)
  (J1 : Unmarshaler mediadownloader.getChannelVideosResponse)
  (J2 : Unmarshaler yttranscriptor.GetTranscriptResponse) :
  (forall (st : State E (mediadownloader.Client E)) channelID opts rl e,
     snd (foldOptions opts mediadownloader.zeroRequestOptions) = None ->
     mediadownloader.rateLimit (mediadownloader.options_ (self st)) = Some rl ->
     url_Parse E (md_url (self st) channelID (md_lang opts)) = Some e ->
     fst (mediadownloader.GetChannelVideos channelID opts st)
     = Return (None,
               Some (wrapError ("failed to create request: " ++ Error e) e))
     /\ world (snd (mediadownloader.GetChannelVideos channelID opts st)) = limiter_Take E rl (world st)
     /\ takenFrom (eventsOf (mediadownloader.GetChannelVideos channelID opts) st) = [rl]
     /\ sentRequests (eventsOf (mediadownloader.GetChannelVideos channelID opts) st) = [])
  /\ (forall (st : State E (yttranscriptor.Client E)) videoID opts rl e,
     snd (foldOptions opts yttranscriptor.zeroRequestOptions) = None ->
     yttranscriptor.rateLimit (yttranscriptor.options_ (self st)) = Some rl ->
     url_Parse E (yt_url (self st) videoID (yt_lang opts)) = Some e ->
     fst (yttranscriptor.GetTranscript videoID opts st)
     = Return (None,
               Some (wrapError ("failed to create request: " ++ Error e) e))
     /\ world (snd (yttranscriptor.GetTranscript videoID opts st)) = limiter_Take E rl (world st)
     /\ takenFrom (eventsOf (yttranscriptor.GetTranscript videoID opts) st) = [rl]
     /\ sentRequests (eventsOf (yttranscriptor.GetTranscript videoID opts) st) = []).
Proof.
  split.
  - intros st channelID opts rl e Hopts Hrl Hurl.
    pose proof (md_run_bad_url channelID opts st rl e Hopts Hrl Hurl) as Hrun.
    rewrite (eventsOf_run _ _ _ _ _ _ Hrun), Hrun. cbn [fst snd world].
    rewrite Errorf_create_request. repeat split; read_events; reflexivity.
  - intros st videoID opts rl e Hopts Hrl Hurl.
    pose proof (yt_run_bad_url videoID opts st rl e Hopts Hrl Hurl) as Hrun.
    rewrite (eventsOf_run _ _ _ _ _ _ Hrun), Hrun. cbn [fst snd world].
    rewrite Errorf_create_request. repeat split; read_events; reflexivity.
Qed.

(** X8: a request option that returns an error ends the call before
    anything else happens: the call returns no result and the error
    [bad option: ] followed by the option's message, which it wraps; the
    options after it are not applied, no token is taken, no URL is built
    and the world is untouched.  No option the packages export does so:
    every list of [WithLang] and [WithContentType] options validates. *)
Theorem X8_bad_request_option (E : Env)
  (J1 : Unmarshaler mediadownloader.getChannelVideosResponse)
  (J2 : Unmarshaler yttranscriptor.GetTranscriptResponse) :
  ((forall (st : State E (mediadownloader.Client E)) channelID opts o e,
      foldOptions opts mediadownloader.zeroRequestOptions = (o, Some e) ->
      fst (mediadownloader.GetChannelVideos channelID opts st)
      = Return (None, Some (wrapError ("bad option: " ++ Error e) e))
      /\ world (snd (mediadownloader.GetChannelVideos channelID opts st)) = world st
      /\ eventsOf (mediadownloader.GetChannelVideos channelID opts) st
         = repeat EvApplyOption (appliedCount opts mediadownloader.zeroRequestOptions)
      /\ appliedCount opts mediadownloader.zeroRequestOptions <= length opts)
   /\ (forall opts,
         Forall md_exportedRequest opts ->
         snd (foldOptions opts mediadownloader.zeroRequestOptions) = None))
  /\ ((forall (st : State E (yttranscriptor.Client E)) videoID opts o e,
      foldOptions opts yttranscriptor.zeroRequestOptions = (o, Some e) ->
      fst (yttranscriptor.GetTranscript videoID opts st)
      = Return (None, Some (wrapError ("bad option: " ++ Error e) e))
      /\ world (snd (yttranscriptor.GetTranscript videoID opts st)) = world st
      /\ eventsOf (yttranscriptor.GetTranscript videoID opts) st
         = repeat EvApplyOption (appliedCount opts yttranscriptor.zeroRequestOptions)
      /\ appliedCount opts yttranscriptor.zeroRequestOptions <= length opts)
   /\ (forall opts,
         Forall yt_exportedRequest opts ->
         snd (foldOptions opts yttranscriptor.zeroRequestOptions) = None)).
Proof.
  split.
  - split.
    + intros st channelID opts o e Hfold.
      pose proof (md_run_bad_option channelID opts st o e Hfold) as Hrun.
      rewrite (eventsOf_run _ _ _ _ _ _ Hrun), Hrun. cbn [fst snd world logged].
      rewrite Errorf_bad_option. repeat split. apply appliedCount_le.
    + intros opts Hexp. apply md_exported_validate. exact Hexp.
  - split.
    + intros st videoID opts o e Hfold.
      pose proof (yt_run_bad_option videoID opts st o e Hfold) as Hrun.
      rewrite (eventsOf_run _ _ _ _ _ _ Hrun), Hrun. cbn [fst snd world logged].
      rewrite Errorf_bad_option. repeat split. apply appliedCount_le.
    + intros opts Hexp. apply yt_exported_validate. exact Hexp.
Qed.

(** X9: once the transport has returned a response, its body is closed,
    exactly once and as the last thing the call does, whether the call
    then fails to read it, rejects its status, fails to decode it or
    succeeds. *)
Theorem X9_body_released (E : Env)
  (J1 : Unmarshaler mediadownloader.getChannelVideosResponse)
  (J2 : Unmarshaler yttranscriptor.GetTranscriptResponse) :
  (forall (st : State E (mediadownloader.Client E)) channelID opts res,
     md_answered st channelID opts res ->
     closes (eventsOf (mediadownloader.GetChannelVideos channelID opts) st) = 1
     /\ last (eventsOf (mediadownloader.GetChannelVideos channelID opts) st) EvApplyOption = EvClose)
  /\ (forall (st : State E (yttranscriptor.Client E)) videoID opts res,
     yt_answered st videoID opts res ->
     closes (eventsOf (yttranscriptor.GetTranscript videoID opts) st) = 1
     /\ last (eventsOf (yttranscriptor.GetTranscript videoID opts) st) EvApplyOption = EvClose).
Proof.
  split.
  - intros st channelID opts res Hans. eapply md_call_released; eassumption.
  - intros st videoID opts res Hans. eapply yt_call_released; eassumption.
Qed.

(** X11: the status is checked before the body is decoded.  On a status
    other than 200 the body, though read and closed, is never handed to
    encoding/json, and the error returned wraps no other error. *)
Theorem X11_status_before_decode (E : Env)
  (J1 : Unmarshaler mediadownloader.getChannelVideosResponse)
  (J2 : Unmarshaler yttranscriptor.GetTranscriptResponse) :
  (forall (st : State E (mediadownloader.Client E)) channelID opts rl hc res w' body,
     md_sendable st channelID opts rl hc ->
     client_Do E hc (md_request (self st) channelID (md_lang opts))
       (limiter_Take E rl (world st)) = (inl res, w') ->
     http.Body res = (body, None) ->
     http.StatusCode res <> http.StatusOK ->
     decodedBodies (eventsOf (mediadownloader.GetChannelVideos channelID opts) st) = []
     /\ closes (eventsOf (mediadownloader.GetChannelVideos channelID opts) st) = 1
     /\ exists err,
          fst (mediadownloader.GetChannelVideos channelID opts st) = Return (None, Some err)
          /\ Unwrap err = None)
  /\ (forall (st : State E (yttranscriptor.Client E)) videoID opts rl hc res w' body,
     yt_sendable st videoID opts rl hc ->
     client_Do E hc (yt_request (self st) videoID (yt_lang opts))
       (limiter_Take E rl (world st)) = (inl res, w') ->
     http.Body res = (body, None) ->
     http.StatusCode res <> http.StatusOK ->
     decodedBodies (eventsOf (yttranscriptor.GetTranscript videoID opts) st) = []
     /\ closes (eventsOf (yttranscriptor.GetTranscript videoID opts) st) = 1
     /\ exists err,
          fst (yttranscriptor.GetTranscript videoID opts st) = Return (None, Some err)
          /\ Unwrap err = None).
Proof.
  split.
  - intros st channelID opts rl hc res w' body Hs Hdo Hbody Hcode.
    pose proof (md_run_status channelID opts st rl hc res w' body Hs Hdo Hbody Hcode)
      as Hrun.
    rewrite (eventsOf_run _ _ _ _ _ _ Hrun), Hrun. cbn [fst snd world].
    rewrite Errorf_status. repeat split; try (read_events; reflexivity).
    eexists. split; reflexivity.
  - intros st videoID opts rl hc res w' body Hs Hdo Hbody Hcode.
    pose proof (yt_run_status videoID opts st rl hc res w' body Hs Hdo Hbody Hcode)
      as Hrun.
    rewrite (eventsOf_run _ _ _ _ _ _ Hrun), Hrun. cbn [fst snd world].
    rewrite Errorf_status. repeat split; try (read_events; reflexivity).
    eexists. split; reflexivity.
Qed.

(** X14: a client that holds no limiter, as no client from [New] does,
    makes a call panic on the nil pointer when it comes to take the token:
    no token is taken, [http.NewRequest] is not called and the world is
    untouched (the URL, a string, was composed just before).  One that
    holds a limiter and no transport makes it panic after the token is
    taken and the request created, and before anything is sent. *)
Theorem X14_nil_pointers_panic (E : Env)
  (J1 : Unmarshaler mediadownloader.getChannelVideosResponse)
  (J2 : Unmarshaler yttranscriptor.GetTranscriptResponse) :
  ((forall (st : State E (mediadownloader.Client E)) channelID opts,
      snd (foldOptions opts mediadownloader.zeroRequestOptions) = None ->
      mediadownloader.rateLimit (mediadownloader.options_ (self st)) = None ->
      fst (mediadownloader.GetChannelVideos channelID opts st) = Panic "nil pointer dereference"
      /\ world (snd (mediadownloader.GetChannelVideos channelID opts st)) = world st
      /\ takenFrom (eventsOf (mediadownloader.GetChannelVideos channelID opts) st) = []
      /\ builtURLs (eventsOf (mediadownloader.GetChannelVideos channelID opts) st) = [])
   /\ (forall (st : State E (mediadownloader.Client E)) channelID opts rl,
         snd (foldOptions opts mediadownloader.zeroRequestOptions) = None ->
         mediadownloader.rateLimit (mediadownloader.options_ (self st)) = Some rl ->
         url_Parse E (md_url (self st) channelID (md_lang opts)) = None ->
         mediadownloader.httpClient (mediadownloader.options_ (self st)) = None ->
         fst (mediadownloader.GetChannelVideos channelID opts st) = Panic "nil pointer dereference"
         /\ world (snd (mediadownloader.GetChannelVideos channelID opts st)) = limiter_Take E rl (world st)
         /\ takenFrom (eventsOf (mediadownloader.GetChannelVideos channelID opts) st) = [rl]
         /\ sentRequests (eventsOf (mediadownloader.GetChannelVideos channelID opts) st) = []))
  /\ ((forall (st : State E (yttranscriptor.Client E)) videoID opts,
      snd (foldOptions opts yttranscriptor.zeroRequestOptions) = None ->
      yttranscriptor.rateLimit (yttranscriptor.options_ (self st)) = None ->
      fst (yttranscriptor.GetTranscript videoID opts st) = Panic "nil pointer dereference"
      /\ world (snd (yttranscriptor.GetTranscript videoID opts st)) = world st
      /\ takenFrom (eventsOf (yttranscriptor.GetTranscript videoID opts) st) = []
      /\ builtURLs (eventsOf (yttranscriptor.GetTranscript videoID opts) st) = [])
   /\ (forall (st : State E (yttranscriptor.Client E)) videoID opts rl,
         snd (foldOptions opts yttranscriptor.zeroRequestOptions) = None ->
         yttranscriptor.rateLimit (yttranscriptor.options_ (self st)) = Some rl ->
         url_Parse E (yt_url (self st) videoID (yt_lang opts)) = None ->
         yttranscriptor.httpClient (yttranscriptor.options_ (self st)) = None ->
         fst (yttranscriptor.GetTranscript videoID opts st) = Panic "nil pointer dereference"
         /\ world (snd (yttranscriptor.GetTranscript videoID opts st)) = limiter_Take E rl (world st)
         /\ takenFrom (eventsOf (yttranscriptor.GetTranscript videoID opts) st) = [rl]
         /\ sentRequests (eventsOf (yttranscriptor.GetTranscript videoID opts) st) = [])).
Proof.
  split.
  - split.
    + intros st channelID opts Hopts Hrl.
      pose proof (md_run_nil_limiter channelID opts st Hopts Hrl) as Hrun.
      rewrite (eventsOf_run _ _ _ _ _ _ Hrun), Hrun.
      cbn [fst snd world logged]. rewrite builtURLs_only_options.
      repeat split; read_events; reflexivity.
    + intros st channelID opts rl Hopts Hrl Hurl Hhc.
      pose proof (md_run_nil_transport channelID opts st rl Hopts Hrl Hurl Hhc)
        as Hrun.
      rewrite (eventsOf_run _ _ _ _ _ _ Hrun), Hrun.
      cbn [fst snd world]. repeat split; read_events; reflexivity.
  - split.
    + intros st videoID opts Hopts Hrl.
      pose proof (yt_run_nil_limiter videoID opts st Hopts Hrl) as Hrun.
      rewrite (eventsOf_run _ _ _ _ _ _ Hrun), Hrun.
      cbn [fst snd world logged]. rewrite builtURLs_only_options.
      repeat split; read_events; reflexivity.
    + intros st videoID opts rl Hopts Hrl Hurl Hhc.
      pose proof (yt_run_nil_transport videoID opts st rl Hopts Hrl Hurl Hhc)
        as Hrun.
      rewrite (eventsOf_run _ _ _ _ _ _ Hrun), Hrun.
      cbn [fst snd world]. repeat split; read_events; reflexivity.
Qed.

(** X16: no call is ever resubmitted.  Whatever the collaborators answer,
    a call takes at most one token, sends a request only after a token
    was taken and at most once, closes a body only if a request was sent,
    and decodes a body only if it closes one. *)
Theorem X16_no_retries (E : Env)
  (J1 : Unmarshaler mediadownloader.getChannelVideosResponse)
  (J2 : Unmarshaler yttranscriptor.GetTranscriptResponse) :
  (forall (st : State E (mediadownloader.Client E)) channelID opts,
     let evs := eventsOf (mediadownloader.GetChannelVideos channelID opts) st in
     length (decodedBodies evs) <= closes evs
     /\ closes evs <= length (sentRequests evs)
     /\ length (sentRequests evs) <= length (takenFrom evs)
     /\ length (takenFrom evs) <= 1)
  /\ (forall (st : State E (yttranscriptor.Client E)) videoID opts,
     let evs := eventsOf (yttranscriptor.GetTranscript videoID opts) st in
     length (decodedBodies evs) <= closes evs
     /\ closes evs <= length (sentRequests evs)
     /\ length (sentRequests evs) <= length (takenFrom evs)
     /\ length (takenFrom evs) <= 1).
Proof.
  split.
  - intros st channelID opts. apply md_call_counts.
  - intros st videoID opts. apply yt_call_counts.
Qed.

(** X17: every error a call returns is of one of six kinds, told by the
    head of its message: a bad option, a request that could not be
    created, a request that could not be executed, a body that could not
    be read, a status that is not 200, a body that could not be
    decoded. *)
Theorem X17_error_kinds (E : Env)
  (J1 : Unmarshaler mediadownloader.getChannelVideosResponse)
  (J2 : Unmarshaler yttranscriptor.GetTranscriptResponse) :
  (forall (st : State E (mediadownloader.Client E)) channelID opts r err,
     fst (mediadownloader.GetChannelVideos channelID opts st) = Return (r, Some err) ->
     exists kind rest,
       In kind ["bad option: "; "failed to create request: ";
                "failed to execute request: ";
                "failed to read response body: ";
                "http status code is not ok: "; "failed to unmarshal response body: "]
       /\ Error err = (kind ++ rest)%string)
  /\ (forall (st : State E (yttranscriptor.Client E)) videoID opts r err,
     fst (yttranscriptor.GetTranscript videoID opts st) = Return (r, Some err) ->
     exists kind rest,
       In kind ["bad option: "; "failed to create request: ";
                "failed to execute request: ";
                "failed to read response body: ";
                "http status code is not ok: "; "failed to unmarshal response: "]
       /\ Error err = (kind ++ rest)%string).
Proof.
  split.
  - intros st channelID opts r err. apply md_call_error_kinds.
  - intros st videoID opts r err. apply yt_call_error_kinds.
Qed.

Lemma X4_transport_failure_witness :
  fst (mediadownloader.GetChannelVideos (JSON := Sample.channelJSON)
         "down" [] (Faulty.start Faulty.channelClient))
  = Return (None,
            Some (wrapError
                    ("failed to execute request: " ++ Error Faulty.refused)
                    Faulty.refused))
  /\ world (snd (mediadownloader.GetChannelVideos
                   (JSON := Sample.channelJSON)
                   "down" [] (Faulty.start Faulty.channelClient))) = 1
  /\ closes (eventsOf (mediadownloader.GetChannelVideos
                         (JSON := Sample.channelJSON) "down" [])
               (Faulty.start Faulty.channelClient)) = 0
  /\ decodedBodies (eventsOf (mediadownloader.GetChannelVideos
                                (JSON := Sample.channelJSON) "down" [])
                      (Faulty.start Faulty.channelClient)) = [].
Proof.
  apply (proj1 (X4_transport_failure Faulty.env Sample.channelJSON
                  Sample.transcriptJSON)
           (Faulty.start Faulty.channelClient) "down" [] (3%Z, Second) 0
           Faulty.refused 1).
  - repeat split; reflexivity.
  - reflexivity.
Defined.

Lemma X5_read_failure_witness :
  fst (yttranscriptor.GetTranscript (JSON := Sample.transcriptJSON)
         "cut" [] (Faulty.start Faulty.transcriptClient))
  = Return (None,
            Some (wrapError
                    ("failed to read response body: " ++ Error Faulty.brokenOff)
                    Faulty.brokenOff))
  /\ decodedBodies (eventsOf (yttranscriptor.GetTranscript
                                (JSON := Sample.transcriptJSON) "cut" [])
                      (Faulty.start Faulty.transcriptClient)) = []
  /\ closes (eventsOf (yttranscriptor.GetTranscript
                         (JSON := Sample.transcriptJSON) "cut" [])
               (Faulty.start Faulty.transcriptClient)) = 1.
Proof.
  apply (proj2 (X5_read_failure Faulty.env Sample.channelJSON
                  Sample.transcriptJSON)
           (Faulty.start Faulty.transcriptClient) "cut" [] (10%Z, Second) 0
           {| http.StatusCode := 200;
              http.Body := ("{", Some Faulty.brokenOff) |}
           1 "{" Faulty.brokenOff).
  - repeat split; reflexivity.
  - reflexivity.
  - reflexivity.
Defined.

Lemma X6_decode_failure_witness :
  exists e,
    fst (mediadownloader.GetChannelVideos (JSON := Sample.channelJSON)
           "garbled" [] (Faulty.start Faulty.channelClient))
    = Return (None,
              Some (wrapError
                      ("failed to unmarshal response body: " ++ Error e) e))
    /\ decodedBodies (eventsOf (mediadownloader.GetChannelVideos
                                  (JSON := Sample.channelJSON) "garbled" [])
                        (Faulty.start Faulty.channelClient)) = ["<html>"]
    /\ closes (eventsOf (mediadownloader.GetChannelVideos
                           (JSON := Sample.channelJSON) "garbled" [])
                 (Faulty.start Faulty.channelClient)) = 1.
Proof.
  eexists.
  apply (proj1 (X6_decode_failure Faulty.env Sample.channelJSON
                  Sample.transcriptJSON)
           (Faulty.start Faulty.channelClient) "garbled" [] (3%Z, Second) 0
           {| http.StatusCode := 200; http.Body := ("<html>", None) |}
           1 "<html>" mediadownloader.zeroResponse).
  - repeat split; reflexivity.
  - reflexivity.
  - reflexivity.
  - reflexivity.
  - reflexivity.
Defined.

Lemma X7_request_creation_failure_witness :
  exists e,
    fst (mediadownloader.GetChannelVideos (JSON := Sample.channelJSON)
           Faulty.badID [] (Sample.start Sample.channelClient))
    = Return (None,
              Some (wrapError ("failed to create request: " ++ Error e) e))
    /\ world (snd (mediadownloader.GetChannelVideos
                     (JSON := Sample.channelJSON)
                     Faulty.badID [] (Sample.start Sample.channelClient))) = 1
    /\ takenFrom (eventsOf (mediadownloader.GetChannelVideos
                              (JSON := Sample.channelJSON) Faulty.badID [])
                    (Sample.start Sample.channelClient)) = [(3%Z, Second)]
    /\ sentRequests (eventsOf (mediadownloader.GetChannelVideos
                                 (JSON := Sample.channelJSON) Faulty.badID [])
                       (Sample.start Sample.channelClient)) = [].
Proof.
  eexists.
  apply (proj1 (X7_request_creation_failure Sample.env Sample.channelJSON
                  Sample.transcriptJSON)
           (Sample.start Sample.channelClient) Faulty.badID []
           (3%Z, Second)).
  - reflexivity.
  - reflexivity.
  - reflexivity.
Defined.

Lemma X8_bad_request_option_witness :
  fst (mediadownloader.GetChannelVideos (JSON := Sample.channelJSON) "UC123"
         [mediadownloader.WithLang "fr";
          (fun o => (o, Some (errorString "no")));
          mediadownloader.WithLang "de"]
         (Sample.start Sample.channelClient))
  = Return (None, Some (wrapError "bad option: no" (errorString "no")))
  /\ world (snd (mediadownloader.GetChannelVideos
                   (JSON := Sample.channelJSON) "UC123"
                   [mediadownloader.WithLang "fr";
                    (fun o => (o, Some (errorString "no")));
                    mediadownloader.WithLang "de"]
                   (Sample.start Sample.channelClient))) = 0
  /\ eventsOf (mediadownloader.GetChannelVideos
                 (JSON := Sample.channelJSON) "UC123"
                 [mediadownloader.WithLang "fr";
                  (fun o => (o, Some (errorString "no")));
                  mediadownloader.WithLang "de"])
       (Sample.start Sample.channelClient)
     = [EvApplyOption; EvApplyOption]
  /\ 2 <= 3.
Proof.
  apply (proj1 (proj1 (X8_bad_request_option Sample.env Sample.channelJSON
                         Sample.transcriptJSON))
           (Sample.start Sample.channelClient) "UC123"
           [mediadownloader.WithLang "fr";
            (fun o => (o, Some (errorString "no")));
            mediadownloader.WithLang "de"]
           (mediadownloader.mkGetChannelVideosOptions "fr" EmptyString)
           (errorString "no")).
  reflexivity.
Defined.

Lemma X9_body_released_witness :
  closes (eventsOf (mediadownloader.GetChannelVideos
                      (JSON := Sample.channelJSON) "nobody" [])
            (Sample.start Sample.channelClient)) = 1
  /\ last (eventsOf (mediadownloader.GetChannelVideos
                       (JSON := Sample.channelJSON) "nobody" [])
             (Sample.start Sample.channelClient)) EvApplyOption = EvClose.
Proof.
  apply (proj1 (X9_body_released Sample.env Sample.channelJSON
                  Sample.transcriptJSON)
           (Sample.start Sample.channelClient) "nobody" []
           {| http.StatusCode := 404; http.Body := ("not found", None) |}).
  exists (3%Z, Second), 0, 1. repeat split; reflexivity.
Defined.

(** X10: when the network answers a transcript call with status 200 and
    a body that encoding/json decodes without error, [GetTranscript]
    returns a pointer to the decoded transcript and no error; the text
    decoded is the body as it was read, once, and the world is the one the
    transport left. *)
Theorem X10_transcript_returned (E : Env)
  (J : Unmarshaler yttranscriptor.GetTranscriptResponse)
  (st : State E (yttranscriptor.Client E)) (videoID : string)
  (opts : list yttranscriptor.getTranscriptOption)
  (rl : Limiter E) (hc : HttpClient E) (res : http.Response) (w' : World E)
  (body : string) (transcript : yttranscriptor.GetTranscriptResponse) :
  yt_sendable st videoID opts rl hc ->
  client_Do E hc (yt_request (self st) videoID (yt_lang opts))
    (limiter_Take E rl (world st)) = (inl res, w') ->
  http.Body res = (body, None) ->
  http.StatusCode res = http.StatusOK ->
  json_Unmarshal body yttranscriptor.zeroResponse = (transcript, None) ->
  fst (yttranscriptor.GetTranscript videoID opts st)
  = Return (Some transcript, None)
  /\ world (snd (yttranscriptor.GetTranscript videoID opts st)) = w'
  /\ decodedBodies (eventsOf (yttranscriptor.GetTranscript videoID opts) st)
     = [body].
Proof.
  intros Hs Hdo Hbody Hcode Hjson.
  pose proof (yt_run_ok videoID opts st rl hc res w' body transcript
                Hs Hdo Hbody Hcode Hjson) as Hrun.
  rewrite (eventsOf_run _ _ _ _ _ _ Hrun), Hrun. cbn [fst snd world].
  repeat split; read_events; reflexivity.
Qed.

Lemma X10_transcript_returned_witness :
  fst (yttranscriptor.GetTranscript (JSON := Sample.transcriptJSON)
         "vid1" [] (Sample.start Sample.transcriptClient))
  = Return (Some (fst (Sample.transcriptJSON Sample.transcriptBody
                         yttranscriptor.zeroResponse)), None)
  /\ world (snd (yttranscriptor.GetTranscript (JSON := Sample.transcriptJSON)
                   "vid1" [] (Sample.start Sample.transcriptClient))) = 1
  /\ decodedBodies (eventsOf (yttranscriptor.GetTranscript
                                (JSON := Sample.transcriptJSON) "vid1" [])
                      (Sample.start Sample.transcriptClient))
     = [Sample.transcriptBody].
Proof.
  apply (X10_transcript_returned Sample.env Sample.transcriptJSON
           (Sample.start Sample.transcriptClient) "vid1" [] (10%Z, Second) 0
           {| http.StatusCode := 200;
              http.Body := (Sample.transcriptBody, None) |} 1).
  - repeat split; reflexivity.
  - reflexivity.
  - reflexivity.
  - reflexivity.
  - reflexivity.
Defined.

Lemma X11_status_before_decode_witness :
  decodedBodies (eventsOf (mediadownloader.GetChannelVideos
                             (JSON := Sample.channelJSON) "nobody" [])
                   (Sample.start Sample.channelClient)) = []
  /\ closes (eventsOf (mediadownloader.GetChannelVideos
                         (JSON := Sample.channelJSON) "nobody" [])
               (Sample.start Sample.channelClient)) = 1
  /\ exists err,
       fst (mediadownloader.GetChannelVideos (JSON := Sample.channelJSON)
              "nobody" [] (Sample.start Sample.channelClient))
       = Return (None, Some err)
       /\ Unwrap err = None.
Proof.
  apply (proj1 (X11_status_before_decode Sample.env Sample.channelJSON
                  Sample.transcriptJSON)
           (Sample.start Sample.channelClient) "nobody" [] (3%Z, Second) 0
           {| http.StatusCode := 404; http.Body := ("not found", None) |}
           1 "not found").
  - repeat split; reflexivity.
  - reflexivity.
  - reflexivity.
  - discriminate.
Defined.

Lemma X14_nil_pointers_panic_witness :
  fst (mediadownloader.GetChannelVideos (JSON := Sample.channelJSON)
         "UC123" []
         (Sample.start
            (mediadownloader.mkClient (E := Sample.env) "key"
               mediadownloader.zeroOptions)))
  = Panic "nil pointer dereference"
  /\ world (snd (mediadownloader.GetChannelVideos
                   (JSON := Sample.channelJSON) "UC123" []
                   (Sample.start
                      (mediadownloader.mkClient (E := Sample.env) "key"
                         mediadownloader.zeroOptions)))) = 0
  /\ takenFrom (eventsOf (mediadownloader.GetChannelVideos
                            (JSON := Sample.channelJSON) "UC123" [])
                  (Sample.start
                     (mediadownloader.mkClient (E := Sample.env) "key"
                        mediadownloader.zeroOptions))) = []
  /\ builtURLs (eventsOf (mediadownloader.GetChannelVideos
                            (JSON := Sample.channelJSON) "UC123" [])
                  (Sample.start
                     (mediadownloader.mkClient (E := Sample.env) "key"
                        mediadownloader.zeroOptions))) = [].
Proof.
  apply (proj1 (proj1 (X14_nil_pointers_panic Sample.env Sample.channelJSON
                         Sample.transcriptJSON))
           (Sample.start
              (mediadownloader.mkClient (E := Sample.env) "key"
                 mediadownloader.zeroOptions)) "UC123" []);
    reflexivity.
Defined.

Lemma X17_error_kinds_witness :
  exists kind rest,
    In kind ["bad option: "; "failed to create request: ";
             "failed to execute request: ";
             "failed to read response body: ";
             "http status code is not ok: ";
             "failed to unmarshal response body: "]
    /\ Error (errorString "http status code is not ok: not found")
       = (kind ++ rest)%string.
Proof.
  apply (proj1 (X17_error_kinds Sample.env Sample.channelJSON
                  Sample.transcriptJSON)
           (Sample.start Sample.channelClient) "nobody" [] None).
  reflexivity.
Defined.

(** ** The language of a call *)

Lemma md_defaults_lang (o1 o2 : mediadownloader.getChannelVideosOptions) :
  mediadownloader.lang o1 = mediadownloader.lang o2 ->
  mediadownloader.lang (mediadownloader.withRequestDefaults o1)
  = mediadownloader.lang (mediadownloader.withRequestDefaults o2).
Proof.
  destruct o1 as [l1 c1], o2 as [l2 c2]. cbn. intros ->.
  unfold mediadownloader.withRequestDefaults. cbn.
  destruct (String.eqb l2 EmptyString); cbn;
    destruct (String.eqb c1 mediadownloader.ContentTypeUndefined),
             (String.eqb c2 mediadownloader.ContentTypeUndefined);
    reflexivity.
Qed.

Lemma md_fold_lang (opts : list mediadownloader.getChannelVideosOption) :
  Forall md_exportedRequest opts ->
  forall o1 o2,
    mediadownloader.lang o1 = mediadownloader.lang o2 ->
    mediadownloader.lang (fst (foldOptions opts o1))
    = mediadownloader.lang (fst (foldOptions opts o2)).
Proof.
  induction 1 as [|opt opts [[l ->]|[ct ->]] _ IH]; intros o1 o2 Hl; cbn.
  - exact Hl.
  - apply IH. reflexivity.
  - apply IH. exact Hl.
Qed.

Lemma md_lang_last (opts : list mediadownloader.getChannelVideosOption) l :
  snd (foldOptions opts mediadownloader.zeroRequestOptions) = None ->
  md_lang (opts ++ [mediadownloader.WithLang l])
  = if String.eqb l EmptyString then "en" else l.
Proof.
  intros Hopts. unfold md_lang.
  unfold mediadownloader.getChannelVideosOption in opts.
  rewrite (foldOptions_app opts [mediadownloader.WithLang l]).
  destruct (foldOptions opts mediadownloader.zeroRequestOptions)
    as [o [e|]]; [discriminate|].
  unfold mediadownloader.withRequestDefaults. cbn.
  destruct (String.eqb l EmptyString); cbn;
    destruct (String.eqb (mediadownloader.contentType o)
                mediadownloader.ContentTypeUndefined);
    reflexivity.
Qed.

Lemma yt_lang_last (opts : list yttranscriptor.getTranscriptOption) l :
  snd (foldOptions opts yttranscriptor.zeroRequestOptions) = None ->
  yt_lang (opts ++ [yttranscriptor.WithLang l])
  = if String.eqb l EmptyString then "en" else l.
Proof.
  intros Hopts. unfold yt_lang.
  unfold yttranscriptor.getTranscriptOption in opts.
  rewrite (foldOptions_app opts [yttranscriptor.WithLang l]).
  destruct (foldOptions opts yttranscriptor.zeroRequestOptions)
    as [o [e|]]; [discriminate|].
  unfold yttranscriptor.withRequestDefaults. cbn.
  destruct (String.eqb l EmptyString); reflexivity.
Qed.

Lemma md_lang_without_contentType
  (pre post : list mediadownloader.getChannelVideosOption) ct :
  Forall md_exportedRequest pre ->
  Forall md_exportedRequest post ->
  md_lang (pre ++ mediadownloader.WithContentType ct :: post)
  = md_lang (pre ++ post).
Proof.
  intros Hpre Hpost. unfold md_lang.
  pose proof (md_exported_validate pre Hpre
                mediadownloader.zeroRequestOptions) as Hv.
  unfold mediadownloader.getChannelVideosOption in pre, post.
  rewrite (foldOptions_app pre (mediadownloader.WithContentType ct :: post)).
  rewrite (foldOptions_app pre post).
  destruct (foldOptions pre mediadownloader.zeroRequestOptions)
    as [o [e|]]; [discriminate|].
  cbn [foldOptions mediadownloader.WithContentType].
  apply md_defaults_lang. apply md_fold_lang; [exact Hpost | reflexivity].
Qed.

(** X12: the language of a call is the one of the last [WithLang], [en]
    standing for the empty one, whatever validating options come before
    it; and for the channel client no [WithContentType], wherever it
    stands among exported options, changes the language, hence the URL. *)
Theorem X12_last_language_wins :
  (forall opts l,
     snd (foldOptions opts mediadownloader.zeroRequestOptions) = None ->
     md_lang (opts ++ [mediadownloader.WithLang l])
     = if String.eqb l EmptyString then "en" else l)
  /\ (forall pre post ct,
        Forall md_exportedRequest pre ->
        Forall md_exportedRequest post ->
        md_lang (pre ++ mediadownloader.WithContentType ct :: post)
        = md_lang (pre ++ post))
  /\ (forall opts l,
        snd (foldOptions opts yttranscriptor.zeroRequestOptions) = None ->
        yt_lang (opts ++ [yttranscriptor.WithLang l])
        = if String.eqb l EmptyString then "en" else l).
Proof.
  repeat apply conj.
  - apply md_lang_last.
  - apply md_lang_without_contentType.
  - apply yt_lang_last.
Qed.

Lemma X12_last_language_wins_witness :
  md_lang ([mediadownloader.WithLang "fr";
            mediadownloader.WithContentType mediadownloader.ContentTypeLive]
           ++ [mediadownloader.WithLang "de"]) = "de"
  /\ md_lang ([mediadownloader.WithLang "fr"]
              ++ mediadownloader.WithContentType
                   mediadownloader.ContentTypeShorts
              :: [mediadownloader.WithLang "de"])
     = md_lang ([mediadownloader.WithLang "fr"]
                ++ [mediadownloader.WithLang "de"])
  /\ yt_lang ([yttranscriptor.WithLang "fr"]
              ++ [yttranscriptor.WithLang EmptyString]) = "en".
Proof.
  pose proof X12_last_language_wins as (Hlast & Hct & Hyt).
  repeat apply conj.
  - apply (Hlast [mediadownloader.WithLang "fr";
                  mediadownloader.WithContentType
                    mediadownloader.ContentTypeLive] "de").
    reflexivity.
  - apply Hct.
    + constructor; [left; now exists "fr" | constructor].
    + constructor; [left; now exists "de" | constructor].
  - apply (Hyt [yttranscriptor.WithLang "fr"] EmptyString). reflexivity.
Defined.

(** ** The full text of two transcripts *)

Lemma concat_app_nonempty (sep : string) (l1 l2 : list string) :
  l1 <> [] -> l2 <> [] ->
  String.concat sep (l1 ++ l2)
  = (String.concat sep l1 ++ sep ++ String.concat sep l2)%string.
Proof.
  intros H1 H2. induction l1 as [|x l1 IH]; [contradiction|].
  destruct l1 as [|y l1].
  - destruct l2 as [|z l2]; [contradiction | reflexivity].
  - change (String.concat sep ((x :: y :: l1) ++ l2))
      with (x ++ sep ++ String.concat sep ((y :: l1) ++ l2))%string.
    rewrite IH by discriminate.
    change (String.concat sep (x :: y :: l1))
      with (x ++ sep ++ String.concat sep (y :: l1))%string.
    now rewrite !append_assoc.
Qed.

(** X13: the full text of a transcript whose segments are those of one
    transcript followed by those of another is the two full texts with
    one space between them, when both have segments, and the full text of
    the other when one has none. *)
Theorem X13_full_text_of_two
  (g g1 g2 : yttranscriptor.GetTranscriptResponse) :
  elems (yttranscriptor.Transcription_ g)
  = elems (yttranscriptor.Transcription_ g1)
    ++ elems (yttranscriptor.Transcription_ g2) ->
  yttranscriptor.String_ g
  = match elems (yttranscriptor.Transcription_ g1),
          elems (yttranscriptor.Transcription_ g2) with
    | [], _ => yttranscriptor.String_ g2
    | _, [] => yttranscriptor.String_ g1
    | _, _ =>
        (yttranscriptor.String_ g1 ++ " " ++ yttranscriptor.String_ g2)%string
    end.
Proof.
  intros Hg. rewrite !String_is_joined, Hg. unfold joinedSubtitles.
  destruct (elems (yttranscriptor.Transcription_ g1)) as [|t1 ts1].
  - reflexivity.
  - destruct (elems (yttranscriptor.Transcription_ g2)) as [|t2 ts2].
    + now rewrite app_nil_r.
    + rewrite map_app. apply concat_app_nonempty; discriminate.
Qed.

Lemma X13_full_text_of_two_witness :
  yttranscriptor.String_
    (yttranscriptor.mkGetTranscriptResponse EmptyString EmptyString None
       EmptyString None
       (Some [Sample.segment "Hello"; Sample.segment "big";
              Sample.segment "world"]))
  = (yttranscriptor.String_
       (yttranscriptor.mkGetTranscriptResponse EmptyString EmptyString None
          EmptyString None (Some [Sample.segment "Hello"]))
     ++ " "
     ++ yttranscriptor.String_
          (yttranscriptor.mkGetTranscriptResponse EmptyString EmptyString
             None EmptyString None
             (Some [Sample.segment "big"; Sample.segment "world"])))%string.
Proof.
  apply (X13_full_text_of_two
           (yttranscriptor.mkGetTranscriptResponse EmptyString EmptyString
              None EmptyString None
              (Some [Sample.segment "Hello"; Sample.segment "big";
                     Sample.segment "world"]))
           (yttranscriptor.mkGetTranscriptResponse EmptyString EmptyString
              None EmptyString None (Some [Sample.segment "Hello"]))
           (yttranscriptor.mkGetTranscriptResponse EmptyString EmptyString
              None EmptyString None
              (Some [Sample.segment "big"; Sample.segment "world"]))).
  reflexivity.
Defined.

(** ** One call after another *)

Section TwoCalls.
Context {E : Env}.

Lemma md_two_calls
  {J : Unmarshaler mediadownloader.getChannelVideosResponse}
  (st : State E (mediadownloader.Client E)) a b opts1 opts2 rl hc :
  mediadownloader.rateLimit (mediadownloader.options_ (self st)) = Some rl ->
  mediadownloader.httpClient (mediadownloader.options_ (self st)) = Some hc ->
  snd (foldOptions opts1 mediadownloader.zeroRequestOptions) = None ->
  snd (foldOptions opts2 mediadownloader.zeroRequestOptions) = None ->
  let first := mediadownloader.GetChannelVideos a opts1 in
  let second := mediadownloader.GetChannelVideos b opts2 in
  let both := bind first (fun _ => second) in
  eventsOf both st = eventsOf first st ++ eventsOf second (snd (first st))
  /\ takenFrom (eventsOf both st) = [rl; rl]
  /\ self (snd (both st)) = self st.
Proof.
  intros Hrl Hhc Ho1 Ho2 first second both. subst first second both.
  destruct (md_call_total a opts1 st rl hc Hrl Hhc)
    as (items & err & Hfst & _).
  pose proof (md_call_frame a opts1 st) as Hself.
  pose proof (md_call_events a opts1 st) as (Htr1 & _).
  pose proof (md_call_tokens a opts1 st rl Ho1 Hrl) as Htok1.
  unfold bind.
  destruct (mediadownloader.GetChannelVideos a opts1 st) as [r st1] eqn:H1.
  cbn [fst snd] in *. subst r.
  pose proof (md_call_frame b opts2 st1) as Hself2.
  pose proof (md_call_events b opts2 st1) as (Htr2 & _).
  rewrite <- Hself in Hrl.
  pose proof (md_call_tokens b opts2 st1 rl Ho2 Hrl) as Htok2.
  assert (Hev : eventsOf
                  (fun s =>
                     match mediadownloader.GetChannelVideos a opts1 s with
                     | (Return _, s') =>
                         mediadownloader.GetChannelVideos b opts2 s'
                     | (Panic msg, s') => (Panic msg, s')
                     end) st
                = eventsOf (mediadownloader.GetChannelVideos a opts1) st
                  ++ eventsOf (mediadownloader.GetChannelVideos b opts2) st1).
  { apply eventsOf_trace. rewrite H1, Htr2, Htr1.
    now rewrite <- app_assoc. }
  split; [exact Hev|]. split.
  - rewrite Hev, takenFrom_app, Htok1, Htok2. reflexivity.
  - congruence.
Qed.

Lemma yt_two_calls
  {J : Unmarshaler yttranscriptor.GetTranscriptResponse}
  (st : State E (yttranscriptor.Client E)) a b opts1 opts2 rl hc :
  yttranscriptor.rateLimit (yttranscriptor.options_ (self st)) = Some rl ->
  yttranscriptor.httpClient (yttranscriptor.options_ (self st)) = Some hc ->
  snd (foldOptions opts1 yttranscriptor.zeroRequestOptions) = None ->
  snd (foldOptions opts2 yttranscriptor.zeroRequestOptions) = None ->
  let first := yttranscriptor.GetTranscript a opts1 in
  let second := yttranscriptor.GetTranscript b opts2 in
  let both := bind first (fun _ => second) in
  eventsOf both st = eventsOf first st ++ eventsOf second (snd (first st))
  /\ takenFrom (eventsOf both st) = [rl; rl]
  /\ self (snd (both st)) = self st.
Proof.
  intros Hrl Hhc Ho1 Ho2 first second both. subst first second both.
  destruct (yt_call_total a opts1 st rl hc Hrl Hhc)
    as (items & err & Hfst & _).
  pose proof (yt_call_frame a opts1 st) as Hself.
  pose proof (yt_call_events a opts1 st) as (Htr1 & _).
  pose proof (yt_call_tokens a opts1 st rl Ho1 Hrl) as Htok1.
  unfold bind.
  destruct (yttranscriptor.GetTranscript a opts1 st) as [r st1] eqn:H1.
  cbn [fst snd] in *. subst r.
  pose proof (yt_call_frame b opts2 st1) as Hself2.
  pose proof (yt_call_events b opts2 st1) as (Htr2 & _).
  rewrite <- Hself in Hrl.
  pose proof (yt_call_tokens b opts2 st1 rl Ho2 Hrl) as Htok2.
  assert (Hev : eventsOf
                  (fun s =>
                     match yttranscriptor.GetTranscript a opts1 s with
                     | (Return _, s') =>
                         yttranscriptor.GetTranscript b opts2 s'
                     | (Panic msg, s') => (Panic msg, s')
                     end) st
                = eventsOf (yttranscriptor.GetTranscript a opts1) st
                  ++ eventsOf (yttranscriptor.GetTranscript b opts2) st1).
  { apply eventsOf_trace. rewrite H1, Htr2, Htr1.
    now rewrite <- app_assoc. }
  split; [exact Hev|]. split.
  - rewrite Hev, takenFrom_app, Htok1, Htok2. reflexivity.
  - congruence.
Qed.

End TwoCalls.

(** X15: two calls on one client, one after the other.  On a client that
    holds a limiter and a transport, with request options that validate,
    the second call runs whatever the first returned, in the world the
    first left; the events are those of the first followed by those of
    the second; each takes its own token from the same limiter, two in
    all; and the client is still the one it was. *)
Theorem X15_one_call_after_another (E : Env)
  (J1 : Unmarshaler mediadownloader.getChannelVideosResponse)
  (J2 : Unmarshaler yttranscriptor.GetTranscriptResponse) :
  (forall (st : State E (mediadownloader.Client E)) a b opts1 opts2 rl hc,
     mediadownloader.rateLimit (mediadownloader.options_ (self st)) = Some rl ->
     mediadownloader.httpClient (mediadownloader.options_ (self st)) = Some hc ->
     snd (foldOptions opts1 mediadownloader.zeroRequestOptions) = None ->
     snd (foldOptions opts2 mediadownloader.zeroRequestOptions) = None ->
     let first := mediadownloader.GetChannelVideos a opts1 in
     let second := mediadownloader.GetChannelVideos b opts2 in
     let both := bind first (fun _ => second) in
     eventsOf both st = eventsOf first st ++ eventsOf second (snd (first st))
     /\ takenFrom (eventsOf both st) = [rl; rl]
     /\ self (snd (both st)) = self st)
  /\ (forall (st : State E (yttranscriptor.Client E)) a b opts1 opts2 rl hc,
        yttranscriptor.rateLimit (yttranscriptor.options_ (self st)) = Some rl ->
        yttranscriptor.httpClient (yttranscriptor.options_ (self st)) = Some hc ->
        snd (foldOptions opts1 yttranscriptor.zeroRequestOptions) = None ->
        snd (foldOptions opts2 yttranscriptor.zeroRequestOptions) = None ->
        let first := yttranscriptor.GetTranscript a opts1 in
        let second := yttranscriptor.GetTranscript b opts2 in
        let both := bind first (fun _ => second) in
        eventsOf both st = eventsOf first st ++ eventsOf second (snd (first st))
        /\ takenFrom (eventsOf both st) = [rl; rl]
        /\ self (snd (both st)) = self st).
Proof.
  split.
  - intros st a b opts1 opts2 rl hc. apply md_two_calls.
  - intros st a b opts1 opts2 rl hc. apply yt_two_calls.
Qed.

Lemma X15_one_call_after_another_witness :
  takenFrom
    (eventsOf
       (bind (mediadownloader.GetChannelVideos (JSON := Sample.channelJSON)
                "nobody" [])
          (fun _ =>
             mediadownloader.GetChannelVideos (JSON := Sample.channelJSON)
               "UC123" [mediadownloader.WithLang "en"]))
       (Sample.start Sample.channelClient))
  = [(3%Z, Second); (3%Z, Second)].
Proof.
  apply (proj1 (X15_one_call_after_another Sample.env Sample.channelJSON
                  Sample.transcriptJSON)
           (Sample.start Sample.channelClient) "nobody" "UC123" []
           [mediadownloader.WithLang "en"] (3%Z, Second) 0);
    reflexivity.
Defined.

(** * The option values and the results of a call *)

(** *** What GetChannelVideos returns *)

Section ChannelOutcome.
Context {E : Env}.
Context {JSON : Unmarshaler mediadownloader.getChannelVideosResponse}.
Import mediadownloader.

Variable channelID : string.
Variable opts : list getChannelVideosOption.
Variable st : State E (Client E).


End ChannelOutcome.

(** *** What GetTranscript returns *)

Section TranscriptOutcome.
Context {E : Env}.
Context {JSON : Unmarshaler yttranscriptor.GetTranscriptResponse}.
Import yttranscriptor.

Variable videoID : string.
Variable opts : list getTranscriptOption.
Variable st : State E (Client E).


End TranscriptOutcome.


Section EmptyLast.
Context {E : Env}.
Hypothesis parse_bare_scheme : url_Parse E "https://" = None.



End EmptyLast.

Section EmptyLangLast.
Context {E : Env}.



End EmptyLangLast.






